(** * SSH message builder (drivers/misc/surface_aggregator/ssh_msgb.h)

    A shallow embedding of the message-buffer helpers of the Surface
    Serial Hub driver, and the properties of the frames they build.

    Pointers are addresses in a flat, byte-addressed memory.  Addresses
    are unbounded integers: pointer arithmetic that leaves its object is
    not defined by C, and the model keeps the mathematical address so
    that a write past the end of the buffer is visible as a write to the
    next addresses.  Integers of a fixed width are integers with the
    reduction modulo 2^w written out at each conversion. *)

From Stdlib Require Import ZArith List Bool Lia.
From Stdlib Require String.
Import ListNotations.
Open Scope Z_scope.

(** ** Fixed-width conversions and the flat memory *)

Definition u8 (v : Z) : Z := v mod 256.
Definition u16 (v : Z) : Z := v mod 65536.

Definition mem : Type := Z -> Z.

(** One byte cell overwritten; every other cell kept. *)
Definition poke (m : mem) (p b : Z) : mem :=
  fun a => if a =? p then b else m a.

(** The C assignment [*(u8 * )p = v]: the value is converted to u8. *)
Definition store8 (m : mem) (p v : Z) : mem := poke m p (u8 v).

Fixpoint load_bytes (m : mem) (p : Z) (n : nat) : list Z :=
  match n with
  | O => []
  | S n' => m p :: load_bytes m (p + 1) n'
  end.

Fixpoint store_bytes (m : mem) (p : Z) (bs : list Z) : mem :=
  match bs with
  | [] => m
  | b :: bs' => store_bytes (poke m p b) (p + 1) bs'
  end.

(** Modelled from the spec: [memcpy(dst, src, len)] is the kernel's
    library routine; it copies [len] bytes from [src] to [dst].  The
    source bytes are read, then written.  (For overlapping regions C
    leaves memcpy undefined; the theorems below that depend on the
    copied bytes assume the regions apart.) *)
Definition memcpy (m : mem) (dst src len : Z) : mem :=
  store_bytes m dst (load_bytes m src (Z.to_nat len)).

(** Modelled from the spec: [put_unaligned_le16(val, p)] is defined in
    asm/unaligned.h; it writes the 16-bit value in little-endian order,
    the low byte at [p] and the high byte at [p + 1]. *)
Definition put_unaligned_le16 (val p : Z) (m : mem) : mem :=
  store8 (store8 m p (u16 val)) (p + 1) (Z.shiftr (u16 val) 8).

(** The two bytes of a 16-bit value in little-endian order: the low
    byte, then the high byte. *)
Definition le16 (v : Z) : list Z := [u16 v mod 256; u16 v / 256].

(** ** What linux/surface_aggregator/serial_hub.h provides

    The protocol constants and the CRC function are declared in that
    header; the builder is verified for any values of their C types:
    a u16 SYN marker, u8 type tags and a CRC returning a u16. *)
Class serial_hub : Type := {
  SSH_MSG_SYN : Z;
  SSH_FRAME_TYPE_DATA_SEQ : Z;
  SSH_FRAME_TYPE_ACK : Z;
  SSH_FRAME_TYPE_NAK : Z;
  SSH_PLD_TYPE_CMD : Z;
  ssh_crc : list Z -> Z;
  SSH_MSG_SYN_u16 : 0 <= SSH_MSG_SYN < 65536;
  SSH_FRAME_TYPE_DATA_SEQ_u8 : 0 <= SSH_FRAME_TYPE_DATA_SEQ < 256;
  SSH_FRAME_TYPE_ACK_u8 : 0 <= SSH_FRAME_TYPE_ACK < 256;
  SSH_FRAME_TYPE_NAK_u8 : 0 <= SSH_FRAME_TYPE_NAK < 256;
  SSH_PLD_TYPE_CMD_u8 : 0 <= SSH_PLD_TYPE_CMD < 256;
  ssh_crc_u16 : forall bs, 0 <= ssh_crc bs < 65536
}.

(** Modelled from the spec: [struct ssh_frame] is declared in
    serial_hub.h.  Its layout is type (1 byte), payload length (2 bytes,
    little-endian), sequence number (1 byte), 4 bytes in all. *)
Definition sizeof_ssh_frame : Z := 4.
Definition frame_type_off : Z := 0.
Definition frame_len_off : Z := 1.
Definition frame_seq_off : Z := 3.

(** Modelled from the spec: [struct ssh_command] is declared in
    serial_hub.h.  Its fields, in order: payload-type tag, target
    category, outbound target id, inbound target id, instance id
    (1 byte each), request id (2 bytes, little-endian), command id
    (1 byte), packed. *)
Definition sizeof_ssh_command : Z := 8.
Definition cmd_type_off : Z := 0.
Definition cmd_tc_off : Z := 1.
Definition cmd_tid_out_off : Z := 2.
Definition cmd_tid_in_off : Z := 3.
Definition cmd_iid_off : Z := 4.
Definition cmd_rqid_off : Z := 5.
Definition cmd_cid_off : Z := 7.

Definition sizeof_u16 : Z := 2.

(** Modelled from the spec: [struct ssam_request] is declared in
    controller.h.  A request bundles target category, target id,
    instance id, command id, a pointer to the payload and the payload
    length (16 bits). *)
Record ssam_request : Type := {
  target_category : Z;
  target_id : Z;
  command_id : Z;
  instance_id : Z;
  length : Z;
  payload : Z
}.

(** The payload length is a u16. *)
Definition request_ok (r : ssam_request) : Prop := 0 <= length r < 65536.

(** ** The message buffer *)

Record msgbuf : Type := {
  begin : Z;
  end_ : Z;
  ptr : Z
}.

(** The builder's view of the machine: the buffer struct, the memory it
    points into, and the number of WARN_ON reports raised so far. *)
Record state : Type := {
  msgb : msgbuf;
  heap : mem;
  warnings : nat
}.

Definition set_ptr (s : state) (p : Z) : state :=
  {| msgb := {| begin := begin (msgb s); end_ := end_ (msgb s); ptr := p |};
     heap := heap s; warnings := warnings s |}.

Definition set_heap (s : state) (m : mem) : state :=
  {| msgb := msgb s; heap := m; warnings := warnings s |}.

(** [WARN_ON(c)] evaluates to [c] and reports when [c] holds. *)
Definition WARN_ON (c : bool) (s : state) : bool * state :=
  (c, if c then {| msgb := msgb s; heap := heap s; warnings := S (warnings s) |}
      else s).

Section Builder.
Context {hub : serial_hub}.

Definition msgb_init (s : state) (p cap : Z) : state :=
  {| msgb := {| begin := p; end_ := p + cap; ptr := p |};
     heap := heap s; warnings := warnings s |}.

Definition msgb_bytes_used (s : state) : Z := ptr (msgb s) - begin (msgb s).

Definition msgb_push_u16 (s : state) (value : Z) : state :=
  let (w, s) := WARN_ON (ptr (msgb s) + sizeof_u16 >? end_ (msgb s)) s in
  if w then s
  else
    let s := set_heap s (put_unaligned_le16 value (ptr (msgb s)) (heap s)) in
    set_ptr s (ptr (msgb s) + sizeof_u16).

Definition msgb_push_syn (s : state) : state := msgb_push_u16 s SSH_MSG_SYN.

Definition msgb_push_buf (s : state) (buf len : Z) : state :=
  set_ptr (set_heap s (memcpy (heap s) (ptr (msgb s)) buf len))
          (ptr (msgb s) + len).

Definition msgb_push_crc (s : state) (buf len : Z) : state :=
  msgb_push_u16 s (ssh_crc (load_bytes (heap s) buf (Z.to_nat len))).

Definition msgb_push_frame (s : state) (ty len seq : Z) : state :=
  let frame := ptr (msgb s) in
  let begin_ := ptr (msgb s) in
  let (w, s) := WARN_ON (ptr (msgb s) + sizeof_ssh_frame >? end_ (msgb s)) s in
  if w then s
  else
    let s := set_heap s (store8 (heap s) (frame + frame_type_off) ty) in
    let s := set_heap s (put_unaligned_le16 len (frame + frame_len_off) (heap s)) in
    let s := set_heap s (store8 (heap s) (frame + frame_seq_off) seq) in
    let s := set_ptr s (ptr (msgb s) + sizeof_ssh_frame) in
    msgb_push_crc s begin_ (ptr (msgb s) - begin_).

Definition msgb_push_ack (s : state) (seq : Z) : state :=
  let s := msgb_push_syn s in
  let s := msgb_push_frame s SSH_FRAME_TYPE_ACK 0 seq in
  msgb_push_crc s (ptr (msgb s)) 0.

Definition msgb_push_nak (s : state) : state :=
  let s := msgb_push_syn s in
  let s := msgb_push_frame s SSH_FRAME_TYPE_NAK 0 0 in
  msgb_push_crc s (ptr (msgb s)) 0.

Definition msgb_push_cmd (s : state) (seq rqid : Z) (rqst : ssam_request)
  : state :=
  let type := SSH_FRAME_TYPE_DATA_SEQ in
  let s := msgb_push_syn s in
  let s := msgb_push_frame s type (sizeof_ssh_command + length rqst) seq in
  let (w, s) := WARN_ON (ptr (msgb s) + sizeof_ssh_command >? end_ (msgb s)) s in
  if w then s
  else
    let cmd_begin := ptr (msgb s) in
    let cmd := ptr (msgb s) in
    let s := set_heap s (store8 (heap s) (cmd + cmd_type_off) SSH_PLD_TYPE_CMD) in
    let s := set_heap s (store8 (heap s) (cmd + cmd_tc_off) (target_category rqst)) in
    let s := set_heap s (store8 (heap s) (cmd + cmd_tid_out_off) (target_id rqst)) in
    let s := set_heap s (store8 (heap s) (cmd + cmd_tid_in_off) 0) in
    let s := set_heap s (store8 (heap s) (cmd + cmd_iid_off) (instance_id rqst)) in
    let s := set_heap s (put_unaligned_le16 rqid (cmd + cmd_rqid_off) (heap s)) in
    let s := set_heap s (store8 (heap s) (cmd + cmd_cid_off) (command_id rqst)) in
    let s := set_ptr s (ptr (msgb s) + sizeof_ssh_command) in
    let s := msgb_push_buf s (payload rqst) (length rqst) in
    msgb_push_crc s cmd_begin (ptr (msgb s) - cmd_begin).

End Builder.

(** The stand-in constants of the test suite: SYN = 0xAAAA, ACK = 0x01,
    NAK = 0x02, sequenced command = 0x03, and the sum of the bytes modulo
    65536 as checksum.  The payload-type tag is 0x80. *)
Definition byte_sum (bs : list Z) : Z := fold_right Z.add 0 bs mod 65536.

#[refine] Instance test_hub : serial_hub := {|
  SSH_MSG_SYN := 0xAAAA;
  SSH_FRAME_TYPE_DATA_SEQ := 0x03;
  SSH_FRAME_TYPE_ACK := 0x01;
  SSH_FRAME_TYPE_NAK := 0x02;
  SSH_PLD_TYPE_CMD := 0x80;
  ssh_crc := byte_sum
|}.
Proof.
  all: try lia.
  intro bs. apply Z.mod_pos_bound. lia.
Defined.

(** A memory of zero bytes and a state over it, for examples. *)
Definition zero_mem : mem := fun _ => 0.
Definition boot : state :=
  {| msgb := {| begin := 0; end_ := 0; ptr := 0 |};
     heap := zero_mem; warnings := O |}.

(** ** The byte layouts the builder is expected to produce *)

(** The four bytes of a frame header. *)
Definition frame_bytes (ty len seq : Z) : list Z :=
  u8 ty :: le16 len ++ [u8 seq].

(** The eight bytes of a command header for request [rqst] under request
    id [rqid]; the payload-type tag is passed in. *)
Definition command_bytes (tag rqid : Z) (rqst : ssam_request) : list Z :=
  [u8 tag; u8 (target_category rqst); u8 (target_id rqst); 0;
   u8 (instance_id rqst)] ++ le16 rqid ++ [u8 (command_id rqst)].

(** The bytes of the request's payload as memory [m] holds them. *)
Definition payload_bytes (m : mem) (rqst : ssam_request) : list Z :=
  load_bytes m (payload rqst) (Z.to_nat (length rqst)).

(** The buffer invariant: begin <= ptr <= end. *)
Definition msgb_inv (b : msgbuf) : Prop := begin b <= ptr b <= end_ b.

(** [m'] differs from [m] at most inside [lo, hi). *)
Definition same_outside (lo hi : Z) (m m' : mem) : Prop :=
  forall a, a < lo \/ hi <= a -> m' a = m a.

(** The address ranges [a, a + n) and [b, b + k) do not meet. *)
Definition apart (a n b k : Z) : Prop := a + n <= b \/ b + k <= a.

(** The wire size of a message with [n] payload bytes: SYN, frame
    header, header checksum, payload, payload checksum. *)
Definition message_length (n : Z) : Z := 2 + 4 + 2 + n + 2.

(** The wire message around the frame payload [pl]: SYN, frame header,
    header checksum, payload, payload checksum. *)
Definition message_bytes {hub : serial_hub} (ty len seq : Z) (pl : list Z)
  : list Z :=
  le16 SSH_MSG_SYN ++ frame_bytes ty len seq
    ++ le16 (ssh_crc (frame_bytes ty len seq)) ++ pl ++ le16 (ssh_crc pl).

(** What precedes the payload in that message. *)
Definition preamble_bytes {hub : serial_hub} (ty len seq : Z) : list Z :=
  le16 SSH_MSG_SYN ++ frame_bytes ty len seq
    ++ le16 (ssh_crc (frame_bytes ty len seq)).

(** [appended s s' bs]: state [s'] is state [s] with exactly the bytes
    [bs] written at the cursor of [s] and the cursor moved past them;
    no other byte of memory changed and nothing was reported. *)
Record appended (s s' : state) (bs : list Z) : Prop := {
  app_begin : begin (msgb s') = begin (msgb s);
  app_end : end_ (msgb s') = end_ (msgb s);
  app_ptr : ptr (msgb s') = ptr (msgb s) + Z.of_nat (List.length bs);
  app_bytes : load_bytes (heap s') (ptr (msgb s)) (List.length bs) = bs;
  app_rest : same_outside (ptr (msgb s))
               (ptr (msgb s) + Z.of_nat (List.length bs)) (heap s) (heap s');
  app_quiet : warnings s' = warnings s
}.

(** [s] after one more WARN_ON report, otherwise untouched. *)
Definition reported (s : state) : state :=
  {| msgb := msgb s; heap := heap s; warnings := S (warnings s) |}.

(** [s'] keeps the buffer of [s] in order: same bounds, cursor between
    them, and no byte outside [begin, end) changed. *)
Definition in_bounds_step (s s' : state) : Prop :=
  msgb_inv (msgb s') /\
  begin (msgb s') = begin (msgb s) /\
  end_ (msgb s') = end_ (msgb s) /\
  same_outside (begin (msgb s)) (end_ (msgb s)) (heap s) (heap s').

(** The request of the command scenario: category 0x02, target 0x01,
    instance 0x00, command 0x09, two payload bytes 0xDE 0xAD, kept at
    address 500 of [example_heap]. *)
Definition example_rqst : ssam_request :=
  {| target_category := 0x02; target_id := 0x01; command_id := 0x09;
     instance_id := 0x00; length := 2; payload := 500 |}.
Definition example_heap : mem := store_bytes zero_mem 500 [0xDE; 0xAD].
Definition example_state : state := set_heap boot example_heap.

(** [pushed k s s' bs]: as [appended], but with [k] WARN_ON reports
    raised on the way: the bytes [bs] were written at the cursor of [s],
    the cursor moved past them, and no other byte of memory changed. *)
Record pushed (k : nat) (s s' : state) (bs : list Z) : Prop := {
  psh_begin : begin (msgb s') = begin (msgb s);
  psh_end : end_ (msgb s') = end_ (msgb s);
  psh_ptr : ptr (msgb s') = ptr (msgb s) + Z.of_nat (List.length bs);
  psh_bytes : load_bytes (heap s') (ptr (msgb s)) (List.length bs) = bs;
  psh_rest : same_outside (ptr (msgb s))
               (ptr (msgb s) + Z.of_nat (List.length bs)) (heap s) (heap s');
  psh_reports : warnings s' = (k + warnings s)%nat
}.

(** [reach n s s']: from [s] to [s'] the bounds of the buffer are kept,
    the cursor moved forward by at most [n], no byte outside the [n]
    bytes from the old cursor on changed, and no report was lost. *)
Definition reach (n : Z) (s s' : state) : Prop :=
  begin (msgb s') = begin (msgb s) /\
  end_ (msgb s') = end_ (msgb s) /\
  ptr (msgb s) <= ptr (msgb s') <= ptr (msgb s) + n /\
  same_outside (ptr (msgb s)) (ptr (msgb s) + n) (heap s) (heap s') /\
  (warnings s <= warnings s')%nat.

(** The bytes left between the cursor and the end of the buffer. *)
Definition room (s : state) : Z := end_ (msgb s) - ptr (msgb s).

(** What a payload-less message of type [ty] and sequence number [seq]
    leaves in the buffer, by the room [r] it found: [m] is the state
    after the three pushes (SYN, frame, empty-payload checksum) from
    [s]. *)
Definition bare_profile {hub : serial_hub} (s m : state) (ty seq : Z) : Prop :=
  (10 <= room s -> pushed 0 s m (message_bytes ty 0 seq [])) /\
  (8 <= room s < 10 -> pushed 1 s m (preamble_bytes ty 0 seq)) /\
  (6 <= room s < 8 -> pushed 2 s m (le16 SSH_MSG_SYN ++ frame_bytes ty 0 seq)) /\
  (4 <= room s < 6 -> pushed 1 s m (le16 SSH_MSG_SYN ++ le16 (ssh_crc []))) /\
  (2 <= room s < 4 -> pushed 2 s m (le16 SSH_MSG_SYN)) /\
  (room s < 2 -> pushed 3 s m []).

(** ** The hot-plug signalling driver (clients/surface_hotplug.c)

    The driver talks to GPIO, ACPI, interrupt and device-management
    services of the kernel.  Their answers are taken from a [platform],
    a record of what each service returns for given arguments, and every
    call the driver makes is recorded, in order, as an [event].  A
    driver function is a [run]: from the device data to its result, the
    device data afterwards and the calls it made.  One function is run
    at a time; the mutexes appear as lock and unlock events. *)
Module Shps.
Import String.

(** Conversion to unsigned int. *)
Definition u32 (v : Z) : Z := v mod 2 ^ 32.

Definition SHPS_DSM_REVISION : Z := 1.

(** enum shps_dsm_fn *)
Definition SHPS_DSM_FN_PCI_NUM_ENTRIES : Z := 0x01.
Definition SHPS_DSM_FN_PCI_GET_ENTRIES : Z := 0x02.
Definition SHPS_DSM_FN_IRQ_BASE_PRESENCE : Z := 0x03.
Definition SHPS_DSM_FN_IRQ_DEVICE_POWER : Z := 0x04.
Definition SHPS_DSM_FN_IRQ_DEVICE_PRESENCE : Z := 0x05.

(** enum shps_irq_type *)
Definition SHPS_IRQ_TYPE_BASE_PRESENCE : Z := 0.
Definition SHPS_IRQ_TYPE_DEVICE_POWER : Z := 1.
Definition SHPS_IRQ_TYPE_DEVICE_PRESENCE : Z := 2.
Definition SHPS_NUM_IRQS : Z := 3.

(** The table shps_gpio_names[], read at an index 0, 1 or 2. *)
Definition shps_gpio_names (type : Z) : string :=
  if type =? SHPS_IRQ_TYPE_BASE_PRESENCE then "base_presence"
  else if type =? SHPS_IRQ_TYPE_DEVICE_POWER then "device_power"
  else "device_presence".

(** ((unsigned int)-1) *)
Definition SHPS_IRQ_NOT_PRESENT : Z := u32 (-1).

(** BIT(n) of linux/bits.h. *)
Definition BIT (n : Z) : Z := Z.shiftl 1 n.

(** struct shps_device, without the mutexes: the arrays gpio[] and irq[]
    as functions of the index; a NULL descriptor is [None]. *)
Record shps_device : Type := {
  gpio : Z -> option Z;
  irq : Z -> Z
}.

(** The view of union acpi_object the driver takes: the type tag and
    the buffer member. *)
Record acpi_object : Type := {
  obj_type : Z;
  buffer_length : Z;
  buffer_pointer : Z -> Z
}.

(** What the kernel answers.  Constants of its headers come first; then
    one field per service, giving its return value by the arguments the
    driver varies.  devm_gpiod_get answers a descriptor ([inl]) or an
    ERR_PTR ([inr], with the value PTR_ERR gives). *)
Record platform : Type := {
  ENODEV : Z;
  ENOMEM : Z;
  ACPI_TYPE_INTEGER : Z;
  ACPI_TYPE_BUFFER : Z;
  IRQ_HANDLED : Z;
  gpiod_count : Z;
  devm_acpi_dev_add_driver_gpios : Z;
  devm_kzalloc : bool;
  acpi_check_dsm : Z -> Z -> bool;
  devm_gpiod_get : string -> Z + Z;
  gpiod_to_irq : Z -> Z;
  devm_kasprintf : Z -> bool;
  devm_request_threaded_irq : Z -> Z;
  gpiod_get_value_cansleep : option Z -> Z;
  acpi_evaluate_dsm : Z -> Z -> Z -> option acpi_object
}.

(** The messages of dev_err, dev_dbg and WARN, by their place in the
    source. *)
Inductive message : Type :=
| failed_to_get_gpio (type value : Z)
| dsm_irq_notification (type value : Z)
| dsm_failed (type value : Z)
| dsm_unexpected_result_type (type value : Z)
| dsm_unexpected_result_value (type value : Z)
| invalid_irq_number (irq : Z)
| dsm_not_present (type : Z)
| set_up_irq (irq type : Z)
| gpiod_count_negative
| failed_to_add_gpios (status : Z)
| failed_to_set_up_irq (i status : Z).

Inductive event : Type :=
| call_mutex_init (i : Z)
| call_mutex_lock (i : Z)
| call_mutex_unlock (i : Z)
| call_gpiod_get_value_cansleep (desc : option Z)
| call_acpi_evaluate_dsm (rev func param_type param_value : Z)
| call_ACPI_FREE
| call_acpi_check_dsm (rev funcs : Z)
| call_devm_gpiod_get (name : string)
| call_gpiod_to_irq (desc : Z)
| call_devm_kasprintf (type : Z)
| call_devm_request_threaded_irq (irq : Z)
| call_disable_irq (irq : Z)
| call_gpiod_count
| call_devm_acpi_dev_add_driver_gpios
| call_devm_kzalloc
| call_platform_set_drvdata
| dev_err (m : message)
| dev_dbg (m : message)
| WARN (m : message).

Definition run (A : Type) : Type := shps_device -> A * shps_device * list event.

Definition ret {A : Type} (a : A) : run A := fun sd => (a, sd, []).

Definition bind {A B : Type} (m : run A) (k : A -> run B) : run B :=
  fun sd =>
    let '(a, sd1, l1) := m sd in
    let '(b, sd2, l2) := k a sd1 in
    (b, sd2, l1 ++ l2).

Definition call (e : event) : run unit := fun sd => (tt, sd, [e]).

Definition drvdata : run shps_device := fun sd => (sd, sd, []).

Definition set_gpio (type : Z) (d : option Z) : run unit :=
  fun sd => (tt, {| gpio := fun i => if i =? type then d else gpio sd i;
                    irq := irq sd |}, []).

Definition set_irq (type : Z) (n : Z) : run unit :=
  fun sd => (tt, {| gpio := gpio sd;
                    irq := fun i => if i =? type then n else irq sd i |}, []).

Notation "x <- m ;; k" := (bind m (fun x => k))
  (at level 61, m at next level, right associativity).
Notation "m ;; k" := (bind m (fun _ => k))
  (at level 61, right associativity).

Definition result_of {A : Type} (r : A * shps_device * list event) : A :=
  fst (fst r).
Definition device_of {A : Type} (r : A * shps_device * list event)
  : shps_device := snd (fst r).
Definition events_of {A : Type} (r : A * shps_device * list event)
  : list event := snd r.

Definition shps_dsm_notify_irq (pf : platform) (type : Z) : run unit :=
  sdev <- drvdata ;;
  call (call_mutex_lock type) ;;
  call (call_gpiod_get_value_cansleep (gpio sdev type)) ;;
  let value := gpiod_get_value_cansleep pf (gpio sdev type) in
  if value <? 0 then
    call (call_mutex_unlock type) ;;
    call (dev_err (failed_to_get_gpio type value))
  else
    call (dev_dbg (dsm_irq_notification type value)) ;;
    call (call_acpi_evaluate_dsm SHPS_DSM_REVISION
            (SHPS_DSM_FN_IRQ_BASE_PRESENCE + type)
            (ACPI_TYPE_INTEGER pf) value) ;;
    match acpi_evaluate_dsm pf SHPS_DSM_REVISION
            (SHPS_DSM_FN_IRQ_BASE_PRESENCE + type) value with
    | None =>
        call (call_mutex_unlock type) ;;
        call (dev_err (dsm_failed type value))
    | Some result =>
        (if negb (obj_type result =? ACPI_TYPE_BUFFER pf)
         then call (dev_err (dsm_unexpected_result_type type value))
         else ret tt) ;;
        (if negb (buffer_length result =? 1)
            || negb (buffer_pointer result 0 =? 0)
         then call (dev_err (dsm_unexpected_result_value type value))
         else ret tt) ;;
        call (call_mutex_unlock type) ;;
        call call_ACPI_FREE
    end.

(** The search loop of shps_handle_irq: [type] counts up while [n]
    iterations remain; the int [irq] is compared as unsigned int. *)
Fixpoint shps_irq_lookup (sdev : shps_device) (irq_ : Z) (type : Z) (n : nat)
  : Z :=
  match n with
  | O => type
  | S n' =>
      if u32 irq_ =? irq sdev type then type
      else shps_irq_lookup sdev irq_ (type + 1) n'
  end.

Definition shps_handle_irq (pf : platform) (irq_ : Z) : run Z :=
  sdev <- drvdata ;;
  let type := shps_irq_lookup sdev irq_ 0 (Z.to_nat SHPS_NUM_IRQS) in
  if type >=? SHPS_NUM_IRQS then
    call (WARN (invalid_irq_number irq_)) ;;
    ret (IRQ_HANDLED pf)
  else
    shps_dsm_notify_irq pf type ;;
    ret (IRQ_HANDLED pf).

Definition shps_setup_irq (pf : platform) (type : Z) : run Z :=
  let dsm := SHPS_DSM_FN_IRQ_BASE_PRESENCE + type in
  set_gpio type None ;;
  set_irq type SHPS_IRQ_NOT_PRESENT ;;
  call (call_acpi_check_dsm SHPS_DSM_REVISION (BIT dsm)) ;;
  if negb (acpi_check_dsm pf SHPS_DSM_REVISION (BIT dsm)) then
    call (dev_dbg (dsm_not_present type)) ;;
    ret 0
  else
    call (call_devm_gpiod_get (shps_gpio_names type)) ;;
    match devm_gpiod_get pf (shps_gpio_names type) with
    | inr err => ret err
    | inl gpiod =>
        call (call_gpiod_to_irq gpiod) ;;
        let irq_ := gpiod_to_irq pf gpiod in
        if irq_ <? 0 then ret irq_
        else
          call (call_devm_kasprintf type) ;;
          if negb (devm_kasprintf pf type) then ret (- ENOMEM pf)
          else
            call (call_devm_request_threaded_irq irq_) ;;
            let status := devm_request_threaded_irq pf irq_ in
            if negb (status =? 0) then ret status
            else
              call (dev_dbg (set_up_irq irq_ type)) ;;
              set_gpio type (Some gpiod) ;;
              set_irq type (u32 irq_) ;;
              ret 0
    end.

(** The first loop of surface_hotplug_probe, from index [i] with [n]
    iterations left; its result is the status probe returns from inside
    the loop, or 0 when the loop runs to its end. *)
Fixpoint probe_setup_loop (pf : platform) (i : Z) (n : nat) : run Z :=
  match n with
  | O => ret 0
  | S n' =>
      call (call_mutex_init i) ;;
      status <- shps_setup_irq pf i ;;
      if negb (status =? 0) then
        call (dev_err (failed_to_set_up_irq i status)) ;;
        ret status
      else probe_setup_loop pf (i + 1) n'
  end.

(** The second loop of surface_hotplug_probe. *)
Fixpoint probe_notify_loop (pf : platform) (i : Z) (n : nat) : run unit :=
  match n with
  | O => ret tt
  | S n' =>
      sdev <- drvdata ;;
      (if negb (irq sdev i =? SHPS_IRQ_NOT_PRESENT)
       then shps_dsm_notify_irq pf i
       else ret tt) ;;
      probe_notify_loop pf (i + 1) n'
  end.

(** The device data devm_kzalloc hands out: all zero. *)
Definition zeroed : shps_device := {| gpio := fun _ => None; irq := fun _ => 0 |}.

Definition surface_hotplug_probe (pf : platform) : run Z :=
  call call_gpiod_count ;;
  if gpiod_count pf <? 0 then
    call (dev_err gpiod_count_negative) ;;
    ret (- ENODEV pf)
  else
    call call_devm_acpi_dev_add_driver_gpios ;;
    let status := devm_acpi_dev_add_driver_gpios pf in
    if negb (status =? 0) then
      call (dev_err (failed_to_add_gpios status)) ;;
      ret status
    else
      call call_devm_kzalloc ;;
      if negb (devm_kzalloc pf) then ret (- ENOMEM pf)
      else
        (fun _ => (tt, zeroed, [call_platform_set_drvdata])) ;;
        status <- probe_setup_loop pf 0 (Z.to_nat SHPS_NUM_IRQS) ;;
        if negb (status =? 0) then ret status
        else
          probe_notify_loop pf 0 (Z.to_nat SHPS_NUM_IRQS) ;;
          ret 0.

Fixpoint remove_loop (i : Z) (n : nat) : run unit :=
  match n with
  | O => ret tt
  | S n' =>
      sdev <- drvdata ;;
      (if negb (irq sdev i =? SHPS_IRQ_NOT_PRESENT)
       then call (call_disable_irq (irq sdev i))
       else ret tt) ;;
      remove_loop (i + 1) n'
  end.

Definition surface_hotplug_remove : run Z :=
  remove_loop 0 (Z.to_nat SHPS_NUM_IRQS) ;;
  ret 0.

(** *** What the properties below speak of *)

Definition is_dsm_eval (e : event) : bool :=
  match e with call_acpi_evaluate_dsm _ _ _ _ => true | _ => false end.

Definition is_free (e : event) : bool :=
  match e with call_ACPI_FREE => true | _ => false end.

Definition is_dev_err (e : event) : bool :=
  match e with dev_err _ => true | _ => false end.

(** The calls a notification makes: locking, reading the GPIO,
    evaluating the DSM, freeing its result. *)
Definition is_notify_call (e : event) : bool :=
  match e with
  | call_mutex_lock _ | call_mutex_unlock _
  | call_gpiod_get_value_cansleep _ | call_acpi_evaluate_dsm _ _ _ _
  | call_ACPI_FREE => true
  | _ => false
  end.

(** The index an event belongs to, for the calls that carry one. *)
Definition touches_index (j : Z) (e : event) : bool :=
  match e with
  | call_mutex_init i | call_mutex_lock i | call_mutex_unlock i
  | call_devm_kasprintf i => i =? j
  | call_acpi_check_dsm _ mask => mask =? BIT (SHPS_DSM_FN_IRQ_BASE_PRESENCE + j)
  | call_acpi_evaluate_dsm _ func _ _ =>
      func =? SHPS_DSM_FN_IRQ_BASE_PRESENCE + j
  | _ => false
  end.

(** A log keeps the lock discipline from the state [held] (the index of
    the mutex held, if any) when a mutex is locked only while none is
    held, unlocked only while it is the one held, the GPIO is read and
    the DSM evaluated only while one is held, and none is held at the
    end. *)
Fixpoint well_locked (held : option Z) (l : list event) : bool :=
  match l with
  | [] => match held with None => true | Some _ => false end
  | call_mutex_lock i :: l' =>
      match held with None => well_locked (Some i) l' | Some _ => false end
  | call_mutex_unlock i :: l' =>
      match held with
      | Some j => (i =? j) && well_locked None l'
      | None => false
      end
  | call_gpiod_get_value_cansleep _ :: l'
  | call_acpi_evaluate_dsm _ _ _ _ :: l' =>
      match held with Some _ => well_locked held l' | None => false end
  | _ :: l' => well_locked held l'
  end.

(** What the driver relies on in the kernel's answers: the error
    numbers are positive, an ERR_PTR carries a negative errno, and an
    interrupt number is an int. *)
Definition platform_ok (pf : platform) : Prop :=
  0 < ENODEV pf /\ 0 < ENOMEM pf /\
  (forall name err, devm_gpiod_get pf name = inr err -> err < 0) /\
  (forall d, gpiod_to_irq pf d < 2 ^ 31).

(** Every slot of the device data is marked not present or holds a
    descriptor and a non-negative interrupt number. *)
Definition slots_ok (sd : shps_device) : Prop :=
  forall i, 0 <= i < SHPS_NUM_IRQS ->
    (irq sd i = SHPS_IRQ_NOT_PRESENT /\ gpio sd i = None) \/
    (0 <= irq sd i < 2 ^ 31 /\ gpio sd i <> None).

(** Whether the platform lets interrupt [type] be set up: its DSM
    function is absent, or descriptor, interrupt number, name and
    request all succeed. *)
Definition irq_setup_ok (pf : platform) (type : Z) : bool :=
  negb (acpi_check_dsm pf SHPS_DSM_REVISION
          (BIT (SHPS_DSM_FN_IRQ_BASE_PRESENCE + type)))
  || match devm_gpiod_get pf (shps_gpio_names type) with
     | inr _ => false
     | inl gpiod =>
         (0 <=? gpiod_to_irq pf gpiod)
         && devm_kasprintf pf type
         && (devm_request_threaded_irq pf (gpiod_to_irq pf gpiod) =? 0)
     end.

(** Slot [type] of the device data is as a successful set-up leaves it:
    not present when the DSM function is absent, and otherwise the
    descriptor the platform hands out with its interrupt number. *)
Definition slot_set_up (pf : platform) (sd : shps_device) (type : Z) : Prop :=
  (acpi_check_dsm pf SHPS_DSM_REVISION
     (BIT (SHPS_DSM_FN_IRQ_BASE_PRESENCE + type)) = false /\
   gpio sd type = None /\ irq sd type = SHPS_IRQ_NOT_PRESENT) \/
  (acpi_check_dsm pf SHPS_DSM_REVISION
     (BIT (SHPS_DSM_FN_IRQ_BASE_PRESENCE + type)) = true /\
   exists gpiod,
     devm_gpiod_get pf (shps_gpio_names type) = inl gpiod /\
     gpio sd type = Some gpiod /\
     irq sd type = gpiod_to_irq pf gpiod /\
     0 <= gpiod_to_irq pf gpiod < 2 ^ 31).

(** The calls probe makes before it sets up the interrupts. *)
Definition probe_prologue : list event :=
  [call_gpiod_count; call_devm_acpi_dev_add_driver_gpios; call_devm_kzalloc;
   call_platform_set_drvdata].

(** A platform for examples: base presence and device presence have
    their DSM function, device power has not; every service succeeds;
    the GPIO lines read 1 and the DSM answers a one-byte buffer holding
    0.  Descriptors are 100 + index, interrupt numbers 40 + index
    (descriptor - 60, capped at 1023). *)
Definition example_platform : platform := {|
  ENODEV := 19; ENOMEM := 12;
  ACPI_TYPE_INTEGER := 1; ACPI_TYPE_BUFFER := 3; IRQ_HANDLED := 1;
  gpiod_count := 6;
  devm_acpi_dev_add_driver_gpios := 0;
  devm_kzalloc := true;
  acpi_check_dsm := fun _ mask => negb (mask =? 16);
  devm_gpiod_get := fun name =>
    if String.eqb name "base_presence" then inl 100
    else if String.eqb name "device_power" then inl 101 else inl 102;
  gpiod_to_irq := fun d => Z.min (d - 60) 1023;
  devm_kasprintf := fun _ => true;
  devm_request_threaded_irq := fun _ => 0;
  gpiod_get_value_cansleep := fun _ => 1;
  acpi_evaluate_dsm := fun _ _ _ =>
    Some {| obj_type := 3; buffer_length := 1; buffer_pointer := fun _ => 0 |}
|}.

(** A platform with all three DSM functions present on which the
    request of interrupt 41 (device power) fails with -16. *)
Definition failing_platform : platform := {|
  ENODEV := 19; ENOMEM := 12;
  ACPI_TYPE_INTEGER := 1; ACPI_TYPE_BUFFER := 3; IRQ_HANDLED := 1;
  gpiod_count := 6;
  devm_acpi_dev_add_driver_gpios := 0;
  devm_kzalloc := true;
  acpi_check_dsm := fun _ mask => true;
  devm_gpiod_get := fun name =>
    if String.eqb name "base_presence" then inl 100
    else if String.eqb name "device_power" then inl 101 else inl 102;
  gpiod_to_irq := fun d => Z.min (d - 60) 1023;
  devm_kasprintf := fun _ => true;
  devm_request_threaded_irq := fun n => if n =? 41 then -16 else 0;
  gpiod_get_value_cansleep := fun _ => 1;
  acpi_evaluate_dsm := fun _ _ _ =>
    Some {| obj_type := 3; buffer_length := 1; buffer_pointer := fun _ => 0 |}
|}.

End Shps.

(** ** Sanity checks on concrete inputs *)

Example ack_bytes_test :
  load_bytes (heap (msgb_push_ack (msgb_init boot 100 16) 5)) 100 10
  = [0xAA; 0xAA; 0x01; 0x00; 0x00; 0x05; 0x06; 0x00; 0x00; 0x00].
Proof. vm_compute. reflexivity. Qed.

Example cmd_bytes_test :
  let s := msgb_push_cmd (msgb_init example_state 100 32) 1 7 example_rqst in
  load_bytes (heap s) 100 20
  = [0xAA; 0xAA; 0x03; 0x0A; 0x00; 0x01; 0x0E; 0x00;
     0x80; 0x02; 0x01; 0x00; 0x00; 0x07; 0x00; 0x09; 0xDE; 0xAD; 0x1E; 0x02]
  /\ msgb_bytes_used s = 20.
Proof. vm_compute. split; reflexivity. Qed.

Example probe_test :
  Shps.result_of (Shps.surface_hotplug_probe Shps.example_platform Shps.zeroed) = 0
  /\ map (Shps.irq (Shps.device_of
            (Shps.surface_hotplug_probe Shps.example_platform Shps.zeroed)))
         [0; 1; 2]
     = [40; 4294967295; 42]
  /\ filter Shps.is_dsm_eval
       (Shps.events_of
          (Shps.surface_hotplug_probe Shps.example_platform Shps.zeroed))
     = [Shps.call_acpi_evaluate_dsm 1 3 1 1; Shps.call_acpi_evaluate_dsm 1 5 1 1].
Proof. vm_compute. repeat split; reflexivity. Qed.

(** ** Facts about the memory operations *)

Lemma u8_range v : 0 <= u8 v < 256.
Proof. unfold u8. apply Z.mod_pos_bound. lia. Qed.

Lemma u16_range v : 0 <= u16 v < 65536.
Proof. unfold u16. apply Z.mod_pos_bound. lia. Qed.

Lemma u8_small v : 0 <= v < 256 -> u8 v = v.
Proof. intro H. unfold u8. apply Z.mod_small. exact H. Qed.

Lemma u16_small v : 0 <= v < 65536 -> u16 v = v.
Proof. intro H. unfold u16. apply Z.mod_small. exact H. Qed.

Lemma shiftr8_high v : u8 (Z.shiftr (u16 v) 8) = u16 v / 256.
Proof.
  rewrite Z.shiftr_div_pow2 by lia. change (2 ^ 8) with 256.
  apply u8_small. pose proof (u16_range v). split.
  - apply Z.div_pos; lia.
  - apply Z.div_lt_upper_bound; lia.
Qed.

(** The two bytes decode back to the 16-bit value. *)
Lemma le16_decode v b0 b1 :
  le16 v = [b0; b1] ->
  0 <= b0 < 256 /\ 0 <= b1 < 256 /\ b0 + 256 * b1 = u16 v.
Proof.
  unfold le16. intro H. inversion H; subst; clear H.
  pose proof (u16_range v) as R.
  pose proof (Z.mod_pos_bound (u16 v) 256 ltac:(lia)).
  pose proof (Z.div_mod (u16 v) 256 ltac:(lia)).
  assert (0 <= u16 v / 256) by (apply Z.div_pos; lia).
  assert (u16 v / 256 < 256) by (apply Z.div_lt_upper_bound; lia).
  lia.
Qed.

Lemma poke_eq m p b : poke m p b p = b.
Proof. unfold poke. rewrite Z.eqb_refl. reflexivity. Qed.

Lemma poke_neq m p b a : a <> p -> poke m p b a = m a.
Proof. intro H. unfold poke. destruct (Z.eqb_spec a p); [contradiction | reflexivity]. Qed.

Lemma store8_eq m p v : store8 m p v p = u8 v.
Proof. apply poke_eq. Qed.

Lemma store8_neq m p v a : a <> p -> store8 m p v a = m a.
Proof. apply poke_neq. Qed.

Lemma put_unaligned_le16_bytes val p m :
  load_bytes (put_unaligned_le16 val p m) p 2 = le16 val.
Proof.
  unfold put_unaligned_le16, le16. cbn [load_bytes].
  rewrite store8_neq by lia. rewrite !store8_eq.
  rewrite shiftr8_high. reflexivity.
Qed.

Lemma put_unaligned_le16_other val p m a :
  a <> p -> a <> p + 1 -> put_unaligned_le16 val p m a = m a.
Proof.
  intros H0 H1. unfold put_unaligned_le16.
  rewrite !store8_neq by assumption. reflexivity.
Qed.

Lemma load_bytes_length m n : forall p, List.length (load_bytes m p n) = n.
Proof. induction n as [|n IH]; intro p; cbn; [reflexivity | rewrite IH; reflexivity]. Qed.

Lemma load_bytes_ext m1 m2 n : forall p q,
  (forall i, 0 <= i < Z.of_nat n -> m1 (p + i) = m2 (q + i)) ->
  load_bytes m1 p n = load_bytes m2 q n.
Proof.
  induction n as [|n IH]; intros p q H; cbn [load_bytes]; [reflexivity|].
  f_equal.
  - specialize (H 0). rewrite !Z.add_0_r in H. apply H. lia.
  - apply IH. intros i Hi.
    replace (p + 1 + i) with (p + (1 + i)) by lia.
    replace (q + 1 + i) with (q + (1 + i)) by lia.
    apply H. lia.
Qed.

Lemma load_bytes_app m a b : forall p,
  load_bytes m p (a + b) = load_bytes m p a ++ load_bytes m (p + Z.of_nat a) b.
Proof.
  induction a as [|a IH]; intro p.
  - cbn. rewrite Z.add_0_r. reflexivity.
  - cbn [load_bytes Nat.add app]. rewrite IH. do 3 f_equal. lia.
Qed.

Lemma store_bytes_outside bs : forall m p a,
  a < p \/ p + Z.of_nat (List.length bs) <= a -> store_bytes m p bs a = m a.
Proof.
  induction bs as [|b bs IH]; intros m p a H; cbn [store_bytes]; [reflexivity|].
  cbn [List.length] in H. rewrite IH by lia. apply poke_neq. lia.
Qed.

Lemma store_bytes_inside bs : forall m p i,
  0 <= i < Z.of_nat (List.length bs) ->
  store_bytes m p bs (p + i) = nth (Z.to_nat i) bs 0.
Proof.
  induction bs as [|b bs IH]; intros m p i H; cbn [List.length] in H; [lia|].
  cbn [store_bytes]. destruct (Z.eq_dec i 0) as [->|Hi].
  - rewrite store_bytes_outside by lia. rewrite Z.add_0_r, poke_eq. reflexivity.
  - replace (p + i) with (p + 1 + (i - 1)) by lia. rewrite IH by lia.
    replace (Z.to_nat i) with (S (Z.to_nat (i - 1))) by lia. reflexivity.
Qed.

Lemma load_bytes_nth m n : forall p i,
  (i < n)%nat -> nth i (load_bytes m p n) 0 = m (p + Z.of_nat i).
Proof.
  induction n as [|n IH]; intros p i H; [lia|].
  cbn [load_bytes]. destruct i as [|i].
  - cbn. rewrite Z.add_0_r. reflexivity.
  - cbn [nth]. rewrite IH by lia. f_equal. lia.
Qed.

Lemma memcpy_inside m dst src len i :
  0 <= i < len -> memcpy m dst src len (dst + i) = m (src + i).
Proof.
  intro H. unfold memcpy.
  rewrite store_bytes_inside by (rewrite load_bytes_length; lia).
  rewrite load_bytes_nth by lia. f_equal. lia.
Qed.

Lemma memcpy_outside m dst src len a :
  0 <= len -> a < dst \/ dst + len <= a -> memcpy m dst src len a = m a.
Proof.
  intros Hl H. unfold memcpy. apply store_bytes_outside.
  rewrite load_bytes_length. lia.
Qed.

(** ** Reading a stretch of memory in two parts *)

Lemma app_same_length (x1 : list Z) : forall y1 x2 y2,
  List.length x1 = List.length y1 -> x1 ++ x2 = y1 ++ y2 -> x1 = y1 /\ x2 = y2.
Proof.
  induction x1 as [|a x1 IH]; intros [|b y1] x2 y2 Hl H; cbn in Hl; try discriminate.
  - split; [reflexivity | exact H].
  - cbn in H. injection H as -> H. injection Hl as Hl.
    destruct (IH _ _ _ Hl H) as [-> ->]. split; reflexivity.
Qed.

Lemma load_bytes_split m p (l1 l2 : list Z) :
  load_bytes m p (List.length (l1 ++ l2)) = l1 ++ l2 ->
  load_bytes m p (List.length l1) = l1 /\
  load_bytes m (p + Z.of_nat (List.length l1)) (List.length l2) = l2.
Proof.
  rewrite length_app, load_bytes_app. intro H.
  apply app_same_length in H; [exact H | apply load_bytes_length].
Qed.

Lemma store8_at m p v a : a = p -> store8 m p v a = u8 v.
Proof. intros ->. apply store8_eq. Qed.

(** Resolve reads through a stack of single-byte stores. *)
Ltac peek :=
  repeat first [ rewrite store8_at by lia | rewrite store8_neq by lia ].

(** ** Appending, step by step *)

Section BuilderFacts.
Context {hub : serial_hub}.

Lemma appended_trans s s1 s2 b1 b2 :
  appended s s1 b1 -> appended s1 s2 b2 -> appended s s2 (b1 ++ b2).
Proof.
  intros [B1 E1 P1 L1 R1 W1] [B2 E2 P2 L2 R2 W2].
  constructor.
  - congruence.
  - congruence.
  - rewrite P2, P1, length_app. lia.
  - rewrite length_app, load_bytes_app. f_equal.
    + rewrite <- L1 at 2. apply load_bytes_ext. intros i Hi.
      apply R2. left. lia.
    + rewrite <- P1. exact L2.
  - intros a Ha. rewrite length_app in Ha.
    rewrite R2 by lia. apply R1. lia.
  - congruence.
Qed.

Lemma msgb_push_u16_room s v :
  ptr (msgb s) + 2 <= end_ (msgb s) ->
  msgb_push_u16 s v =
  {| msgb := {| begin := begin (msgb s); end_ := end_ (msgb s);
                ptr := ptr (msgb s) + 2 |};
     heap := put_unaligned_le16 v (ptr (msgb s)) (heap s);
     warnings := warnings s |}.
Proof.
  intro H. unfold msgb_push_u16, WARN_ON, sizeof_u16.
  destruct (Z.gtb_spec (ptr (msgb s) + 2) (end_ (msgb s))); [lia | reflexivity].
Qed.

Lemma msgb_push_u16_full s v :
  ptr (msgb s) + 2 > end_ (msgb s) -> msgb_push_u16 s v = reported s.
Proof.
  intro H. unfold msgb_push_u16, WARN_ON, sizeof_u16.
  destruct (Z.gtb_spec (ptr (msgb s) + 2) (end_ (msgb s))); [reflexivity | lia].
Qed.

Lemma msgb_push_u16_appended s v :
  ptr (msgb s) + 2 <= end_ (msgb s) -> appended s (msgb_push_u16 s v) (le16 v).
Proof.
  intro H. rewrite msgb_push_u16_room by exact H.
  constructor; cbn [msgb heap warnings begin end_ ptr]; try reflexivity.
  - apply put_unaligned_le16_bytes.
  - intros a Ha. cbn in Ha. apply put_unaligned_le16_other; lia.
Qed.

Lemma msgb_push_crc_appended s0 s bs :
  appended s0 s bs -> ptr (msgb s) + 2 <= end_ (msgb s) ->
  appended s (msgb_push_crc s (ptr (msgb s0)) (ptr (msgb s) - ptr (msgb s0)))
           (le16 (ssh_crc bs)).
Proof.
  intros A H. unfold msgb_push_crc.
  rewrite (app_ptr _ _ _ A).
  replace (ptr (msgb s0) + Z.of_nat (List.length bs) - ptr (msgb s0))
    with (Z.of_nat (List.length bs)) by lia.
  rewrite Nat2Z.id, (app_bytes _ _ _ A).
  apply msgb_push_u16_appended. exact H.
Qed.

Lemma msgb_push_crc_empty s :
  ptr (msgb s) + 2 <= end_ (msgb s) ->
  appended s (msgb_push_crc s (ptr (msgb s)) 0) (le16 (ssh_crc [])).
Proof.
  intro H. unfold msgb_push_crc. cbn [Z.to_nat load_bytes].
  apply msgb_push_u16_appended. exact H.
Qed.

Lemma msgb_push_buf_appended s buf len :
  0 <= len ->
  appended s (msgb_push_buf s buf len)
           (load_bytes (heap s) buf (Z.to_nat len)).
Proof.
  intro H. unfold msgb_push_buf.
  constructor; cbn [msgb heap warnings begin end_ ptr set_ptr set_heap];
    rewrite ?load_bytes_length, ?Z2Nat.id by lia; try reflexivity.
  - apply load_bytes_ext. intros i Hi. rewrite memcpy_inside by lia.
    reflexivity.
  - intros a Ha. apply memcpy_outside; lia.
Qed.

(** The header of a frame, written in place and stepped over. *)
Lemma frame_written s ty len seq :
  let p := ptr (msgb s) in
  appended s
    {| msgb := {| begin := begin (msgb s); end_ := end_ (msgb s); ptr := p + 4 |};
       heap := store8 (put_unaligned_le16 len (p + 1) (store8 (heap s) (p + 0) ty))
                      (p + 3) seq;
       warnings := warnings s |}
    (frame_bytes ty len seq).
Proof.
  intro p. subst p.
  constructor; cbn [msgb heap warnings begin end_ ptr]; try reflexivity.
  - unfold frame_bytes, le16, put_unaligned_le16. cbn [List.length app load_bytes].
    peek. rewrite shiftr8_high. reflexivity.
  - intros a Ha. cbn in Ha. unfold put_unaligned_le16. peek. reflexivity.
Qed.

Lemma msgb_push_frame_appended s ty len seq :
  ptr (msgb s) + 6 <= end_ (msgb s) ->
  appended s (msgb_push_frame s ty len seq)
    (frame_bytes ty len seq ++ le16 (ssh_crc (frame_bytes ty len seq))).
Proof.
  intro H. unfold msgb_push_frame, WARN_ON, sizeof_ssh_frame,
    frame_type_off, frame_len_off, frame_seq_off.
  destruct (Z.gtb_spec (ptr (msgb s) + 4) (end_ (msgb s))); [lia|].
  cbn [msgb heap warnings begin end_ ptr set_ptr set_heap].
  pose proof (frame_written s ty len seq) as A. cbn zeta in A.
  eapply appended_trans; [exact A|].
  apply (msgb_push_crc_appended s _ _ A).
  cbn [msgb ptr end_]. lia.
Qed.

(** Whether or not it fits, a pushed u16 leaves every byte before the
    cursor and from two past it as it was. *)
Lemma msgb_push_u16_keeps s v a :
  a < ptr (msgb s) \/ ptr (msgb s) + 2 <= a ->
  heap (msgb_push_u16 s v) a = heap s a.
Proof.
  intro H. destruct (Z_le_gt_dec (ptr (msgb s) + 2) (end_ (msgb s))) as [R|R].
  - rewrite msgb_push_u16_room by exact R. cbn [heap].
    apply put_unaligned_le16_other; lia.
  - rewrite msgb_push_u16_full by exact R. reflexivity.
Qed.

Lemma message_bytes_preamble ty len seq pl :
  message_bytes ty len seq pl
  = preamble_bytes ty len seq ++ pl ++ le16 (ssh_crc pl).
Proof. unfold message_bytes, preamble_bytes. rewrite <- !app_assoc. reflexivity. Qed.

Lemma preamble_length ty len seq :
  List.length (preamble_bytes ty len seq) = 8%nat.
Proof. reflexivity. Qed.

(** SYN, frame header and header checksum: the common start of the three
    messages. *)
Lemma preamble_appended s ty len seq :
  ptr (msgb s) + 8 <= end_ (msgb s) ->
  appended s (msgb_push_frame (msgb_push_syn s) ty len seq)
           (preamble_bytes ty len seq).
Proof.
  intro H. unfold preamble_bytes, msgb_push_syn.
  pose proof (msgb_push_u16_appended s SSH_MSG_SYN ltac:(lia)) as A.
  eapply appended_trans; [exact A|].
  apply msgb_push_frame_appended.
  rewrite (app_ptr _ _ _ A), (app_end _ _ _ A). cbn. lia.
Qed.

(** An acknowledgement-shaped message: no payload. *)
Lemma bare_message_appended s ty seq :
  ptr (msgb s) + 10 <= end_ (msgb s) ->
  let s2 := msgb_push_frame (msgb_push_syn s) ty 0 seq in
  appended s (msgb_push_crc s2 (ptr (msgb s2)) 0) (message_bytes ty 0 seq []).
Proof.
  intros H s2. rewrite message_bytes_preamble. cbn [app].
  pose proof (preamble_appended s ty 0 seq ltac:(lia)) as A. fold s2 in A.
  eapply appended_trans; [exact A|].
  apply msgb_push_crc_empty.
  rewrite (app_ptr _ _ _ A), (app_end _ _ _ A), preamble_length. lia.
Qed.

Lemma msgb_push_ack_appended s seq :
  ptr (msgb s) + 10 <= end_ (msgb s) ->
  appended s (msgb_push_ack s seq) (message_bytes SSH_FRAME_TYPE_ACK 0 seq []).
Proof. intro H. apply (bare_message_appended s SSH_FRAME_TYPE_ACK seq H). Qed.

Lemma msgb_push_nak_appended s :
  ptr (msgb s) + 10 <= end_ (msgb s) ->
  appended s (msgb_push_nak s) (message_bytes SSH_FRAME_TYPE_NAK 0 0 []).
Proof. intro H. apply (bare_message_appended s SSH_FRAME_TYPE_NAK 0 H). Qed.

(** The command header, written in place and stepped over. *)
Lemma command_written s rqid rqst :
  let p := ptr (msgb s) in
  appended s
    {| msgb := {| begin := begin (msgb s); end_ := end_ (msgb s); ptr := p + 8 |};
       heap :=
         store8
           (put_unaligned_le16 rqid (p + 5)
              (store8
                 (store8
                    (store8
                       (store8 (store8 (heap s) (p + 0) SSH_PLD_TYPE_CMD)
                               (p + 1) (target_category rqst))
                       (p + 2) (target_id rqst))
                    (p + 3) 0)
                 (p + 4) (instance_id rqst)))
           (p + 7) (command_id rqst);
       warnings := warnings s |}
    (command_bytes SSH_PLD_TYPE_CMD rqid rqst).
Proof.
  intro p. subst p.
  constructor; cbn [msgb heap warnings begin end_ ptr]; try reflexivity.
  - unfold command_bytes, le16, put_unaligned_le16.
    cbn [List.length app load_bytes].
    peek. rewrite shiftr8_high. reflexivity.
  - intros a Ha. cbn in Ha. unfold put_unaligned_le16. peek. reflexivity.
Qed.

(** The sequenced command up to its payload: once the command header
    fits, header and payload are appended (the payload without a check)
    and the payload checksum is pushed over both.  The payload bytes
    [pl] are those of the request when its storage lies apart from the
    sixteen bytes written before the copy. *)
Lemma msgb_push_cmd_body s seq rqid rqst :
  0 <= length rqst ->
  ptr (msgb s) + 16 <= end_ (msgb s) ->
  exists s2 s4 pl,
    List.length pl = Z.to_nat (length rqst) /\
    (apart (payload rqst) (length rqst) (ptr (msgb s)) 16 ->
     pl = payload_bytes (heap s) rqst) /\
    appended s s2
      (preamble_bytes SSH_FRAME_TYPE_DATA_SEQ (sizeof_ssh_command + length rqst) seq) /\
    appended s2 s4 (command_bytes SSH_PLD_TYPE_CMD rqid rqst ++ pl) /\
    msgb_push_cmd s seq rqid rqst
    = msgb_push_crc s4 (ptr (msgb s2)) (ptr (msgb s4) - ptr (msgb s2)).
Proof.
  intros Hl Hroom.
  pose proof (preamble_appended s SSH_FRAME_TYPE_DATA_SEQ
                (sizeof_ssh_command + length rqst) seq ltac:(lia)) as A2.
  unfold msgb_push_cmd. cbv zeta.
  remember (msgb_push_frame (msgb_push_syn s) SSH_FRAME_TYPE_DATA_SEQ
              (sizeof_ssh_command + length rqst) seq) as s2 eqn:E2.
  pose proof (app_ptr _ _ _ A2) as P2. pose proof (app_end _ _ _ A2) as N2.
  rewrite preamble_length in P2.
  unfold WARN_ON, sizeof_ssh_command,
    cmd_type_off, cmd_tc_off, cmd_tid_out_off, cmd_tid_in_off, cmd_iid_off,
    cmd_rqid_off, cmd_cid_off in *.
  destruct (Z.gtb_spec (ptr (msgb s2) + 8) (end_ (msgb s2))); [lia|].
  cbn [msgb heap warnings begin end_ ptr set_ptr set_heap].
  pose proof (command_written s2 rqid rqst) as A3. cbv zeta in A3.
  match type of A3 with appended _ ?s3 _ =>
    pose proof (msgb_push_buf_appended s3 (payload rqst) (length rqst) Hl) as A4;
    exists s2, (msgb_push_buf s3 (payload rqst) (length rqst)),
      (load_bytes (heap s3) (payload rqst) (Z.to_nat (length rqst)))
  end.
  split; [apply load_bytes_length|]. split.
  { intro Hapart. unfold payload_bytes. apply load_bytes_ext. intros i Hi.
    rewrite (app_rest _ _ _ A3).
    - apply (app_rest _ _ _ A2). rewrite preamble_length.
      unfold apart in Hapart. lia.
    - change (List.length (command_bytes SSH_PLD_TYPE_CMD rqid rqst)) with 8%nat.
      unfold apart in Hapart. lia. }
  split; [exact A2|]. split; [|reflexivity].
  eapply appended_trans; [exact A3 | exact A4].
Qed.

(** With room for the whole message, the sequenced command is the wire
    message around command header and payload. *)
Lemma msgb_push_cmd_appended s seq rqid rqst :
  0 <= length rqst ->
  ptr (msgb s) + message_length (sizeof_ssh_command + length rqst)
    <= end_ (msgb s) ->
  exists pl,
    List.length pl = Z.to_nat (length rqst) /\
    (apart (payload rqst) (length rqst) (ptr (msgb s)) 16 ->
     pl = payload_bytes (heap s) rqst) /\
    appended s (msgb_push_cmd s seq rqid rqst)
      (message_bytes SSH_FRAME_TYPE_DATA_SEQ (sizeof_ssh_command + length rqst)
         seq (command_bytes SSH_PLD_TYPE_CMD rqid rqst ++ pl)).
Proof.
  intros Hl Hroom. unfold message_length, sizeof_ssh_command in Hroom.
  destruct (msgb_push_cmd_body s seq rqid rqst Hl ltac:(lia))
    as (s2 & s4 & pl & Lpl & Hpl & A2 & A4 & ->).
  exists pl. split; [exact Lpl|]. split; [exact Hpl|].
  rewrite message_bytes_preamble.
  eapply appended_trans; [exact A2|].
  eapply appended_trans; [exact A4|].
  apply (msgb_push_crc_appended _ _ _ A4).
  rewrite (app_ptr _ _ _ A4), (app_end _ _ _ A4),
    (app_ptr _ _ _ A2), (app_end _ _ _ A2), preamble_length, length_app, Lpl.
  change (List.length (command_bytes SSH_PLD_TYPE_CMD rqid rqst)) with 8%nat.
  lia.
Qed.

(** When the command header does not fit, the call stops right after the
    header checksum, with one report. *)
Lemma msgb_push_cmd_cut s seq rqid rqst :
  ptr (msgb s) + 8 <= end_ (msgb s) ->
  end_ (msgb s) < ptr (msgb s) + 8 + sizeof_ssh_command ->
  msgb_push_cmd s seq rqid rqst
  = reported (msgb_push_frame (msgb_push_syn s) SSH_FRAME_TYPE_DATA_SEQ
                (sizeof_ssh_command + length rqst) seq).
Proof.
  intros Hroom Hcut.
  pose proof (preamble_appended s SSH_FRAME_TYPE_DATA_SEQ
                (sizeof_ssh_command + length rqst) seq Hroom) as A2.
  unfold msgb_push_cmd. cbv zeta.
  remember (msgb_push_frame (msgb_push_syn s) SSH_FRAME_TYPE_DATA_SEQ
              (sizeof_ssh_command + length rqst) seq) as s2 eqn:E2.
  pose proof (app_ptr _ _ _ A2) as P2. pose proof (app_end _ _ _ A2) as N2.
  rewrite preamble_length in P2.
  unfold WARN_ON, sizeof_ssh_command in *.
  destruct (Z.gtb_spec (ptr (msgb s2) + 8) (end_ (msgb s2))); [reflexivity | lia].
Qed.

(** A frame header that does not fit is not written at all. *)
Lemma msgb_push_frame_full s ty len seq :
  ptr (msgb s) + sizeof_ssh_frame > end_ (msgb s) ->
  msgb_push_frame s ty len seq = reported s.
Proof.
  intro H. unfold msgb_push_frame, WARN_ON, sizeof_ssh_frame in *.
  destruct (Z.gtb_spec (ptr (msgb s) + 4) (end_ (msgb s))); [reflexivity | lia].
Qed.

(** What [appended] says about the used byte count of a buffer that was
    empty. *)
Lemma appended_used s s' bs :
  appended s s' bs -> ptr (msgb s) = begin (msgb s) ->
  msgb_bytes_used s' = Z.of_nat (List.length bs).
Proof.
  intros A H. unfold msgb_bytes_used.
  rewrite (app_ptr _ _ _ A), (app_begin _ _ _ A). lia.
Qed.

Lemma message_bytes_length ty len seq pl :
  Z.of_nat (List.length (message_bytes ty len seq pl))
  = message_length (Z.of_nat (List.length pl)).
Proof.
  unfold message_bytes, message_length.
  rewrite !length_app. cbn [List.length frame_bytes le16 app]. lia.
Qed.

(** Where the parts of a message lie once it has been appended. *)
Lemma preamble_layout s s' ty len seq rest :
  appended s s' (preamble_bytes ty len seq ++ rest) ->
  load_bytes (heap s') (ptr (msgb s)) 2 = le16 SSH_MSG_SYN /\
  load_bytes (heap s') (ptr (msgb s) + 2) 4 = frame_bytes ty len seq /\
  load_bytes (heap s') (ptr (msgb s) + 6) 2
    = le16 (ssh_crc (frame_bytes ty len seq)) /\
  load_bytes (heap s') (ptr (msgb s) + 8) (List.length rest) = rest.
Proof.
  intro A. pose proof (app_bytes _ _ _ A) as L.
  unfold preamble_bytes in L. rewrite <- !app_assoc in L.
  apply load_bytes_split in L. destruct L as [L1 L].
  apply load_bytes_split in L. destruct L as [L2 L].
  apply load_bytes_split in L. destruct L as [L3 L].
  change (Z.of_nat (List.length (le16 SSH_MSG_SYN))) with 2 in *.
  change (Z.of_nat (List.length (frame_bytes ty len seq))) with 4 in *.
  change (Z.of_nat (List.length (le16 (ssh_crc (frame_bytes ty len seq)))))
    with 2 in *.
  replace (ptr (msgb s) + 2 + 4) with (ptr (msgb s) + 6) in * by lia.
  replace (ptr (msgb s) + 6 + 2) with (ptr (msgb s) + 8) in * by lia.
  repeat split; assumption.
Qed.

Lemma message_layout s s' ty len seq pl :
  appended s s' (message_bytes ty len seq pl) ->
  load_bytes (heap s') (ptr (msgb s)) 2 = le16 SSH_MSG_SYN /\
  load_bytes (heap s') (ptr (msgb s) + 2) 4 = frame_bytes ty len seq /\
  load_bytes (heap s') (ptr (msgb s) + 6) 2
    = le16 (ssh_crc (frame_bytes ty len seq)) /\
  load_bytes (heap s') (ptr (msgb s) + 8) (List.length pl) = pl /\
  load_bytes (heap s') (ptr (msgb s) + 8 + Z.of_nat (List.length pl)) 2
    = le16 (ssh_crc pl) /\
  ptr (msgb s') = ptr (msgb s) + message_length (Z.of_nat (List.length pl)).
Proof.
  intro A. pose proof (app_ptr _ _ _ A) as P.
  rewrite message_bytes_length in P.
  rewrite message_bytes_preamble in A.
  destruct (preamble_layout _ _ _ _ _ _ A) as (L1 & L2 & L3 & L).
  apply load_bytes_split in L. destruct L as [L4 L5].
  repeat split; assumption.
Qed.

(** ** Properties of the built messages *)

(** C1.  For every message produced by one top-level encoder call
    (msgb_push_ack, msgb_push_nak or msgb_push_cmd) on a freshly bound
    buffer of sufficient capacity, the number of bytes used is
    2 + 4 + 2 + payload_length + 2, where payload_length is 0 for an
    acknowledgement or negative acknowledgement and
    sizeof(struct ssh_command) + the request's payload length for a
    sequenced command. *)
Theorem message_used_length s p cap seq rqid rqst :
  (message_length 0 <= cap ->
   msgb_bytes_used (msgb_push_ack (msgb_init s p cap) seq) = 2 + 4 + 2 + 0 + 2 /\
   msgb_bytes_used (msgb_push_nak (msgb_init s p cap)) = 2 + 4 + 2 + 0 + 2) /\
  (request_ok rqst ->
   message_length (sizeof_ssh_command + length rqst) <= cap ->
   msgb_bytes_used (msgb_push_cmd (msgb_init s p cap) seq rqid rqst)
   = 2 + 4 + 2 + (sizeof_ssh_command + length rqst) + 2).
Proof.
  split.
  - intro Hcap. unfold message_length in Hcap. split.
    + rewrite (appended_used _ _ _
        (msgb_push_ack_appended (msgb_init s p cap) seq ltac:(cbn; lia)))
        by reflexivity.
      rewrite message_bytes_length. reflexivity.
    + rewrite (appended_used _ _ _
        (msgb_push_nak_appended (msgb_init s p cap) ltac:(cbn; lia)))
        by reflexivity.
      rewrite message_bytes_length. reflexivity.
  - intros [Hl _] Hcap.
    destruct (msgb_push_cmd_appended (msgb_init s p cap) seq rqid rqst Hl
                ltac:(cbn [msgb_init msgb ptr end_]; lia))
      as (pl & Lpl & _ & A).
    rewrite (appended_used _ _ _ A) by reflexivity.
    rewrite message_bytes_length, length_app, Lpl.
    change (List.length (command_bytes SSH_PLD_TYPE_CMD rqid rqst)) with 8%nat.
    unfold message_length, sizeof_ssh_command. lia.
Qed.

(** C3.  For every message produced by msgb_push_ack, msgb_push_nak or
    msgb_push_cmd with sufficient capacity, the last two bytes are the
    little-endian 16-bit checksum of the frame-payload bytes: for a
    sequenced command, one checksum over the range [cmd_mark, cursor),
    which holds the command-header bytes followed by the payload bytes;
    for an acknowledgement or negative acknowledgement, the checksum of
    the empty range. *)
Theorem payload_checksum_last s p cap seq rqid rqst :
  (message_length 0 <= cap ->
   let a := msgb_push_ack (msgb_init s p cap) seq in
   let n := msgb_push_nak (msgb_init s p cap) in
   load_bytes (heap a) (ptr (msgb a) - 2) 2 = le16 (ssh_crc []) /\
   load_bytes (heap n) (ptr (msgb n) - 2) 2 = le16 (ssh_crc [])) /\
  (request_ok rqst ->
   message_length (sizeof_ssh_command + length rqst) <= cap ->
   let c := msgb_push_cmd (msgb_init s p cap) seq rqid rqst in
   let cmd_mark :=
     ptr (msgb (msgb_push_frame (msgb_push_syn (msgb_init s p cap))
                  SSH_FRAME_TYPE_DATA_SEQ (sizeof_ssh_command + length rqst)
                  seq)) in
   let cursor := ptr (msgb c) - 2 in
   cmd_mark = p + 8 /\
   cursor = cmd_mark + sizeof_ssh_command + length rqst /\
   load_bytes (heap c) cursor 2
   = le16 (ssh_crc (load_bytes (heap c) cmd_mark (Z.to_nat (cursor - cmd_mark)))) /\
   (apart (payload rqst) (length rqst)
          p (message_length (sizeof_ssh_command + length rqst)) ->
    load_bytes (heap c) cmd_mark (Z.to_nat (cursor - cmd_mark))
    = command_bytes SSH_PLD_TYPE_CMD rqid rqst ++ payload_bytes (heap s) rqst)).
Proof.
  split.
  - intro Hcap. unfold message_length in Hcap. cbv zeta. split.
    + destruct (message_layout _ _ _ _ _ _
        (msgb_push_ack_appended (msgb_init s p cap) seq ltac:(cbn; lia)))
        as (_ & _ & _ & _ & L & P).
      rewrite P. cbn [List.length Z.of_nat msgb_init msgb ptr] in *.
      unfold message_length. rewrite <- L. f_equal. lia.
    + destruct (message_layout _ _ _ _ _ _
        (msgb_push_nak_appended (msgb_init s p cap) ltac:(cbn; lia)))
        as (_ & _ & _ & _ & L & P).
      rewrite P. cbn [List.length Z.of_nat msgb_init msgb ptr] in *.
      unfold message_length. rewrite <- L. f_equal. lia.
  - intros [Hl _] Hcap. cbv zeta.
    pose proof (app_ptr _ _ _
      (preamble_appended (msgb_init s p cap) SSH_FRAME_TYPE_DATA_SEQ
         (sizeof_ssh_command + length rqst) seq
         ltac:(unfold message_length, sizeof_ssh_command in Hcap; cbn; lia))) as M.
    rewrite preamble_length in M. cbn [msgb_init msgb ptr] in M.
    change (Z.of_nat 8) with 8 in M.
    rewrite M. clear M. split; [reflexivity|].
    destruct (msgb_push_cmd_appended (msgb_init s p cap) seq rqid rqst Hl
                ltac:(cbn [msgb_init msgb ptr end_]; lia))
      as (pl & Lpl & Hpl & A).
    destruct (message_layout _ _ _ _ _ _ A) as (_ & _ & _ & L4 & L5 & P).
    rewrite length_app, Lpl in L4, L5, P.
    change (List.length (command_bytes SSH_PLD_TYPE_CMD rqid rqst))
      with 8%nat in *.
    cbn [msgb_init msgb ptr heap] in *.
    rewrite P. unfold message_length, sizeof_ssh_command in *.
    replace (p + (2 + 4 + 2 + Z.of_nat (8 + Z.to_nat (length rqst)) + 2) - 2)
      with (p + 8 + 8 + length rqst) by lia.
    replace (p + 8 + 8 + length rqst - (p + 8)) with (8 + length rqst) by lia.
    replace (Z.to_nat (8 + length rqst))
      with (8 + Z.to_nat (length rqst))%nat by lia.
    split; [reflexivity|]. split.
    + rewrite L4. rewrite <- L5. f_equal. lia.
    + intro Hapart. rewrite L4. f_equal. apply Hpl.
      unfold apart in *. lia.
Qed.

(** C4.  After msgb_push_frame succeeds, the checksum it appends is the
    little-endian 16-bit checksum over exactly the four header bytes it
    just wrote, the range [mark, cursor); and in a complete message the
    two bytes at offset 6 are the checksum of the bytes at offsets 2
    to 5. *)
Theorem frame_checksum_over_header s ty len seq p cap aseq rqid rqst :
  (ptr (msgb s) + sizeof_ssh_frame + sizeof_u16 <= end_ (msgb s) ->
   let f := msgb_push_frame s ty len seq in
   let mark := ptr (msgb s) in
   let cursor := mark + sizeof_ssh_frame in
   ptr (msgb f) = cursor + 2 /\
   load_bytes (heap f) mark 4 = frame_bytes ty len seq /\
   load_bytes (heap f) cursor 2
   = le16 (ssh_crc (load_bytes (heap f) mark (Z.to_nat (cursor - mark))))) /\
  (message_length 0 <= cap ->
   let a := msgb_push_ack (msgb_init s p cap) aseq in
   let n := msgb_push_nak (msgb_init s p cap) in
   load_bytes (heap a) (p + 6) 2 = le16 (ssh_crc (load_bytes (heap a) (p + 2) 4)) /\
   load_bytes (heap n) (p + 6) 2 = le16 (ssh_crc (load_bytes (heap n) (p + 2) 4))) /\
  (request_ok rqst ->
   message_length (sizeof_ssh_command + length rqst) <= cap ->
   let c := msgb_push_cmd (msgb_init s p cap) aseq rqid rqst in
   load_bytes (heap c) (p + 6) 2 = le16 (ssh_crc (load_bytes (heap c) (p + 2) 4))).
Proof.
  split; [|split].
  - unfold sizeof_ssh_frame, sizeof_u16. intro Hroom. cbv zeta.
    pose proof (msgb_push_frame_appended s ty len seq ltac:(lia)) as A.
    pose proof (app_ptr _ _ _ A) as P. pose proof (app_bytes _ _ _ A) as L.
    apply load_bytes_split in L. destruct L as [L1 L2].
    change (List.length (frame_bytes ty len seq)) with 4%nat in *.
    replace (ptr (msgb s) + 4 - ptr (msgb s)) with 4 by lia.
    change (Z.to_nat 4) with 4%nat.
    split; [rewrite P; rewrite length_app; cbn; lia|].
    split; [exact L1|]. rewrite L1. exact L2.
  - intro Hcap. unfold message_length in Hcap. cbv zeta. split.
    + destruct (message_layout _ _ _ _ _ _
        (msgb_push_ack_appended (msgb_init s p cap) aseq ltac:(cbn; lia)))
        as (_ & L2 & L3 & _).
      cbn [msgb_init msgb ptr] in *. rewrite L2. exact L3.
    + destruct (message_layout _ _ _ _ _ _
        (msgb_push_nak_appended (msgb_init s p cap) ltac:(cbn; lia)))
        as (_ & L2 & L3 & _).
      cbn [msgb_init msgb ptr] in *. rewrite L2. exact L3.
  - intros [Hl _] Hcap. cbv zeta.
    destruct (msgb_push_cmd_appended (msgb_init s p cap) aseq rqid rqst Hl
                ltac:(cbn [msgb_init msgb ptr end_]; lia))
      as (pl & _ & _ & A).
    destruct (message_layout _ _ _ _ _ _ A) as (_ & L2 & L3 & _).
    cbn [msgb_init msgb ptr] in *. rewrite L2. exact L3.
Qed.

(** The bytes a sequenced command leaves from the cursor on, as soon as
    the command header fits: preamble, command header, payload. *)
Lemma msgb_push_cmd_written s seq rqid rqst :
  0 <= length rqst ->
  ptr (msgb s) + 16 <= end_ (msgb s) ->
  exists pl,
    List.length pl = Z.to_nat (length rqst) /\
    (apart (payload rqst) (length rqst) (ptr (msgb s)) 16 ->
     pl = payload_bytes (heap s) rqst) /\
    load_bytes (heap (msgb_push_cmd s seq rqid rqst)) (ptr (msgb s))
      (16 + List.length pl)
    = preamble_bytes SSH_FRAME_TYPE_DATA_SEQ (sizeof_ssh_command + length rqst) seq
      ++ command_bytes SSH_PLD_TYPE_CMD rqid rqst ++ pl.
Proof.
  intros Hl Hroom.
  destruct (msgb_push_cmd_body s seq rqid rqst Hl Hroom)
    as (s2 & s4 & pl & Lpl & Hpl & A2 & A4 & ->).
  exists pl. split; [exact Lpl|]. split; [exact Hpl|].
  pose proof (appended_trans _ _ _ _ _ A2 A4) as A.
  pose proof (app_bytes _ _ _ A) as L. pose proof (app_ptr _ _ _ A) as P.
  rewrite !length_app in L, P. rewrite preamble_length in L, P.
  change (List.length (command_bytes SSH_PLD_TYPE_CMD rqid rqst))
    with 8%nat in *.
  change (8 + (8 + List.length pl))%nat with (16 + List.length pl)%nat in *.
  rewrite <- L. apply load_bytes_ext. intros i Hi.
  unfold msgb_push_crc. apply msgb_push_u16_keeps. left. lia.
Qed.

(** The fields of a sequenced command, read back from memory once the
    command header fits: the length field of the frame header, the eight
    bytes of the command header, and the copied payload. *)
Lemma msgb_push_cmd_fields s seq rqid rqst :
  0 <= length rqst ->
  ptr (msgb s) + 16 <= end_ (msgb s) ->
  let c := msgb_push_cmd s seq rqid rqst in
  let p := ptr (msgb s) in
  load_bytes (heap c) (p + 3) 2 = le16 (sizeof_ssh_command + length rqst) /\
  load_bytes (heap c) (p + 8) 8 = command_bytes SSH_PLD_TYPE_CMD rqid rqst /\
  (apart (payload rqst) (length rqst) p 16 ->
   load_bytes (heap c) (p + 16) (Z.to_nat (length rqst))
   = payload_bytes (heap s) rqst).
Proof.
  intros Hl Hroom. cbv zeta.
  destruct (msgb_push_cmd_written s seq rqid rqst Hl Hroom)
    as (pl & Lpl & Hpl & L).
  rewrite Lpl in L.
  unfold preamble_bytes, frame_bytes, command_bytes in L.
  set (len := sizeof_ssh_command + length rqst) in *.
  unfold le16 at 1 3 4 in L.
  cbn [app load_bytes Nat.add] in L.
  injection L as L0 L1 L2 L3 L4 L5 L6 L7 C0 C1 C2 C3 C4 C5 C6 C7 LP.
  split; [|split].
  - unfold le16. cbn [load_bytes]. f_equal; [|f_equal].
    + rewrite <- L3. f_equal. lia.
    + rewrite <- L4. f_equal. lia.
  - unfold command_bytes, le16. cbn [load_bytes app].
    rewrite <- C0, <- C1, <- C2, <- C3, <- C4, <- C5, <- C6, <- C7.
    repeat (f_equal; try lia).
  - intro Hapart. rewrite <- (Hpl Hapart), <- LP. f_equal. lia.
Qed.

(** C5.  msgb_push_cmd writes the frame header's payload-length field as
    sizeof(struct ssh_command) + the request's payload length, and
    writes the command-header fields in the fixed order payload-type
    tag, target category, outbound target id, inbound target id = 0,
    instance id, request id (little-endian, 2 bytes), command id,
    followed verbatim by the payload bytes.  (The length field is a
    little-endian u16: it decodes to the sum whenever the sum is a
    u16.) *)
Theorem push_cmd_layout s seq rqid rqst :
  request_ok rqst ->
  ptr (msgb s) + 8 + sizeof_ssh_command <= end_ (msgb s) ->
  apart (payload rqst) (length rqst)
        (ptr (msgb s)) (message_length (sizeof_ssh_command + length rqst)) ->
  let c := msgb_push_cmd s seq rqid rqst in
  let p := ptr (msgb s) in
  load_bytes (heap c) (p + 3) 2 = le16 (sizeof_ssh_command + length rqst) /\
  (sizeof_ssh_command + length rqst < 65536 ->
   heap c (p + 3) + 256 * heap c (p + 4) = sizeof_ssh_command + length rqst) /\
  load_bytes (heap c) (p + 8) 8
  = [SSH_PLD_TYPE_CMD; u8 (target_category rqst); u8 (target_id rqst); 0;
     u8 (instance_id rqst); u16 rqid mod 256; u16 rqid / 256;
     u8 (command_id rqst)] /\
  load_bytes (heap c) (p + 16) (Z.to_nat (length rqst))
  = payload_bytes (heap s) rqst.
Proof.
  intros [Hl Hu] Hroom Hapart. cbv zeta. unfold sizeof_ssh_command in Hroom.
  destruct (msgb_push_cmd_fields s seq rqid rqst Hl ltac:(lia))
    as (Field & Cmd & Pl).
  split; [exact Field|]. split; [|split].
  - intro Hfit. cbn [load_bytes] in Field.
    destruct (le16_decode _ _ _ (eq_sym Field)) as (_ & _ & D).
    replace (ptr (msgb s) + 3 + 1) with (ptr (msgb s) + 4) in D by lia.
    rewrite D. apply u16_small. unfold sizeof_ssh_command in *. lia.
  - rewrite Cmd. unfold command_bytes, le16. cbn [app].
    rewrite (u8_small SSH_PLD_TYPE_CMD SSH_PLD_TYPE_CMD_u8). reflexivity.
  - apply Pl. unfold apart, message_length, sizeof_ssh_command in *. lia.
Qed.

(** C6.  msgb_push_u16, for every buffer state and every value: if
    ptr + 2 > end the call is a no-op, no byte changes and the cursor
    stays (the condition is only reported through WARN_ON); otherwise
    the value is written at the cursor in little-endian byte order and
    the cursor advances by exactly 2. *)
Theorem msgb_push_u16_checked s value :
  (ptr (msgb s) + 2 > end_ (msgb s) ->
   msgb (msgb_push_u16 s value) = msgb s /\
   heap (msgb_push_u16 s value) = heap s /\
   warnings (msgb_push_u16 s value) = S (warnings s)) /\
  (ptr (msgb s) + 2 <= end_ (msgb s) ->
   let s' := msgb_push_u16 s value in
   load_bytes (heap s') (ptr (msgb s)) 2 = [u16 value mod 256; u16 value / 256] /\
   heap s' (ptr (msgb s)) + 256 * heap s' (ptr (msgb s) + 1) = u16 value /\
   (forall a, a <> ptr (msgb s) -> a <> ptr (msgb s) + 1 -> heap s' a = heap s a) /\
   ptr (msgb s') = ptr (msgb s) + 2 /\
   begin (msgb s') = begin (msgb s) /\
   end_ (msgb s') = end_ (msgb s) /\
   warnings s' = warnings s).
Proof.
  split.
  - intro H. rewrite msgb_push_u16_full by exact H.
    repeat split; reflexivity.
  - intro H. cbv zeta.
    pose proof (msgb_push_u16_appended s value H) as A.
    pose proof (app_bytes _ _ _ A) as L.
    change (List.length (le16 value)) with 2%nat in L.
    split; [exact L|]. split.
    + cbn [load_bytes] in L.
      destruct (le16_decode _ _ _ (eq_sym L)) as (_ & _ & D). exact D.
    + split.
      * intros a H0 H1. apply (app_rest _ _ _ A).
        change (Z.of_nat (List.length (le16 value))) with 2. lia.
      * rewrite (app_ptr _ _ _ A), (app_begin _ _ _ A), (app_end _ _ _ A),
          (app_quiet _ _ _ A).
        repeat split; reflexivity.
Qed.

(** C7.  If fewer than 4 bytes (the size of a frame header) remain,
    msgb_push_frame aborts as a no-op: no header byte is written, no
    header checksum is appended and the cursor is unchanged; in
    particular after msgb_init(buf, 3), msgb_push_frame(ACK, 0, 0)
    leaves the used count at 0 and writes nothing. *)
Theorem msgb_push_frame_no_room s ty len seq :
  (end_ (msgb s) - ptr (msgb s) < sizeof_ssh_frame ->
   msgb (msgb_push_frame s ty len seq) = msgb s /\
   heap (msgb_push_frame s ty len seq) = heap s /\
   warnings (msgb_push_frame s ty len seq) = S (warnings s)) /\
  (forall buf,
   let f := msgb_push_frame (msgb_init s buf 3) SSH_FRAME_TYPE_ACK 0 0 in
   msgb_bytes_used f = 0 /\ heap f = heap s /\ warnings f = S (warnings s)).
Proof.
  split.
  - intro H. rewrite msgb_push_frame_full by lia.
    repeat split; reflexivity.
  - intro buf. cbv zeta.
    rewrite msgb_push_frame_full by (unfold sizeof_ssh_frame; cbn; lia).
    unfold msgb_bytes_used. cbn. repeat split; try reflexivity. lia.
Qed.

(** C8.  msgb_push_buf performs no capacity check: for every buffer
    state and every length it copies that many bytes from the source to
    the cursor and advances the cursor by the length, whatever the end
    of the buffer is; nothing is reported. *)
Theorem msgb_push_buf_unchecked s buf len :
  0 <= len ->
  let s' := msgb_push_buf s buf len in
  ptr (msgb s') = ptr (msgb s) + len /\
  (forall i, 0 <= i < len -> heap s' (ptr (msgb s) + i) = heap s (buf + i)) /\
  (forall a, a < ptr (msgb s) \/ ptr (msgb s) + len <= a -> heap s' a = heap s a) /\
  begin (msgb s') = begin (msgb s) /\
  end_ (msgb s') = end_ (msgb s) /\
  warnings s' = warnings s.
Proof.
  intro H. cbv zeta. unfold msgb_push_buf.
  cbn [msgb heap warnings begin end_ ptr set_ptr set_heap].
  repeat split.
  - intros i Hi. apply memcpy_inside. exact Hi.
  - intros a Ha. apply memcpy_outside; assumption.
Qed.

Lemma frame_bytes_plain ty seq :
  0 <= ty < 256 -> 0 <= seq < 256 -> frame_bytes ty 0 seq = [ty; 0; 0; seq].
Proof.
  intros Ht Hs. unfold frame_bytes. rewrite !u8_small by assumption.
  reflexivity.
Qed.

(** C9.  After msgb_init(buf, 16) and msgb_push_ack(seq = 5) the buffer
    holds exactly the SYN constant (2 bytes, little-endian), the frame
    bytes [ACK, 0x00, 0x00, 0x05], the 2-byte header checksum and the
    2-byte checksum of the empty range, and 10 bytes are used;
    msgb_push_nak gives the same shape with frame type NAK and sequence
    number 0x00. *)
Theorem ack_nak_scenario s buf :
  let a := msgb_push_ack (msgb_init s buf 16) 5 in
  let n := msgb_push_nak (msgb_init s buf 16) in
  (load_bytes (heap a) buf 10
   = le16 SSH_MSG_SYN ++ [SSH_FRAME_TYPE_ACK; 0x00; 0x00; 0x05]
     ++ le16 (ssh_crc [SSH_FRAME_TYPE_ACK; 0x00; 0x00; 0x05])
     ++ le16 (ssh_crc []) /\
   msgb_bytes_used a = 10 /\
   same_outside buf (buf + 10) (heap s) (heap a)) /\
  (load_bytes (heap n) buf 10
   = le16 SSH_MSG_SYN ++ [SSH_FRAME_TYPE_NAK; 0x00; 0x00; 0x00]
     ++ le16 (ssh_crc [SSH_FRAME_TYPE_NAK; 0x00; 0x00; 0x00])
     ++ le16 (ssh_crc []) /\
   msgb_bytes_used n = 10 /\
   same_outside buf (buf + 10) (heap s) (heap n)).
Proof.
  cbv zeta. split.
  - pose proof (msgb_push_ack_appended (msgb_init s buf 16) 5
                  ltac:(cbn; lia)) as A.
    pose proof (app_bytes _ _ _ A) as L. pose proof (app_rest _ _ _ A) as R.
    rewrite (appended_used _ _ _ A) by reflexivity.
    unfold message_bytes in *.
    rewrite (frame_bytes_plain SSH_FRAME_TYPE_ACK 5 SSH_FRAME_TYPE_ACK_u8)
      in * by lia.
    split; [exact L|]. split; [reflexivity | exact R].
  - pose proof (msgb_push_nak_appended (msgb_init s buf 16)
                  ltac:(cbn; lia)) as A.
    pose proof (app_bytes _ _ _ A) as L. pose proof (app_rest _ _ _ A) as R.
    rewrite (appended_used _ _ _ A) by reflexivity.
    unfold message_bytes in *.
    rewrite (frame_bytes_plain SSH_FRAME_TYPE_NAK 0 SSH_FRAME_TYPE_NAK_u8)
      in * by lia.
    split; [exact L|]. split; [reflexivity | exact R].
Qed.

(** C10.  msgb_push_cmd is not atomic on capacity failure: when SYN,
    frame header and header checksum fitted but fewer than
    sizeof(struct ssh_command) bytes remain, it returns with those eight
    bytes left in the buffer (the length field still announcing
    sizeof(struct ssh_command) + the payload length) and appends no
    command header, no payload and no payload checksum; the buffer is
    not rolled back to its state before the call. *)
Theorem msgb_push_cmd_not_atomic s seq rqid rqst :
  ptr (msgb s) + 8 <= end_ (msgb s) ->
  end_ (msgb s) - (ptr (msgb s) + 8) < sizeof_ssh_command ->
  let c := msgb_push_cmd s seq rqid rqst in
  let p := ptr (msgb s) in
  ptr (msgb c) = p + 8 /\
  load_bytes (heap c) p 8
  = le16 SSH_MSG_SYN
    ++ frame_bytes SSH_FRAME_TYPE_DATA_SEQ (sizeof_ssh_command + length rqst) seq
    ++ le16 (ssh_crc (frame_bytes SSH_FRAME_TYPE_DATA_SEQ
                        (sizeof_ssh_command + length rqst) seq)) /\
  same_outside p (p + 8) (heap s) (heap c) /\
  warnings c = S (warnings s) /\
  msgb c <> msgb s.
Proof.
  intros Hroom Hcut. cbv zeta.
  rewrite msgb_push_cmd_cut by lia.
  pose proof (preamble_appended s SSH_FRAME_TYPE_DATA_SEQ
                (sizeof_ssh_command + length rqst) seq Hroom) as A.
  unfold reported. cbn [msgb heap warnings].
  pose proof (app_ptr _ _ _ A) as P. rewrite preamble_length in P.
  split; [rewrite P; reflexivity|].
  split; [exact (app_bytes _ _ _ A)|].
  split; [exact (app_rest _ _ _ A)|].
  split; [rewrite (app_quiet _ _ _ A); reflexivity|].
  intro E. rewrite E in P. cbn in P. lia.
Qed.

(** The pushes that check the remaining room keep begin <= ptr <= end,
    and they write inside the buffer only. *)
Lemma in_bounds_refl s : msgb_inv (msgb s) -> in_bounds_step s s.
Proof. intro I. repeat split; try apply I. Qed.

Lemma in_bounds_trans s s1 s2 :
  in_bounds_step s s1 -> in_bounds_step s1 s2 -> in_bounds_step s s2.
Proof.
  intros (I1 & B1 & E1 & R1) (I2 & B2 & E2 & R2).
  split; [exact I2|]. split; [congruence|]. split; [congruence|].
  intros a Ha. rewrite R2 by (rewrite B1, E1; exact Ha). apply R1. exact Ha.
Qed.

Lemma msgb_init_inv s p cap :
  0 <= cap -> msgb_inv (msgb (msgb_init s p cap)).
Proof. intro H. unfold msgb_inv. cbn. lia. Qed.

Lemma msgb_push_u16_inv s v :
  msgb_inv (msgb s) -> in_bounds_step s (msgb_push_u16 s v).
Proof.
  unfold in_bounds_step, msgb_inv. intro I.
  destruct (Z_le_gt_dec (ptr (msgb s) + 2) (end_ (msgb s))) as [R|R].
  - pose proof (msgb_push_u16_appended s v R) as A.
    rewrite (app_ptr _ _ _ A), (app_begin _ _ _ A), (app_end _ _ _ A).
    change (Z.of_nat (List.length (le16 v))) with 2.
    repeat split; try lia.
    intros a Ha. apply (app_rest _ _ _ A).
    change (Z.of_nat (List.length (le16 v))) with 2. lia.
  - rewrite msgb_push_u16_full by exact R. cbn.
    repeat split; try lia.
Qed.

Lemma msgb_push_crc_inv s buf len :
  msgb_inv (msgb s) -> in_bounds_step s (msgb_push_crc s buf len).
Proof. apply msgb_push_u16_inv. Qed.

Lemma msgb_push_frame_inv s ty len seq :
  msgb_inv (msgb s) -> in_bounds_step s (msgb_push_frame s ty len seq).
Proof.
  intro I.
  destruct (Z_le_gt_dec (ptr (msgb s) + 4) (end_ (msgb s))) as [R|R].
  - unfold msgb_push_frame, WARN_ON, sizeof_ssh_frame,
      frame_type_off, frame_len_off, frame_seq_off.
    destruct (Z.gtb_spec (ptr (msgb s) + 4) (end_ (msgb s))); [lia|].
    cbn [msgb heap warnings begin end_ ptr set_ptr set_heap].
    pose proof (frame_written s ty len seq) as A. cbv zeta in A.
    eapply in_bounds_trans; [|apply msgb_push_crc_inv].
    + unfold in_bounds_step, msgb_inv in *.
      cbn [msgb heap begin end_ ptr set_ptr set_heap].
      repeat split; try lia.
      intros a Ha. apply (app_rest _ _ _ A).
      change (Z.of_nat (List.length (frame_bytes ty len seq))) with 4. lia.
    + unfold msgb_inv in *. cbn [msgb begin end_ ptr set_ptr set_heap]. lia.
  - rewrite msgb_push_frame_full by (unfold sizeof_ssh_frame; lia).
    unfold in_bounds_step, msgb_inv in *. cbn. repeat split; try lia.
Qed.

Lemma bare_message_inv s ty seq :
  msgb_inv (msgb s) ->
  let s2 := msgb_push_frame (msgb_push_syn s) ty 0 seq in
  in_bounds_step s (msgb_push_crc s2 (ptr (msgb s2)) 0).
Proof.
  intros I s2.
  pose proof (msgb_push_u16_inv s SSH_MSG_SYN I) as S1.
  pose proof (msgb_push_frame_inv (msgb_push_syn s) ty 0 seq
                (proj1 S1)) as S2.
  pose proof (msgb_push_crc_inv s2 (ptr (msgb s2)) 0 (proj1 S2)) as S3.
  exact (in_bounds_trans _ _ _ (in_bounds_trans _ _ _ S1 S2) S3).
Qed.

Lemma msgb_push_ack_inv s seq :
  msgb_inv (msgb s) -> in_bounds_step s (msgb_push_ack s seq).
Proof. intro I. apply (bare_message_inv s SSH_FRAME_TYPE_ACK seq I). Qed.

Lemma msgb_push_nak_inv s :
  msgb_inv (msgb s) -> in_bounds_step s (msgb_push_nak s).
Proof. intro I. apply (bare_message_inv s SSH_FRAME_TYPE_NAK 0 I). Qed.

End BuilderFacts.

(** ** The unchecked copy at work *)

(** C2.  Every buffer operation is to keep begin <= ptr <= end, never
    to write a byte outside [begin, end) and never to let the used count
    exceed the capacity.  The pushes that test the remaining room do
    (see [msgb_push_u16_inv] to [msgb_push_nak_inv]); msgb_push_buf has
    no such test, and msgb_push_cmd tests the room for the command
    header only.  On a 16-byte buffer a command with two payload bytes
    passes that test, copies the payload to the two bytes after the end
    of the buffer and leaves the cursor two past the end, with 18 bytes
    counted as used; msgb_push_buf alone does the same on a 1-byte
    buffer. *)
Theorem push_cmd_overruns_buffer :
  let s0 := msgb_init example_state 100 16 in
  let s := msgb_push_cmd s0 1 7 example_rqst in
  let b0 := msgb_init example_state 100 1 in
  let b := msgb_push_buf b0 500 2 in
  (msgb_inv (msgb s0) /\ end_ (msgb s0) = 116 /\
   end_ (msgb s) = 116 /\ ptr (msgb s) = 118 /\ ~ msgb_inv (msgb s) /\
   heap s0 116 = 0 /\ heap s 116 = 0xDE /\
   heap s0 117 = 0 /\ heap s 117 = 0xAD /\
   msgb_bytes_used s = 18) /\
  (msgb_inv (msgb b0) /\ end_ (msgb b) = 101 /\ ptr (msgb b) = 102 /\
   ~ msgb_inv (msgb b) /\ heap b0 101 = 0 /\ heap b 101 = 0xAD /\
   msgb_bytes_used b = 2).
Proof.
  cbv zeta. unfold msgb_inv.
  repeat split; try (vm_compute; congruence); vm_compute; intros [_ H]; apply H;
    reflexivity.
Qed.

(** The length field of a frame is a u16: for the eight largest payload
    lengths of a u16 the announced length wraps around.  With 65535
    payload bytes in a buffer that holds them all, the field reads 7. *)
Example length_field_wraps :
  let rq := {| target_category := 0x02; target_id := 0x01; command_id := 0x09;
               instance_id := 0x00; length := 65535; payload := 100000 |} in
  let c := msgb_push_cmd (msgb_init boot 0 70000) 1 7 rq in
  load_bytes (heap c) 3 2 = [7; 0].
Proof.
  cbv zeta.
  match goal with |- load_bytes (heap (msgb_push_cmd ?s ?q ?r ?rq)) _ _ = _ =>
    destruct (msgb_push_cmd_fields (hub := test_hub) s q r rq) as (F & _)
  end.
  - cbn. lia.
  - cbn. lia.
  - exact F.
Qed.

(** A frame header that just fits is written without its checksum: the
    push of the checksum finds no room and only reports. *)
Example frame_without_checksum :
  let f := msgb_push_frame (msgb_init boot 100 4) 0x03 10 1 in
  load_bytes (heap f) 100 6 = [0x03; 0x0A; 0x00; 0x01; 0x00; 0x00] /\
  msgb_bytes_used f = 4 /\ warnings f = 1%nat.
Proof. vm_compute. repeat split; reflexivity. Qed.

(** ** The theorems at concrete inputs *)

Lemma message_used_length_witness :
  message_length 0 <= 32 /\
  request_ok example_rqst /\
  message_length (sizeof_ssh_command + length example_rqst) <= 32 /\
  msgb_bytes_used (msgb_push_ack (msgb_init example_state 100 32) 5) = 10 /\
  msgb_bytes_used (msgb_push_nak (msgb_init example_state 100 32)) = 10 /\
  msgb_bytes_used (msgb_push_cmd (msgb_init example_state 100 32) 1 7 example_rqst)
  = 20.
Proof.
  assert (H0 : message_length 0 <= 32) by (vm_compute; discriminate).
  assert (H1 : request_ok example_rqst) by (unfold request_ok; cbn; lia).
  assert (H2 : message_length (sizeof_ssh_command + length example_rqst) <= 32)
    by (vm_compute; discriminate).
  destruct (message_used_length (hub := test_hub) example_state 100 32 5 7
              example_rqst) as [Ha Hc].
  split; [exact H0|]. split; [exact H1|]. split; [exact H2|].
  split; [exact (proj1 (Ha H0))|]. split; [exact (proj2 (Ha H0))|].
  exact (Hc H1 H2).
Defined.

Lemma payload_checksum_last_witness :
  message_length 0 <= 32 /\
  request_ok example_rqst /\
  message_length (sizeof_ssh_command + length example_rqst) <= 32 /\
  apart (payload example_rqst) (length example_rqst) 100
        (message_length (sizeof_ssh_command + length example_rqst)) /\
  load_bytes (heap (msgb_push_ack (msgb_init example_state 100 32) 5)) 108 2
  = [0; 0] /\
  load_bytes
    (heap (msgb_push_cmd (msgb_init example_state 100 32) 1 7 example_rqst))
    108 10
  = [0x80; 0x02; 0x01; 0x00; 0x00; 0x07; 0x00; 0x09; 0xDE; 0xAD] /\
  load_bytes
    (heap (msgb_push_cmd (msgb_init example_state 100 32) 1 7 example_rqst))
    118 2
  = [0x1E; 0x02].
Proof.
  assert (H0 : message_length 0 <= 32) by (vm_compute; discriminate).
  assert (H1 : request_ok example_rqst) by (unfold request_ok; cbn; lia).
  assert (H2 : message_length (sizeof_ssh_command + length example_rqst) <= 32)
    by (vm_compute; discriminate).
  assert (H3 : apart (payload example_rqst) (length example_rqst) 100
                 (message_length (sizeof_ssh_command + length example_rqst)))
    by (right; vm_compute; discriminate).
  destruct (payload_checksum_last (hub := test_hub) example_state 100 32 5 7
              example_rqst) as [Ha _].
  destruct (payload_checksum_last (hub := test_hub) example_state 100 32 1 7
              example_rqst) as [_ Hc].
  split; [exact H0|]. split; [exact H1|]. split; [exact H2|].
  split; [exact H3|].
  split; [exact (proj1 (Ha H0))|].
  destruct (Hc H1 H2) as (_ & _ & Hcrc & Hbytes).
  split; [exact (Hbytes H3) | exact Hcrc].
Defined.

Lemma frame_checksum_over_header_witness :
  ptr (msgb (msgb_init example_state 100 32)) + sizeof_ssh_frame + sizeof_u16
    <= end_ (msgb (msgb_init example_state 100 32)) /\
  message_length 0 <= 32 /\
  request_ok example_rqst /\
  message_length (sizeof_ssh_command + length example_rqst) <= 32 /\
  load_bytes
    (heap (msgb_push_frame (msgb_init example_state 100 32) 0x03 10 1)) 100 6
  = [0x03; 0x0A; 0x00; 0x01; 0x0E; 0x00] /\
  load_bytes (heap (msgb_push_ack (msgb_init example_state 100 32) 5)) 106 2
  = [0x06; 0x00] /\
  load_bytes
    (heap (msgb_push_cmd (msgb_init example_state 100 32) 5 7 example_rqst))
    106 2
  = [0x12; 0x00].
Proof.
  assert (Hf : ptr (msgb (msgb_init example_state 100 32)) + sizeof_ssh_frame
               + sizeof_u16 <= end_ (msgb (msgb_init example_state 100 32)))
    by (vm_compute; discriminate).
  assert (H0 : message_length 0 <= 32) by (vm_compute; discriminate).
  assert (H1 : request_ok example_rqst) by (unfold request_ok; cbn; lia).
  assert (H2 : message_length (sizeof_ssh_command + length example_rqst) <= 32)
    by (vm_compute; discriminate).
  destruct (frame_checksum_over_header (hub := test_hub)
              (msgb_init example_state 100 32) 0x03 10 1
              100 32 5 7 example_rqst) as (F & A & C).
  split; [exact Hf|]. split; [exact H0|]. split; [exact H1|].
  split; [exact H2|].
  destruct (F Hf) as (_ & Fh & Fc).
  split; [|split].
  - exact (f_equal2 (@app Z) Fh Fc).
  - exact (proj1 (A H0)).
  - exact (C H1 H2).
Defined.

Lemma push_cmd_layout_witness :
  request_ok example_rqst /\
  ptr (msgb (msgb_init example_state 100 32)) + 8 + sizeof_ssh_command
    <= end_ (msgb (msgb_init example_state 100 32)) /\
  apart (payload example_rqst) (length example_rqst) 100
        (message_length (sizeof_ssh_command + length example_rqst)) /\
  load_bytes
    (heap (msgb_push_cmd (msgb_init example_state 100 32) 1 7 example_rqst))
    103 2 = [10; 0] /\
  load_bytes
    (heap (msgb_push_cmd (msgb_init example_state 100 32) 1 7 example_rqst))
    108 8 = [0x80; 0x02; 0x01; 0x00; 0x00; 0x07; 0x00; 0x09] /\
  load_bytes
    (heap (msgb_push_cmd (msgb_init example_state 100 32) 1 7 example_rqst))
    116 2 = [0xDE; 0xAD].
Proof.
  assert (H1 : request_ok example_rqst) by (unfold request_ok; cbn; lia).
  assert (H2 : ptr (msgb (msgb_init example_state 100 32)) + 8
               + sizeof_ssh_command
               <= end_ (msgb (msgb_init example_state 100 32)))
    by (vm_compute; discriminate).
  assert (H3 : apart (payload example_rqst) (length example_rqst) 100
                 (message_length (sizeof_ssh_command + length example_rqst)))
    by (right; vm_compute; discriminate).
  destruct (push_cmd_layout (hub := test_hub) (msgb_init example_state 100 32)
              1 7 example_rqst H1 H2 H3) as (Lf & _ & Lc & Lp).
  split; [exact H1|]. split; [exact H2|]. split; [exact H3|].
  split; [exact Lf|]. split; [exact Lc | exact Lp].
Defined.

Lemma msgb_push_u16_checked_witness :
  (ptr (msgb (msgb_init boot 100 1)) + 2 > end_ (msgb (msgb_init boot 100 1)) /\
   msgb (msgb_push_u16 (msgb_init boot 100 1) 0x1234) = msgb (msgb_init boot 100 1) /\
   warnings (msgb_push_u16 (msgb_init boot 100 1) 0x1234) = 1%nat) /\
  (ptr (msgb (msgb_init boot 100 2)) + 2 <= end_ (msgb (msgb_init boot 100 2)) /\
   load_bytes (heap (msgb_push_u16 (msgb_init boot 100 2) 0x1234)) 100 2
   = [0x34; 0x12] /\
   ptr (msgb (msgb_push_u16 (msgb_init boot 100 2) 0x1234)) = 102).
Proof.
  assert (Hfull : ptr (msgb (msgb_init boot 100 1)) + 2
                  > end_ (msgb (msgb_init boot 100 1)))
    by (vm_compute; reflexivity).
  assert (Hroom : ptr (msgb (msgb_init boot 100 2)) + 2
                  <= end_ (msgb (msgb_init boot 100 2)))
    by (vm_compute; discriminate).
  destruct (msgb_push_u16_checked (msgb_init boot 100 1) 0x1234) as [F _].
  destruct (msgb_push_u16_checked (msgb_init boot 100 2) 0x1234) as [_ R].
  destruct (F Hfull) as (Fm & _ & Fw).
  destruct (R Hroom) as (Rb & _ & _ & Rp & _).
  split.
  - split; [exact Hfull|]. split; [exact Fm | exact Fw].
  - split; [exact Hroom|]. split; [exact Rb | exact Rp].
Defined.

Lemma msgb_push_frame_no_room_witness :
  end_ (msgb (msgb_init example_state 100 3))
    - ptr (msgb (msgb_init example_state 100 3)) < sizeof_ssh_frame /\
  msgb_bytes_used
    (msgb_push_frame (msgb_init example_state 100 3) SSH_FRAME_TYPE_ACK 0 0) = 0 /\
  heap (msgb_push_frame (msgb_init example_state 100 3) SSH_FRAME_TYPE_ACK 0 0)
  = example_heap /\
  warnings
    (msgb_push_frame (msgb_init example_state 100 3) SSH_FRAME_TYPE_ACK 0 0)
  = 1%nat.
Proof.
  assert (H : end_ (msgb (msgb_init example_state 100 3))
              - ptr (msgb (msgb_init example_state 100 3)) < sizeof_ssh_frame)
    by (vm_compute; reflexivity).
  destruct (msgb_push_frame_no_room (hub := test_hub)
              (msgb_init example_state 100 3) SSH_FRAME_TYPE_ACK 0 0)
    as [G _].
  destruct (G H) as (Gm & Gh & Gw).
  split; [exact H|]. split; [|split].
  - unfold msgb_bytes_used. rewrite Gm. reflexivity.
  - exact Gh.
  - exact Gw.
Defined.

Lemma msgb_push_buf_unchecked_witness :
  0 <= 2 /\
  end_ (msgb (msgb_push_buf (msgb_init example_state 100 1) 500 2)) = 101 /\
  ptr (msgb (msgb_push_buf (msgb_init example_state 100 1) 500 2)) = 102 /\
  heap (msgb_push_buf (msgb_init example_state 100 1) 500 2) 101 = 0xAD.
Proof.
  assert (H : 0 <= 2) by lia.
  destruct (msgb_push_buf_unchecked (msgb_init example_state 100 1) 500 2 H)
    as (P & C & _ & _ & E & _).
  split; [exact H|]. split; [exact E|]. split; [exact P|].
  exact (C 1 ltac:(lia)).
Defined.

Lemma msgb_push_cmd_not_atomic_witness :
  ptr (msgb (msgb_init example_state 100 12)) + 8
    <= end_ (msgb (msgb_init example_state 100 12)) /\
  end_ (msgb (msgb_init example_state 100 12))
    - (ptr (msgb (msgb_init example_state 100 12)) + 8) < sizeof_ssh_command /\
  msgb_bytes_used
    (msgb_push_cmd (msgb_init example_state 100 12) 1 7 example_rqst) = 8 /\
  load_bytes
    (heap (msgb_push_cmd (msgb_init example_state 100 12) 1 7 example_rqst))
    100 8
  = [0xAA; 0xAA; 0x03; 0x0A; 0x00; 0x01; 0x0E; 0x00] /\
  warnings (msgb_push_cmd (msgb_init example_state 100 12) 1 7 example_rqst)
  = 1%nat.
Proof.
  assert (H1 : ptr (msgb (msgb_init example_state 100 12)) + 8
               <= end_ (msgb (msgb_init example_state 100 12)))
    by (vm_compute; discriminate).
  assert (H2 : end_ (msgb (msgb_init example_state 100 12))
               - (ptr (msgb (msgb_init example_state 100 12)) + 8)
               < sizeof_ssh_command)
    by (vm_compute; reflexivity).
  destruct (msgb_push_cmd_not_atomic (hub := test_hub)
              (msgb_init example_state 100 12) 1 7 example_rqst H1 H2)
    as (P & L & _ & W & _).
  split; [exact H1|]. split; [exact H2|]. split; [|split].
  - unfold msgb_bytes_used. rewrite P. reflexivity.
  - exact L.
  - exact W.
Defined.

(** ** Pushes that do not fit: what is written, what is dropped *)

Section BuilderProfiles.
Context {hub : serial_hub}.

Lemma appended_pushed s s' bs : appended s s' bs -> pushed 0 s s' bs.
Proof. intros [B E P L R W]. constructor; assumption. Qed.

Lemma pushed_nil s : pushed 0 s s [].
Proof.
  constructor; cbn; try reflexivity; try lia.
  intros a _. reflexivity.
Qed.

Lemma pushed_reported k s s' bs :
  pushed k s s' bs -> pushed (S k) s (reported s') bs.
Proof.
  intros [B E P L R W]. constructor; cbn [reported msgb heap warnings];
    try assumption.
  rewrite W. reflexivity.
Qed.

Lemma pushed_trans k1 k2 s s1 s2 b1 b2 :
  pushed k1 s s1 b1 -> pushed k2 s1 s2 b2 -> pushed (k2 + k1) s s2 (b1 ++ b2).
Proof.
  intros [B1 E1 P1 L1 R1 W1] [B2 E2 P2 L2 R2 W2].
  constructor.
  - congruence.
  - congruence.
  - rewrite P2, P1, length_app. lia.
  - rewrite length_app, load_bytes_app. f_equal.
    + rewrite <- L1 at 2. apply load_bytes_ext. intros i Hi.
      apply R2. left. lia.
    + rewrite <- P1. exact L2.
  - intros a Ha. rewrite length_app in Ha.
    rewrite R2 by lia. apply R1. lia.
  - rewrite W2, W1. lia.
Qed.

Lemma pushed_as k k' s s' bs bs' :
  pushed k s s' bs -> k = k' -> bs = bs' -> pushed k' s s' bs'.
Proof. intros H -> ->. exact H. Qed.

(** One more push after [bs] has been pushed from [s0]: each lemma
    extends the account by what the push adds. *)
Lemma then_u16 k s0 s bs v :
  pushed k s0 s bs ->
  Z.of_nat (List.length bs) + 2 <= room s0 ->
  pushed k s0 (msgb_push_u16 s v) (bs ++ le16 v).
Proof.
  intros H R. unfold room in R.
  assert (A : appended s (msgb_push_u16 s v) (le16 v)).
  { apply msgb_push_u16_appended.
    rewrite (psh_ptr _ _ _ _ H), (psh_end _ _ _ _ H). lia. }
  exact (pushed_as _ _ _ _ _ _
           (pushed_trans _ _ _ _ _ _ _ H (appended_pushed _ _ _ A))
           eq_refl eq_refl).
Qed.

Lemma then_u16_dropped k s0 s bs v :
  pushed k s0 s bs ->
  room s0 < Z.of_nat (List.length bs) + 2 ->
  pushed (S k) s0 (msgb_push_u16 s v) bs.
Proof.
  intros H R. unfold room in R.
  rewrite msgb_push_u16_full
    by (rewrite (psh_ptr _ _ _ _ H), (psh_end _ _ _ _ H); lia).
  apply pushed_reported. exact H.
Qed.

Lemma then_frame k s0 s bs ty len seq :
  pushed k s0 s bs ->
  Z.of_nat (List.length bs) + 6 <= room s0 ->
  pushed k s0 (msgb_push_frame s ty len seq)
         (bs ++ frame_bytes ty len seq ++ le16 (ssh_crc (frame_bytes ty len seq))).
Proof.
  intros H R. unfold room in R.
  assert (A : appended s (msgb_push_frame s ty len seq)
                (frame_bytes ty len seq
                 ++ le16 (ssh_crc (frame_bytes ty len seq)))).
  { apply msgb_push_frame_appended.
    rewrite (psh_ptr _ _ _ _ H), (psh_end _ _ _ _ H). lia. }
  exact (pushed_as _ _ _ _ _ _
           (pushed_trans _ _ _ _ _ _ _ H (appended_pushed _ _ _ A))
           eq_refl eq_refl).
Qed.

Lemma then_frame_dropped k s0 s bs ty len seq :
  pushed k s0 s bs ->
  room s0 < Z.of_nat (List.length bs) + 4 ->
  pushed (S k) s0 (msgb_push_frame s ty len seq) bs.
Proof.
  intros H R. unfold room in R.
  rewrite msgb_push_frame_full
    by (unfold sizeof_ssh_frame;
        rewrite (psh_ptr _ _ _ _ H), (psh_end _ _ _ _ H); lia).
  apply pushed_reported. exact H.
Qed.

(** The header fits, its checksum does not. *)
Lemma then_frame_bare k s0 s bs ty len seq :
  pushed k s0 s bs ->
  Z.of_nat (List.length bs) + 4 <= room s0 < Z.of_nat (List.length bs) + 6 ->
  pushed (S k) s0 (msgb_push_frame s ty len seq) (bs ++ frame_bytes ty len seq).
Proof.
  intros H R. unfold room in R.
  pose proof (psh_ptr _ _ _ _ H) as P. pose proof (psh_end _ _ _ _ H) as E.
  unfold msgb_push_frame, WARN_ON, sizeof_ssh_frame,
    frame_type_off, frame_len_off, frame_seq_off.
  destruct (Z.gtb_spec (ptr (msgb s) + 4) (end_ (msgb s))); [lia|].
  cbn [msgb heap warnings begin end_ ptr set_ptr set_heap].
  pose proof (frame_written s ty len seq) as A. cbv zeta in A.
  unfold msgb_push_crc. rewrite msgb_push_u16_full by (cbn; lia).
  exact (pushed_as _ _ _ _ _ _
           (pushed_trans _ _ _ _ _ _ _ H
              (pushed_reported _ _ _ _ (appended_pushed _ _ _ A)))
           eq_refl eq_refl).
Qed.

Lemma msgb_push_frame_account s ty len seq :
  (6 <= room s ->
   pushed 0 s (msgb_push_frame s ty len seq)
     (frame_bytes ty len seq ++ le16 (ssh_crc (frame_bytes ty len seq)))) /\
  (4 <= room s < 6 ->
   pushed 1 s (msgb_push_frame s ty len seq) (frame_bytes ty len seq)) /\
  (room s < 4 -> pushed 1 s (msgb_push_frame s ty len seq) []).
Proof.
  split; [|split]; intro R.
  - apply (then_frame 0 s s [] ty len seq (pushed_nil s)). cbn. lia.
  - apply (then_frame_bare 0 s s [] ty len seq (pushed_nil s)). cbn. lia.
  - apply (then_frame_dropped 0 s s [] ty len seq (pushed_nil s)). cbn. lia.
Qed.

(** X1.  msgb_push_frame by the room it finds: with 6 bytes or more the
    header and its checksum are appended; with 4 or 5 bytes the header
    is written and the cursor moves past it, but its checksum is dropped
    with one report; with less than 4 bytes nothing is written and one
    report is raised.  In each case no other byte of memory changes. *)
Theorem msgb_push_frame_profile s ty len seq :
  (6 <= room s ->
   pushed 0 s (msgb_push_frame s ty len seq)
     (frame_bytes ty len seq ++ le16 (ssh_crc (frame_bytes ty len seq)))) /\
  (4 <= room s < 6 ->
   pushed 1 s (msgb_push_frame s ty len seq) (frame_bytes ty len seq)) /\
  (room s < 4 -> pushed 1 s (msgb_push_frame s ty len seq) []).
Proof. exact (msgb_push_frame_account s ty len seq). Qed.

Lemma bare_message_profile s ty seq :
  let s2 := msgb_push_frame (msgb_push_syn s) ty 0 seq in
  bare_profile s (msgb_push_crc s2 (ptr (msgb s2)) 0) ty seq.
Proof.
  cbv zeta. unfold bare_profile, msgb_push_syn.
  change (msgb_push_crc ?x (ptr (msgb ?x)) 0)
    with (msgb_push_u16 x (ssh_crc [])).
  split; [|split; [|split; [|split; [|split]]]]; intro R.
  - rewrite message_bytes_preamble. unfold preamble_bytes.
    eapply pushed_as;
      [apply then_u16; [apply then_frame; [apply then_u16;
         [apply pushed_nil|]|]|] | reflexivity
      | cbn [app]; rewrite <- !app_assoc; reflexivity]; cbn; lia.
  - unfold preamble_bytes.
    eapply pushed_as;
      [apply then_u16_dropped; [apply then_frame; [apply then_u16;
         [apply pushed_nil|]|]|] | reflexivity
      | cbn [app]; rewrite <- ?app_assoc; reflexivity]; cbn; lia.
  - eapply pushed_as;
      [apply then_u16_dropped; [apply then_frame_bare; [apply then_u16;
         [apply pushed_nil|]|]|] | reflexivity
      | cbn [app]; rewrite <- ?app_assoc; reflexivity]; cbn; lia.
  - eapply pushed_as;
      [apply then_u16; [apply then_frame_dropped; [apply then_u16;
         [apply pushed_nil|]|]|] | reflexivity
      | cbn [app]; rewrite <- ?app_assoc; reflexivity]; cbn; lia.
  - eapply pushed_as;
      [apply then_u16_dropped; [apply then_frame_dropped; [apply then_u16;
         [apply pushed_nil|]|]|] | reflexivity
      | cbn [app]; rewrite <- ?app_assoc; reflexivity]; cbn; lia.
  - eapply pushed_as;
      [apply then_u16_dropped; [apply then_frame_dropped;
         [apply then_u16_dropped; [apply pushed_nil|]|]|] | reflexivity
      | reflexivity]; cbn; lia.
Qed.

(** X2.  msgb_push_ack and msgb_push_nak by the room they find.  With 10
    bytes the whole message is appended.  With less, each push that does
    not fit is dropped with a report while later pushes that fit still
    go through: with 8 or 9 bytes the payload checksum is missing, with
    6 or 7 bytes both checksums are missing, with 4 or 5 bytes the frame
    header is missing and the empty-payload checksum follows SYN
    directly, with 2 or 3 bytes only SYN is written, and with less
    nothing is. *)
Theorem ack_nak_profile s seq :
  bare_profile s (msgb_push_ack s seq) SSH_FRAME_TYPE_ACK seq /\
  bare_profile s (msgb_push_nak s) SSH_FRAME_TYPE_NAK 0.
Proof.
  split.
  - exact (bare_message_profile s SSH_FRAME_TYPE_ACK seq).
  - exact (bare_message_profile s SSH_FRAME_TYPE_NAK 0).
Qed.

(** The command stops after the frame when the command header finds no
    room. *)
Lemma msgb_push_cmd_stopped s seq rqid rqst :
  let s2 := msgb_push_frame (msgb_push_syn s) SSH_FRAME_TYPE_DATA_SEQ
              (sizeof_ssh_command + length rqst) seq in
  room s2 < sizeof_ssh_command ->
  msgb_push_cmd s seq rqid rqst = reported s2.
Proof.
  intros s2 R. unfold room in R. unfold msgb_push_cmd. cbv zeta. fold s2.
  unfold WARN_ON.
  destruct (Z.gtb_spec (ptr (msgb s2) + sizeof_ssh_command) (end_ (msgb s2)));
    [reflexivity | lia].
Qed.

(** The full account of a sequenced command, case by case. *)
Lemma msgb_push_cmd_account s seq rqid rqst :
  0 <= length rqst ->
  exists pl,
    List.length pl = Z.to_nat (length rqst) /\
    (apart (payload rqst) (length rqst) (ptr (msgb s)) 16 ->
     pl = payload_bytes (heap s) rqst) /\
    (message_length (sizeof_ssh_command + length rqst) <= room s ->
     pushed 0 s (msgb_push_cmd s seq rqid rqst)
       (message_bytes SSH_FRAME_TYPE_DATA_SEQ (sizeof_ssh_command + length rqst)
          seq (command_bytes SSH_PLD_TYPE_CMD rqid rqst ++ pl))) /\
    (16 <= room s < message_length (sizeof_ssh_command + length rqst) ->
     pushed 1 s (msgb_push_cmd s seq rqid rqst)
       (preamble_bytes SSH_FRAME_TYPE_DATA_SEQ (sizeof_ssh_command + length rqst)
          seq ++ command_bytes SSH_PLD_TYPE_CMD rqid rqst ++ pl)) /\
    (8 <= room s < 16 ->
     pushed 1 s (msgb_push_cmd s seq rqid rqst)
       (preamble_bytes SSH_FRAME_TYPE_DATA_SEQ (sizeof_ssh_command + length rqst)
          seq)) /\
    (6 <= room s < 8 ->
     pushed 2 s (msgb_push_cmd s seq rqid rqst)
       (le16 SSH_MSG_SYN
        ++ frame_bytes SSH_FRAME_TYPE_DATA_SEQ (sizeof_ssh_command + length rqst)
             seq)) /\
    (2 <= room s < 6 ->
     pushed 2 s (msgb_push_cmd s seq rqid rqst) (le16 SSH_MSG_SYN)) /\
    (room s < 2 -> pushed 3 s (msgb_push_cmd s seq rqid rqst) []).
Proof.
  intro Hl.
  assert (Short : forall k bs,
    pushed k s (msgb_push_frame (msgb_push_syn s) SSH_FRAME_TYPE_DATA_SEQ
                  (sizeof_ssh_command + length rqst) seq) bs ->
    room s < Z.of_nat (List.length bs) + 8 ->
    pushed (S k) s (msgb_push_cmd s seq rqid rqst) bs).
  { intros k bs H R. rewrite msgb_push_cmd_stopped.
    - apply pushed_reported. exact H.
    - unfold room in *. rewrite (psh_ptr _ _ _ _ H), (psh_end _ _ _ _ H).
      unfold sizeof_ssh_command. lia. }
  assert (Tail :
    (8 <= room s < 16 ->
     pushed 1 s (msgb_push_cmd s seq rqid rqst)
       (preamble_bytes SSH_FRAME_TYPE_DATA_SEQ (sizeof_ssh_command + length rqst)
          seq)) /\
    (6 <= room s < 8 ->
     pushed 2 s (msgb_push_cmd s seq rqid rqst)
       (le16 SSH_MSG_SYN
        ++ frame_bytes SSH_FRAME_TYPE_DATA_SEQ (sizeof_ssh_command + length rqst)
             seq)) /\
    (2 <= room s < 6 ->
     pushed 2 s (msgb_push_cmd s seq rqid rqst) (le16 SSH_MSG_SYN)) /\
    (room s < 2 -> pushed 3 s (msgb_push_cmd s seq rqid rqst) [])).
  { unfold msgb_push_syn in Short. split; [|split; [|split]]; intro R.
    - apply Short; [|cbn; lia]. unfold preamble_bytes.
      eapply pushed_as;
        [apply then_frame; [apply then_u16; [apply pushed_nil|]|]
        | reflexivity | reflexivity]; cbn; lia.
    - apply Short; [|cbn; lia].
      eapply pushed_as;
        [apply then_frame_bare; [apply then_u16; [apply pushed_nil|]|]
        | reflexivity | reflexivity]; cbn; lia.
    - apply Short; [|cbn; lia].
      eapply pushed_as;
        [apply then_frame_dropped; [apply then_u16; [apply pushed_nil|]|]
        | reflexivity | reflexivity]; cbn; lia.
    - apply Short; [|cbn; lia].
      eapply pushed_as;
        [apply then_frame_dropped; [apply then_u16_dropped; [apply pushed_nil|]|]
        | reflexivity | reflexivity]; cbn; lia. }
  destruct (Z_lt_le_dec (room s) 16) as [Lt|Ge].
  - exists (payload_bytes (heap s) rqst).
    split; [apply load_bytes_length|]. split; [reflexivity|].
    split; [unfold message_length, sizeof_ssh_command; lia|].
    split; [lia | exact Tail].
  - unfold room in Ge.
    destruct (msgb_push_cmd_body s seq rqid rqst Hl ltac:(lia))
      as (s2 & s4 & pl & Lpl & Hpl & A2 & A4 & E).
    exists pl. split; [exact Lpl|]. split; [exact Hpl|].
    split; [|split; [|exact Tail]].
    + intro R. rewrite E, message_bytes_preamble.
      apply appended_pushed.
      eapply appended_trans; [exact A2|].
      eapply appended_trans; [exact A4|].
      apply (msgb_push_crc_appended _ _ _ A4).
      rewrite (app_ptr _ _ _ A4), (app_end _ _ _ A4),
        (app_ptr _ _ _ A2), (app_end _ _ _ A2), preamble_length, length_app,
        Lpl.
      change (List.length (command_bytes SSH_PLD_TYPE_CMD rqid rqst))
        with 8%nat.
      unfold room, message_length, sizeof_ssh_command in R. lia.
    + intro R. rewrite E.
      unfold msgb_push_crc. rewrite msgb_push_u16_full.
      * apply pushed_reported, appended_pushed.
        exact (appended_trans _ _ _ _ _ A2 A4).
      * rewrite (app_ptr _ _ _ A4), (app_end _ _ _ A4),
          (app_ptr _ _ _ A2), (app_end _ _ _ A2), preamble_length, length_app,
          Lpl.
        change (List.length (command_bytes SSH_PLD_TYPE_CMD rqid rqst))
          with 8%nat.
        unfold room, message_length, sizeof_ssh_command in R. lia.
Qed.

(** X3.  msgb_push_cmd by the room it finds, for a request of payload
    length [length rqst] >= 0.  With room for the whole message it is
    appended.  With 16 bytes or more but not the whole message, SYN,
    frame, header checksum, command header and the whole payload are
    written (the payload without regard to the end of the buffer) and
    only the payload checksum is dropped.  With 8 to 15 bytes the call
    stops after the header checksum, with 6 or 7 after the frame header,
    with 2 to 5 after SYN, and with less it writes nothing.  The payload
    bytes [pl] are those of the request when its storage lies apart from
    the 16 bytes written before the copy. *)
Theorem msgb_push_cmd_profile s seq rqid rqst :
  0 <= length rqst ->
  exists pl,
    List.length pl = Z.to_nat (length rqst) /\
    (apart (payload rqst) (length rqst) (ptr (msgb s)) 16 ->
     pl = payload_bytes (heap s) rqst) /\
    (message_length (sizeof_ssh_command + length rqst) <= room s ->
     pushed 0 s (msgb_push_cmd s seq rqid rqst)
       (message_bytes SSH_FRAME_TYPE_DATA_SEQ (sizeof_ssh_command + length rqst)
          seq (command_bytes SSH_PLD_TYPE_CMD rqid rqst ++ pl))) /\
    (16 <= room s < message_length (sizeof_ssh_command + length rqst) ->
     pushed 1 s (msgb_push_cmd s seq rqid rqst)
       (preamble_bytes SSH_FRAME_TYPE_DATA_SEQ (sizeof_ssh_command + length rqst)
          seq ++ command_bytes SSH_PLD_TYPE_CMD rqid rqst ++ pl)) /\
    (8 <= room s < 16 ->
     pushed 1 s (msgb_push_cmd s seq rqid rqst)
       (preamble_bytes SSH_FRAME_TYPE_DATA_SEQ (sizeof_ssh_command + length rqst)
          seq)) /\
    (6 <= room s < 8 ->
     pushed 2 s (msgb_push_cmd s seq rqid rqst)
       (le16 SSH_MSG_SYN
        ++ frame_bytes SSH_FRAME_TYPE_DATA_SEQ (sizeof_ssh_command + length rqst)
             seq)) /\
    (2 <= room s < 6 ->
     pushed 2 s (msgb_push_cmd s seq rqid rqst) (le16 SSH_MSG_SYN)) /\
    (room s < 2 -> pushed 3 s (msgb_push_cmd s seq rqid rqst) []).
Proof. exact (msgb_push_cmd_account s seq rqid rqst). Qed.

Lemma bare_profile_cases s m ty seq :
  bare_profile s m ty seq ->
  exists k bs, pushed k s m bs /\
    (10 <= room s -> k = 0%nat /\ List.length bs = 10%nat) /\
    (room s < 10 -> (0 < k)%nat /\ (List.length bs < 10)%nat).
Proof.
  intros (P10 & P8 & P6 & P4 & P2 & P0).
  destruct (Z_lt_le_dec (room s) 2);
    [|destruct (Z_lt_le_dec (room s) 4);
      [|destruct (Z_lt_le_dec (room s) 6);
        [|destruct (Z_lt_le_dec (room s) 8);
          [|destruct (Z_lt_le_dec (room s) 10)]]]].
  - eexists _, _. split; [apply P0; lia|]. split; [lia|cbn; lia].
  - eexists _, _. split; [apply P2; lia|]. split; [lia|cbn; lia].
  - eexists _, _. split; [apply P4; lia|]. split; [lia|cbn; lia].
  - eexists _, _. split; [apply P6; lia|]. split; [lia|cbn; lia].
  - eexists _, _. split; [apply P8; lia|]. split; [lia|cbn; lia].
  - eexists _, _. split; [apply P10; lia|]. split; [|lia].
    intros _. split; reflexivity.
Qed.

Lemma bare_profile_detect s m ty seq :
  bare_profile s m ty seq ->
  (warnings m = warnings s <-> 10 <= room s) /\
  (msgb_bytes_used m = msgb_bytes_used s + 10 <-> 10 <= room s).
Proof.
  intro H. destruct (bare_profile_cases _ _ _ _ H) as (k & bs & P & Fit & Cut).
  unfold msgb_bytes_used.
  rewrite (psh_reports _ _ _ _ P), (psh_ptr _ _ _ _ P), (psh_begin _ _ _ _ P).
  destruct (Z_lt_le_dec (room s) 10) as [Lt|Ge].
  - destruct (Cut Lt). split; split; lia.
  - destruct (Fit Ge) as [-> E]. rewrite E. split; split; lia.
Qed.

(** X4.  Whether an acknowledgement or negative acknowledgement went out
    whole can be told from the outside: for every buffer state, no
    report is raised exactly when 10 bytes of room were there, and the
    used count grows by 10 exactly then. *)
Theorem ack_nak_complete_iff s seq :
  (warnings (msgb_push_ack s seq) = warnings s <-> 10 <= room s) /\
  (msgb_bytes_used (msgb_push_ack s seq) = msgb_bytes_used s + 10
   <-> 10 <= room s) /\
  (warnings (msgb_push_nak s) = warnings s <-> 10 <= room s) /\
  (msgb_bytes_used (msgb_push_nak s) = msgb_bytes_used s + 10 <-> 10 <= room s).
Proof.
  pose proof (bare_message_profile s SSH_FRAME_TYPE_ACK seq) as A.
  pose proof (bare_message_profile s SSH_FRAME_TYPE_NAK 0) as N.
  cbv zeta in A, N.
  destruct (bare_profile_detect _ _ _ _ A) as [A1 A2].
  destruct (bare_profile_detect _ _ _ _ N) as [N1 N2].
  repeat split; first [apply A1 | apply A2 | apply N1 | apply N2].
Qed.

(** The account of a sequenced command, without the bytes: how many
    reports, how far the cursor went. *)
Lemma msgb_push_cmd_cases s seq rqid rqst :
  0 <= length rqst ->
  exists k bs, pushed k s (msgb_push_cmd s seq rqid rqst) bs /\
    (message_length (sizeof_ssh_command + length rqst) <= room s ->
     k = 0%nat /\
     Z.of_nat (List.length bs) = message_length (sizeof_ssh_command + length rqst)) /\
    (16 <= room s < message_length (sizeof_ssh_command + length rqst) ->
     k = 1%nat /\ Z.of_nat (List.length bs) = 16 + length rqst) /\
    (room s < 16 ->
     (0 < k)%nat /\ Z.of_nat (List.length bs) <= 8 /\
     Z.of_nat (List.length bs) <= Z.max 0 (room s)).
Proof.
  intro Hl.
  destruct (msgb_push_cmd_account s seq rqid rqst Hl)
    as (pl & Lpl & _ & PL & P16 & P8 & P6 & P2 & P0).
  unfold message_length, sizeof_ssh_command in *.
  destruct (Z_lt_le_dec (room s) 2);
    [|destruct (Z_lt_le_dec (room s) 6);
      [|destruct (Z_lt_le_dec (room s) 8);
        [|destruct (Z_lt_le_dec (room s) 16);
          [|destruct (Z_lt_le_dec (room s) (2 + 4 + 2 + (8 + length rqst) + 2))]]]].
  - eexists _, _. split; [apply P0; lia|].
    cbn [List.length app le16 frame_bytes]. repeat split; lia.
  - eexists _, _. split; [apply P2; lia|].
    cbn [List.length app le16 frame_bytes]. repeat split; lia.
  - eexists _, _. split; [apply P6; lia|].
    cbn [List.length app le16 frame_bytes]. repeat split; lia.
  - eexists _, _. split; [apply P8; lia|].
    rewrite preamble_length. repeat split; lia.
  - eexists _, _. split; [apply P16; lia|].
    rewrite !length_app, preamble_length, Lpl.
    change (List.length (command_bytes SSH_PLD_TYPE_CMD rqid rqst)) with 8%nat.
    repeat split; lia.
  - eexists _, _. split; [apply PL; lia|].
    rewrite message_bytes_length, length_app, Lpl.
    change (List.length (command_bytes SSH_PLD_TYPE_CMD rqid rqst)) with 8%nat.
    unfold message_length. repeat split; lia.
Qed.

(** X5.  Whether a sequenced command went out whole can be told from the
    outside: for every buffer state and payload length >= 0, no report
    is raised exactly when the whole message had room, and the used
    count grows by the full message length exactly then.  In particular
    a payload copied past the end of the buffer is always followed by a
    report. *)
Theorem msgb_push_cmd_complete_iff s seq rqid rqst :
  0 <= length rqst ->
  (warnings (msgb_push_cmd s seq rqid rqst) = warnings s
   <-> message_length (sizeof_ssh_command + length rqst) <= room s) /\
  (msgb_bytes_used (msgb_push_cmd s seq rqid rqst)
   = msgb_bytes_used s + message_length (sizeof_ssh_command + length rqst)
   <-> message_length (sizeof_ssh_command + length rqst) <= room s).
Proof.
  intro Hl.
  destruct (msgb_push_cmd_cases s seq rqid rqst Hl)
    as (k & bs & P & Fit & Mid & Cut).
  unfold msgb_bytes_used.
  rewrite (psh_reports _ _ _ _ P), (psh_ptr _ _ _ _ P), (psh_begin _ _ _ _ P).
  unfold message_length, sizeof_ssh_command in *.
  destruct (Z_lt_le_dec (room s) 16) as [L16|G16];
    [|destruct (Z_lt_le_dec (room s) (2 + 4 + 2 + (8 + length rqst) + 2))
        as [LL|GL]].
  - destruct (Cut L16) as (? & ? & ?). split; split; lia.
  - destruct (Mid ltac:(lia)) as (-> & E). split; split; lia.
  - destruct (Fit GL) as (-> & E). split; split; lia.
Qed.

Lemma pushed_in_bounds k s s' bs :
  pushed k s s' bs -> msgb_inv (msgb s) ->
  Z.of_nat (List.length bs) <= room s ->
  in_bounds_step s s'.
Proof.
  intros P I R. unfold in_bounds_step, msgb_inv, room in *.
  rewrite (psh_ptr _ _ _ _ P), (psh_begin _ _ _ _ P), (psh_end _ _ _ _ P).
  repeat split; try lia.
  intros a Ha. apply (psh_rest _ _ _ _ P). lia.
Qed.

(** X6.  The extent of the unchecked payload copy.  From a buffer in
    order (begin <= ptr <= end) and for a payload length >= 0,
    msgb_push_cmd leaves the cursor past the end exactly when the
    command header fits but the payload does not, 16 <= room < 16 +
    length; in every other case the buffer stays in order and no byte
    outside [begin, end) changes. *)
Theorem msgb_push_cmd_overrun_iff s seq rqid rqst :
  msgb_inv (msgb s) ->
  0 <= length rqst ->
  (end_ (msgb (msgb_push_cmd s seq rqid rqst))
   < ptr (msgb (msgb_push_cmd s seq rqid rqst))
   <-> 16 <= room s < 16 + length rqst) /\
  (room s < 16 \/ 16 + length rqst <= room s ->
   in_bounds_step s (msgb_push_cmd s seq rqid rqst)).
Proof.
  intros I Hl.
  destruct (msgb_push_cmd_cases s seq rqid rqst Hl)
    as (k & bs & P & Fit & Mid & Cut).
  pose proof (pushed_in_bounds _ _ _ _ P I) as B.
  rewrite (psh_ptr _ _ _ _ P), (psh_end _ _ _ _ P).
  unfold msgb_inv, room, message_length, sizeof_ssh_command in *.
  destruct (Z_lt_le_dec (end_ (msgb s) - ptr (msgb s)) 16) as [L16|G16];
    [|destruct (Z_lt_le_dec (end_ (msgb s) - ptr (msgb s))
                  (2 + 4 + 2 + (8 + length rqst) + 2)) as [LL|GL]].
  - destruct (Cut L16) as (_ & ? & ?). split; [lia|]. intros _. apply B. lia.
  - destruct (Mid ltac:(lia)) as (_ & E). split; [lia|].
    intros [?|?]; [lia|]. apply B. lia.
  - destruct (Fit GL) as (_ & E). split; [lia|]. intros _. apply B. lia.
Qed.

Lemma pushed_reach k s s' bs n :
  pushed k s s' bs -> Z.of_nat (List.length bs) <= n -> reach n s s'.
Proof.
  intros P H. unfold reach.
  rewrite (psh_begin _ _ _ _ P), (psh_end _ _ _ _ P), (psh_ptr _ _ _ _ P),
    (psh_reports _ _ _ _ P).
  repeat split; try lia.
  intros a Ha. apply (psh_rest _ _ _ _ P). lia.
Qed.

Lemma msgb_push_u16_reach s v : reach 2 s (msgb_push_u16 s v).
Proof.
  destruct (Z_le_gt_dec 2 (room s)) as [R|R].
  - apply (pushed_reach _ _ _ _ _
             (then_u16 0 s s [] v (pushed_nil s) ltac:(cbn; lia))).
    cbn. lia.
  - apply (pushed_reach _ _ _ _ _
             (then_u16_dropped 0 s s [] v (pushed_nil s) ltac:(cbn; lia))).
    cbn. lia.
Qed.

(** X7.  How far a push can reach, for every buffer state, fitting or
    not: no push changes begin or end, moves the cursor backwards or
    loses a report, and none changes a byte outside the stretch of its
    full output counted from the old cursor: 2 bytes for a u16 or a
    checksum, 6 for a frame, 10 for an acknowledgement or negative
    acknowledgement, the copied length for msgb_push_buf, and the full
    message length for a sequenced command. *)
Theorem pushes_reach s :
  (forall v, reach 2 s (msgb_push_u16 s v)) /\
  (forall buf len, reach 2 s (msgb_push_crc s buf len)) /\
  (forall ty len seq, reach 6 s (msgb_push_frame s ty len seq)) /\
  (forall seq, reach 10 s (msgb_push_ack s seq)) /\
  reach 10 s (msgb_push_nak s) /\
  (forall buf len, 0 <= len -> reach len s (msgb_push_buf s buf len)) /\
  (forall seq rqid rqst, 0 <= length rqst ->
   reach (message_length (sizeof_ssh_command + length rqst)) s
         (msgb_push_cmd s seq rqid rqst)).
Proof.
  split; [|split; [|split; [|split; [|split; [|split]]]]].
  - intro v. apply msgb_push_u16_reach.
  - intros buf len. apply msgb_push_u16_reach.
  - intros ty len seq.
    destruct (msgb_push_frame_account s ty len seq) as (P6 & P4 & P0).
    destruct (Z_lt_le_dec (room s) 4);
      [|destruct (Z_lt_le_dec (room s) 6)].
    + apply (pushed_reach _ _ _ _ _ (P0 ltac:(lia))). cbn. lia.
    + apply (pushed_reach _ _ _ _ _ (P4 ltac:(lia))). cbn. lia.
    + apply (pushed_reach _ _ _ _ _ (P6 ltac:(lia))). cbn. lia.
  - intro seq.
    destruct (bare_profile_cases _ _ _ _
                (bare_message_profile s SSH_FRAME_TYPE_ACK seq))
      as (k & bs & P & Fit & Cut).
    apply (pushed_reach _ _ _ _ _ P).
    destruct (Z_lt_le_dec (room s) 10) as [L|G];
      [destruct (Cut L) | destruct (Fit G)]; lia.
  - destruct (bare_profile_cases _ _ _ _
                (bare_message_profile s SSH_FRAME_TYPE_NAK 0))
      as (k & bs & P & Fit & Cut).
    apply (pushed_reach _ _ _ _ _ P).
    destruct (Z_lt_le_dec (room s) 10) as [L|G];
      [destruct (Cut L) | destruct (Fit G)]; lia.
  - intros buf len Hl.
    apply (pushed_reach _ _ _ _ _
             (appended_pushed _ _ _ (msgb_push_buf_appended s buf len Hl))).
    rewrite load_bytes_length. lia.
  - intros seq rqid rqst Hl.
    destruct (msgb_push_cmd_cases s seq rqid rqst Hl)
      as (k & bs & P & Fit & Mid & Cut).
    apply (pushed_reach _ _ _ _ _ P).
    unfold message_length, sizeof_ssh_command in *.
    destruct (Z_lt_le_dec (room s) 16) as [L16|G16];
      [|destruct (Z_lt_le_dec (room s) (2 + 4 + 2 + (8 + length rqst) + 2))
          as [LL|GL]].
    + destruct (Cut L16) as (_ & ? & _). lia.
    + destruct (Mid ltac:(lia)) as (_ & E). lia.
    + destruct (Fit GL) as (_ & E). lia.
Qed.

(** X8.  The pushes that test the remaining room keep a buffer in order:
    from begin <= ptr <= end, after msgb_push_u16, msgb_push_syn,
    msgb_push_crc, msgb_push_frame, msgb_push_ack or msgb_push_nak, with
    any arguments and however little room, begin and end are unchanged,
    begin <= ptr <= end still holds (so the used count is at most the
    capacity) and no byte outside [begin, end) has changed. *)
Theorem checked_pushes_in_bounds s :
  msgb_inv (msgb s) ->
  (forall v, in_bounds_step s (msgb_push_u16 s v)) /\
  in_bounds_step s (msgb_push_syn s) /\
  (forall buf len, in_bounds_step s (msgb_push_crc s buf len)) /\
  (forall ty len seq, in_bounds_step s (msgb_push_frame s ty len seq)) /\
  (forall seq, in_bounds_step s (msgb_push_ack s seq) /\
               msgb_bytes_used (msgb_push_ack s seq)
               <= end_ (msgb s) - begin (msgb s)) /\
  (in_bounds_step s (msgb_push_nak s) /\
   msgb_bytes_used (msgb_push_nak s) <= end_ (msgb s) - begin (msgb s)).
Proof.
  intro I.
  assert (Used : forall s', in_bounds_step s s' ->
                 msgb_bytes_used s' <= end_ (msgb s) - begin (msgb s)).
  { intros s' (I' & B & E & _). unfold msgb_bytes_used, msgb_inv in *. lia. }
  split; [|split; [|split; [|split; [|split]]]].
  - intro v. apply msgb_push_u16_inv, I.
  - apply msgb_push_u16_inv, I.
  - intros buf len. apply msgb_push_crc_inv, I.
  - intros ty len seq. apply msgb_push_frame_inv, I.
  - intro seq. pose proof (msgb_push_ack_inv s seq I) as H.
    split; [exact H | apply Used, H].
  - pose proof (msgb_push_nak_inv s I) as H.
    split; [exact H | apply Used, H].
Qed.

(** X9.  Messages follow one another: with room for both, an
    acknowledgement and then a sequenced command built into the same
    buffer leave the two wire messages back to back from the old
    cursor, without a report and without changing any other byte; the
    first message is not disturbed by the second.  The payload storage
    is taken to lie apart from the bytes written before it is copied. *)
Theorem messages_back_to_back s aseq seq rqid rqst :
  0 <= length rqst ->
  message_length 0 + message_length (sizeof_ssh_command + length rqst)
    <= room s ->
  apart (payload rqst) (length rqst) (ptr (msgb s)) (message_length 0 + 16) ->
  pushed 0 s (msgb_push_cmd (msgb_push_ack s aseq) seq rqid rqst)
    (message_bytes SSH_FRAME_TYPE_ACK 0 aseq []
     ++ message_bytes SSH_FRAME_TYPE_DATA_SEQ (sizeof_ssh_command + length rqst)
          seq (command_bytes SSH_PLD_TYPE_CMD rqid rqst
               ++ payload_bytes (heap s) rqst)).
Proof.
  intros Hl R Hap. unfold room, message_length, sizeof_ssh_command in R.
  pose proof (msgb_push_ack_appended s aseq ltac:(lia)) as A1.
  pose proof (app_ptr _ _ _ A1) as P1. pose proof (app_end _ _ _ A1) as E1.
  rewrite message_bytes_length in P1. cbn [List.length Z.of_nat] in P1.
  unfold message_length in P1.
  assert (R2 : ptr (msgb (msgb_push_ack s aseq))
               + message_length (sizeof_ssh_command + length rqst)
               <= end_ (msgb (msgb_push_ack s aseq)))
    by (unfold message_length, sizeof_ssh_command; lia).
  destruct (msgb_push_cmd_appended (msgb_push_ack s aseq) seq rqid rqst Hl R2)
    as (pl & Lpl & Hpl & A2).
  assert (Epl : pl = payload_bytes (heap s) rqst).
  { rewrite Hpl by (unfold apart, message_length in *; lia).
    unfold payload_bytes. apply load_bytes_ext. intros i Hi.
    apply (app_rest _ _ _ A1). rewrite message_bytes_length.
    cbn [List.length Z.of_nat]. unfold apart, message_length in *. lia. }
  subst pl. apply appended_pushed.
  exact (appended_trans _ _ _ _ _ A1 A2).
Qed.

End BuilderProfiles.

(** ** The hot-plug driver: notifications, set-up, probe and remove *)

Module ShpsFacts.
Import Shps.

Lemma events_bind {A B : Type} (m : run A) (k : A -> run B) sd :
  events_of (bind m k sd)
  = events_of (m sd) ++ events_of (k (result_of (m sd)) (device_of (m sd))).
Proof.
  unfold bind, events_of, result_of, device_of.
  destruct (m sd) as [[a sd1] l1]. cbn.
  destruct (k a sd1) as [[b sd2] l2]. reflexivity.
Qed.

Lemma device_bind {A B : Type} (m : run A) (k : A -> run B) sd :
  device_of (bind m k sd)
  = device_of (k (result_of (m sd)) (device_of (m sd))).
Proof.
  unfold bind, events_of, result_of, device_of.
  destruct (m sd) as [[a sd1] l1]. cbn.
  destruct (k a sd1) as [[b sd2] l2]. reflexivity.
Qed.

Lemma result_bind {A B : Type} (m : run A) (k : A -> run B) sd :
  result_of (bind m k sd)
  = result_of (k (result_of (m sd)) (device_of (m sd))).
Proof.
  unfold bind, events_of, result_of, device_of.
  destruct (m sd) as [[a sd1] l1]. cbn.
  destruct (k a sd1) as [[b sd2] l2]. reflexivity.
Qed.

(** The log of a notification, path by path. *)
Lemma notify_paths pf type sd :
  let value := gpiod_get_value_cansleep pf (gpio sd type) in
  let func := SHPS_DSM_FN_IRQ_BASE_PRESENCE + type in
  device_of (shps_dsm_notify_irq pf type sd) = sd /\
  ((value < 0 /\
    events_of (shps_dsm_notify_irq pf type sd)
    = [call_mutex_lock type; call_gpiod_get_value_cansleep (gpio sd type);
       call_mutex_unlock type; dev_err (failed_to_get_gpio type value)]) \/
   (0 <= value /\
    acpi_evaluate_dsm pf SHPS_DSM_REVISION func value = None /\
    events_of (shps_dsm_notify_irq pf type sd)
    = [call_mutex_lock type; call_gpiod_get_value_cansleep (gpio sd type);
       dev_dbg (dsm_irq_notification type value);
       call_acpi_evaluate_dsm SHPS_DSM_REVISION func (ACPI_TYPE_INTEGER pf) value;
       call_mutex_unlock type; dev_err (dsm_failed type value)]) \/
   (exists r errs,
    0 <= value /\
    acpi_evaluate_dsm pf SHPS_DSM_REVISION func value = Some r /\
    errs
    = (if negb (obj_type r =? ACPI_TYPE_BUFFER pf)
       then [dev_err (dsm_unexpected_result_type type value)] else [])
      ++ (if negb (buffer_length r =? 1) || negb (buffer_pointer r 0 =? 0)
          then [dev_err (dsm_unexpected_result_value type value)] else []) /\
    events_of (shps_dsm_notify_irq pf type sd)
    = [call_mutex_lock type; call_gpiod_get_value_cansleep (gpio sd type);
       dev_dbg (dsm_irq_notification type value);
       call_acpi_evaluate_dsm SHPS_DSM_REVISION func (ACPI_TYPE_INTEGER pf) value]
      ++ errs ++ [call_mutex_unlock type; call_ACPI_FREE])).
Proof.
  cbv zeta.
  unfold shps_dsm_notify_irq, bind, call, ret, drvdata, events_of, device_of.
  destruct (Z.ltb_spec (gpiod_get_value_cansleep pf (gpio sd type)) 0) as [Hv|Hv].
  - cbn. split; [reflexivity|]. left. split; [exact Hv | reflexivity].
  - destruct (acpi_evaluate_dsm pf SHPS_DSM_REVISION
                (SHPS_DSM_FN_IRQ_BASE_PRESENCE + type)
                (gpiod_get_value_cansleep pf (gpio sd type))) as [r|] eqn:Hr.
    + destruct (negb (obj_type r =? ACPI_TYPE_BUFFER pf)) eqn:Ht;
        destruct (negb (buffer_length r =? 1) || negb (buffer_pointer r 0 =? 0))
          eqn:Hb;
        cbn; (split; [reflexivity|]); right; right;
        exists r; eexists; (split; [exact Hv|]); (split; [reflexivity|]);
        rewrite Ht, Hb; split; reflexivity.
    + cbn. split; [reflexivity|]. right. left.
      split; [exact Hv|]. split; reflexivity.
Qed.

Lemma well_locked_app l1 : forall held l2,
  well_locked held l1 = true -> well_locked None l2 = true ->
  well_locked held (l1 ++ l2) = true.
Proof.
  induction l1 as [|e l1 IH]; intros held l2 H1 H2.
  - destruct held; [discriminate | exact H2].
  - destruct e; cbn [app well_locked] in *;
      try (apply IH; assumption);
      destruct held; try discriminate; try (apply IH; assumption).
    apply andb_true_iff in H1. destruct H1 as [E H1].
    rewrite E. cbn. apply IH; assumption.
Qed.

Lemma quiet_well_locked l :
  filter is_notify_call l = [] -> well_locked None l = true.
Proof.
  induction l as [|e l IH]; intro H; [reflexivity|].
  destruct e; cbn in H; try discriminate; cbn; apply IH; exact H.
Qed.

Lemma notify_well_locked pf type sd :
  well_locked None (events_of (shps_dsm_notify_irq pf type sd)) = true.
Proof.
  destruct (notify_paths pf type sd) as (_ & [(_ & E)|[(_ & _ & E)|P]]).
  - rewrite E. cbn. rewrite Z.eqb_refl. reflexivity.
  - rewrite E. cbn. rewrite Z.eqb_refl. reflexivity.
  - destruct P as (r & errs & _ & _ & Ee & E). rewrite E, Ee.
    destruct (negb (obj_type r =? ACPI_TYPE_BUFFER pf));
      destruct (negb (buffer_length r =? 1) || negb (buffer_pointer r 0 =? 0));
      cbn; rewrite Z.eqb_refl; reflexivity.
Qed.

(** The DSM evaluations and the frees in the log of a notification. *)
Lemma notify_evaluates_and_frees_aux pf type sd :
  filter is_dsm_eval (events_of (shps_dsm_notify_irq pf type sd))
  = (if gpiod_get_value_cansleep pf (gpio sd type) <? 0 then []
     else [call_acpi_evaluate_dsm SHPS_DSM_REVISION
             (SHPS_DSM_FN_IRQ_BASE_PRESENCE + type)
             (ACPI_TYPE_INTEGER pf)
             (gpiod_get_value_cansleep pf (gpio sd type))]) /\
  filter is_free (events_of (shps_dsm_notify_irq pf type sd))
  = (if gpiod_get_value_cansleep pf (gpio sd type) <? 0 then []
     else match acpi_evaluate_dsm pf SHPS_DSM_REVISION
                  (SHPS_DSM_FN_IRQ_BASE_PRESENCE + type)
                  (gpiod_get_value_cansleep pf (gpio sd type)) with
          | Some _ => [call_ACPI_FREE]
          | None => []
          end).
Proof.
  destruct (notify_paths pf type sd) as (D & [(V & E)|[(V & R & E)|P]]).
  - rewrite E.
    destruct (Z.ltb_spec (gpiod_get_value_cansleep pf (gpio sd type)) 0);
      [split; reflexivity | lia].
  - rewrite E, R.
    destruct (Z.ltb_spec (gpiod_get_value_cansleep pf (gpio sd type)) 0);
      [lia | split; reflexivity].
  - destruct P as (r & errs & V & R & Ee & E).
    rewrite E, R, Ee.
    destruct (Z.ltb_spec (gpiod_get_value_cansleep pf (gpio sd type)) 0);
      [lia|].
    destruct (negb (obj_type r =? ACPI_TYPE_BUFFER pf));
      destruct (negb (buffer_length r =? 1) || negb (buffer_pointer r 0 =? 0));
      split; reflexivity.
Qed.

(** X11.  One notification, whatever the platform answers: the device
    data are unchanged; the DSM is evaluated at most once, exactly when
    the GPIO read is not negative, and then as revision 1, function
    SHPS_DSM_FN_IRQ_BASE_PRESENCE + type, with the GPIO value as integer
    argument; and ACPI_FREE is called exactly once when the evaluation
    returned an object, and not at all otherwise. *)
Theorem notify_evaluates_and_frees pf type sd :
  let value := gpiod_get_value_cansleep pf (gpio sd type) in
  let func := SHPS_DSM_FN_IRQ_BASE_PRESENCE + type in
  let log := events_of (shps_dsm_notify_irq pf type sd) in
  device_of (shps_dsm_notify_irq pf type sd) = sd /\
  filter is_dsm_eval log
  = (if value <? 0 then []
     else [call_acpi_evaluate_dsm SHPS_DSM_REVISION func
             (ACPI_TYPE_INTEGER pf) value]) /\
  filter is_free log
  = (if value <? 0 then []
     else match acpi_evaluate_dsm pf SHPS_DSM_REVISION func value with
          | Some _ => [call_ACPI_FREE]
          | None => []
          end).
Proof.
  cbv zeta. split; [exact (proj1 (notify_paths pf type sd))|].
  exact (notify_evaluates_and_frees_aux pf type sd).
Qed.

(** X12.  A notification logs no error exactly when the GPIO read is
    not negative and the DSM answers a buffer of length 1 whose byte
    is 0. *)
Theorem notify_silent_iff pf type sd :
  let value := gpiod_get_value_cansleep pf (gpio sd type) in
  filter is_dev_err (events_of (shps_dsm_notify_irq pf type sd)) = []
  <-> (0 <= value /\
       exists r,
         acpi_evaluate_dsm pf SHPS_DSM_REVISION
           (SHPS_DSM_FN_IRQ_BASE_PRESENCE + type) value = Some r /\
         obj_type r = ACPI_TYPE_BUFFER pf /\
         buffer_length r = 1 /\ buffer_pointer r 0 = 0).
Proof.
  cbv zeta.
  destruct (notify_paths pf type sd) as (_ & [(V & E)|[(V & R & E)|P]]).
  - rewrite E. cbn. split; [discriminate | intros [? _]; lia].
  - rewrite E, R. cbn.
    split; [discriminate | intros (_ & r & ? & _); discriminate].
  - destruct P as (r & errs & V & R & Ee & E). rewrite E, R, Ee.
    destruct (Z.eqb_spec (obj_type r) (ACPI_TYPE_BUFFER pf)) as [T|T];
      destruct (Z.eqb_spec (buffer_length r) 1) as [L|L];
      destruct (Z.eqb_spec (buffer_pointer r 0) 0) as [B|B]; cbn;
      (split;
       [first [discriminate
              |intros _; split; [exact V|]; exists r; repeat split; assumption]
       |intros (_ & r' & R' & T' & L' & B'); injection R' as <-;
        first [contradiction | reflexivity]]).
Qed.

Lemma u32_small v : 0 <= v < 2 ^ 32 -> u32 v = v.
Proof. intro H. unfold u32. apply Z.mod_small. exact H. Qed.

Lemma not_present_value : SHPS_IRQ_NOT_PRESENT = 2 ^ 32 - 1.
Proof. reflexivity. Qed.

Lemma three_indices i :
  0 <= i < SHPS_NUM_IRQS -> i = 0 \/ i = 1 \/ i = 2.
Proof. unfold SHPS_NUM_IRQS. lia. Qed.

(** The two ways of the interrupt handler. *)
Lemma handle_irq_paths pf sd n :
  0 <= n < 2 ^ 31 ->
  let t := shps_irq_lookup sd n 0 (Z.to_nat SHPS_NUM_IRQS) in
  result_of (shps_handle_irq pf n sd) = IRQ_HANDLED pf /\
  device_of (shps_handle_irq pf n sd) = sd /\
  ((exists i, 0 <= i < SHPS_NUM_IRQS /\ irq sd i = n) ->
   0 <= t < SHPS_NUM_IRQS /\ irq sd t = n /\
   irq sd t <> SHPS_IRQ_NOT_PRESENT /\
   (forall j, 0 <= j < t -> irq sd j <> n) /\
   events_of (shps_handle_irq pf n sd)
   = events_of (shps_dsm_notify_irq pf t sd)) /\
  ((forall i, 0 <= i < SHPS_NUM_IRQS -> irq sd i <> n) ->
   events_of (shps_handle_irq pf n sd) = [WARN (invalid_irq_number n)]).
Proof.
  intros Hn. cbv zeta.
  assert (U : u32 n = n) by (apply u32_small; lia).
  unfold shps_handle_irq.
  rewrite result_bind, device_bind, events_bind.
  change (Z.to_nat SHPS_NUM_IRQS) with 3%nat.
  cbn [shps_irq_lookup drvdata result_of device_of events_of fst snd app].
  rewrite U. unfold SHPS_NUM_IRQS. rewrite not_present_value.
  change (0 + 1 + 1 + 1) with 3. change (0 + 1 + 1) with 2.
  change (0 + 1) with 1.
  destruct (Z.eqb_spec n (irq sd 0)) as [E0|E0];
    [|destruct (Z.eqb_spec n (irq sd 1)) as [E1|E1];
      [|destruct (Z.eqb_spec n (irq sd 2)) as [E2|E2]]];
    try change (0 >=? 3) with false; try change (1 >=? 3) with false;
    try change (2 >=? 3) with false; try change (3 >=? 3) with true;
    cbv iota;
    rewrite ?result_bind, ?device_bind, ?events_bind;
    cbn [ret call result_of device_of events_of fst snd];
    rewrite ?app_nil_r;
    (split; [reflexivity|]);
    (split; [try reflexivity;
             apply (proj1 (notify_paths pf _ sd))|]);
    (split; [intros (i & Hi & Ei) | intro None_]).
  - split; [lia|]. split; [congruence|]. split; [lia|].
    split; [intros j Hj; lia | reflexivity].
  - exfalso. apply (None_ 0); [lia | congruence].
  - split; [lia|]. split; [congruence|]. split; [lia|].
    split; [|reflexivity]. intros j Hj. assert (j = 0) by lia. subst j.
    congruence.
  - exfalso. apply (None_ 1); [lia | congruence].
  - split; [lia|]. split; [congruence|]. split; [lia|].
    split; [|reflexivity]. intros j Hj.
    assert (j = 0 \/ j = 1) as [->| ->] by lia; congruence.
  - exfalso. apply (None_ 2); [lia | congruence].
  - exfalso. destruct (three_indices i Hi) as [->|[->| ->]]; congruence.
  - reflexivity.
Qed.

(** X13.  The interrupt handler, for an interrupt number n with
    0 <= n < 2^31: it always returns IRQ_HANDLED and leaves the device
    data alone; when some slot holds n it does exactly what a
    notification for the first such slot does, and that slot is never
    one marked SHPS_IRQ_NOT_PRESENT; when no slot holds n it only raises
    the WARN, without locking, reading a GPIO or evaluating the DSM. *)
Theorem handle_irq_dispatch pf sd n :
  0 <= n < 2 ^ 31 ->
  let t := shps_irq_lookup sd n 0 (Z.to_nat SHPS_NUM_IRQS) in
  result_of (shps_handle_irq pf n sd) = IRQ_HANDLED pf /\
  device_of (shps_handle_irq pf n sd) = sd /\
  ((exists i, 0 <= i < SHPS_NUM_IRQS /\ irq sd i = n) ->
   0 <= t < SHPS_NUM_IRQS /\ irq sd t = n /\
   irq sd t <> SHPS_IRQ_NOT_PRESENT /\
   (forall j, 0 <= j < t -> irq sd j <> n) /\
   events_of (shps_handle_irq pf n sd)
   = events_of (shps_dsm_notify_irq pf t sd)) /\
  ((forall i, 0 <= i < SHPS_NUM_IRQS -> irq sd i <> n) ->
   events_of (shps_handle_irq pf n sd) = [WARN (invalid_irq_number n)]).
Proof. exact (handle_irq_paths pf sd n). Qed.

(** What one set-up leaves, by the answers of the platform. *)
Lemma setup_paths pf type sd :
  platform_ok pf ->
  let r := shps_setup_irq pf type sd in
  let present :=
    acpi_check_dsm pf SHPS_DSM_REVISION
      (BIT (SHPS_DSM_FN_IRQ_BASE_PRESENCE + type)) in
  (forall i, i <> type ->
   gpio (device_of r) i = gpio sd i /\ irq (device_of r) i = irq sd i) /\
  filter is_notify_call (events_of r) = [] /\
  (forall e j, In e (events_of r) -> touches_index j e = true ->
   BIT (SHPS_DSM_FN_IRQ_BASE_PRESENCE + type)
   = BIT (SHPS_DSM_FN_IRQ_BASE_PRESENCE + j) \/ type = j) /\
  ((irq_setup_ok pf type = false /\ result_of r <> 0 /\
    gpio (device_of r) type = None /\
    irq (device_of r) type = SHPS_IRQ_NOT_PRESENT) \/
   (irq_setup_ok pf type = true /\ present = false /\ result_of r = 0 /\
    gpio (device_of r) type = None /\
    irq (device_of r) type = SHPS_IRQ_NOT_PRESENT) \/
   (irq_setup_ok pf type = true /\ present = true /\ result_of r = 0 /\
    exists gpiod,
      devm_gpiod_get pf (shps_gpio_names type) = inl gpiod /\
      gpio (device_of r) type = Some gpiod /\
      irq (device_of r) type = gpiod_to_irq pf gpiod /\
      0 <= gpiod_to_irq pf gpiod < 2 ^ 31)).
Proof.
  intros (_ & Hmem & Herr & Hint). cbv zeta.
  unfold irq_setup_ok, shps_setup_irq.
  unfold bind, call, ret, set_gpio, set_irq, events_of, device_of, result_of.
  destruct (acpi_check_dsm pf SHPS_DSM_REVISION
              (BIT (SHPS_DSM_FN_IRQ_BASE_PRESENCE + type))) eqn:C; cbn.
  2:{ split; [intros i Hi; destruct (Z.eqb_spec i type); [contradiction|];
              split; reflexivity|].
      split; [reflexivity|]. split.
      - intros e j [<-|[<-|[]]] T; cbn in T; [|discriminate].
        left. apply Z.eqb_eq in T. exact T.
      - right. left. rewrite Z.eqb_refl. repeat split; reflexivity. }
  destruct (devm_gpiod_get pf (shps_gpio_names type)) as [gpiod|err] eqn:G; cbn.
  2:{ split; [intros i Hi; destruct (Z.eqb_spec i type); [contradiction|];
              split; reflexivity|].
      split; [reflexivity|]. split.
      - intros e j [<-|[<-|[]]] T; cbn in T; [|discriminate].
        left. apply Z.eqb_eq in T. exact T.
      - left. rewrite Z.eqb_refl. pose proof (Herr _ _ G).
        repeat split; try reflexivity. lia. }
  destruct (Z.ltb_spec (gpiod_to_irq pf gpiod) 0) as [N|N]; cbn.
  { split; [intros i Hi; destruct (Z.eqb_spec i type); [contradiction|];
            split; reflexivity|].
    split; [reflexivity|]. split.
    - intros e j [<-|[<-|[<-|[]]]] T; cbn in T; try discriminate.
      left. apply Z.eqb_eq in T. exact T.
    - left. rewrite Z.eqb_refl.
      destruct (Z.leb_spec 0 (gpiod_to_irq pf gpiod)); [lia|].
      repeat split; try reflexivity. lia. }
  destruct (Z.leb_spec 0 (gpiod_to_irq pf gpiod)); [|lia].
  destruct (devm_kasprintf pf type) eqn:K; cbn.
  2:{ split; [intros i Hi; destruct (Z.eqb_spec i type); [contradiction|];
              split; reflexivity|].
      split; [reflexivity|]. split.
      - intros e j [<-|[<-|[<-|[<-|[]]]]] T; cbn in T; try discriminate.
        + left. apply Z.eqb_eq in T. exact T.
        + right. apply Z.eqb_eq in T. exact T.
      - left. rewrite Z.eqb_refl. repeat split; try reflexivity. lia. }
  destruct (Z.eqb_spec (devm_request_threaded_irq pf (gpiod_to_irq pf gpiod)) 0)
    as [Q|Q]; cbn.
  2:{ split; [intros i Hi; destruct (Z.eqb_spec i type); [contradiction|];
              split; reflexivity|].
      split; [reflexivity|]. split.
      - intros e j [<-|[<-|[<-|[<-|[<-|[]]]]]] T; cbn in T; try discriminate.
        + left. apply Z.eqb_eq in T. exact T.
        + right. apply Z.eqb_eq in T. exact T.
      - left. rewrite Z.eqb_refl. repeat split; try reflexivity. exact Q. }
  split; [intros i Hi; destruct (Z.eqb_spec i type); [contradiction|];
          split; reflexivity|].
  split; [reflexivity|]. split.
  - intros e j [<-|[<-|[<-|[<-|[<-|[<-|[]]]]]]] T; cbn in T; try discriminate.
    + left. apply Z.eqb_eq in T. exact T.
    + right. apply Z.eqb_eq in T. exact T.
  - right. right. rewrite Z.eqb_refl.
    repeat split; try reflexivity.
    exists gpiod. repeat split; try reflexivity; try lia.
    + apply u32_small. pose proof (Hint gpiod). lia.
    + apply Hint.
Qed.

Lemma BIT_inj a b : 0 <= a -> 0 <= b -> BIT a = BIT b -> a = b.
Proof.
  unfold BIT. intros Ha Hb. rewrite !Z.shiftl_1_l.
  apply Z.pow_inj_r; lia.
Qed.

(** X14.  One set-up of an interrupt, on a platform whose answers are
    well-formed: it returns 0 exactly when the DSM function is absent or
    descriptor, interrupt number, name and request all succeed; it
    leaves the other slots alone and makes no notification call; on any
    failure, and when the DSM function is absent, the slot is left
    marked not present (NULL descriptor, SHPS_IRQ_NOT_PRESENT); and
    after a success with the DSM function present the slot holds the
    descriptor and its interrupt number, which is not negative. *)
Theorem setup_irq_outcome pf type sd :
  platform_ok pf ->
  let r := shps_setup_irq pf type sd in
  let present :=
    acpi_check_dsm pf SHPS_DSM_REVISION
      (BIT (SHPS_DSM_FN_IRQ_BASE_PRESENCE + type)) in
  (result_of r = 0 <-> irq_setup_ok pf type = true) /\
  (forall i, i <> type ->
   gpio (device_of r) i = gpio sd i /\ irq (device_of r) i = irq sd i) /\
  filter is_notify_call (events_of r) = [] /\
  (result_of r <> 0 \/ present = false ->
   gpio (device_of r) type = None /\
   irq (device_of r) type = SHPS_IRQ_NOT_PRESENT) /\
  (result_of r = 0 -> present = true ->
   exists gpiod,
     devm_gpiod_get pf (shps_gpio_names type) = inl gpiod /\
     gpio (device_of r) type = Some gpiod /\
     irq (device_of r) type = gpiod_to_irq pf gpiod /\
     0 <= gpiod_to_irq pf gpiod < 2 ^ 31).
Proof.
  intro Hok. cbv zeta.
  destruct (setup_paths pf type sd Hok) as (Oth & Quiet & _ & Cases).
  cbv zeta in Cases.
  destruct Cases as [(Ok & R & G & I)|[(Ok & P & R & G & I)|(Ok & P & R & X)]].
  - split; [split; [intro; contradiction | congruence]|].
    split; [exact Oth|]. split; [exact Quiet|].
    split; [intros _; split; assumption | intro; contradiction].
  - split; [split; [intros _; exact Ok | intros _; exact R]|].
    split; [exact Oth|]. split; [exact Quiet|].
    split; [intros _; split; assumption | intros _ P'; congruence].
  - split; [split; [intros _; exact Ok | intros _; exact R]|].
    split; [exact Oth|]. split; [exact Quiet|].
    split; [intros [?|?]; [contradiction | congruence] | intros _ _; exact X].
Qed.

Lemma setup_result_indep pf type sd sd' :
  result_of (shps_setup_irq pf type sd) = result_of (shps_setup_irq pf type sd').
Proof.
  unfold shps_setup_irq, bind, call, ret, set_gpio, set_irq, result_of.
  destruct (acpi_check_dsm pf SHPS_DSM_REVISION
              (BIT (SHPS_DSM_FN_IRQ_BASE_PRESENCE + type))); cbn;
    [|reflexivity].
  destruct (devm_gpiod_get pf (shps_gpio_names type)) as [gpiod|err]; cbn;
    [|reflexivity].
  destruct (gpiod_to_irq pf gpiod <? 0); cbn; [reflexivity|].
  destruct (devm_kasprintf pf type); cbn; [|reflexivity].
  destruct (devm_request_threaded_irq pf (gpiod_to_irq pf gpiod) =? 0); cbn;
    reflexivity.
Qed.

Lemma setup_loop_step pf i n sd :
  probe_setup_loop pf i (S n) sd
  = if result_of (shps_setup_irq pf i sd) =? 0
    then (result_of (probe_setup_loop pf (i + 1) n
                       (device_of (shps_setup_irq pf i sd))),
          device_of (probe_setup_loop pf (i + 1) n
                       (device_of (shps_setup_irq pf i sd))),
          call_mutex_init i
          :: events_of (shps_setup_irq pf i sd)
             ++ events_of (probe_setup_loop pf (i + 1) n
                             (device_of (shps_setup_irq pf i sd))))
    else (result_of (shps_setup_irq pf i sd),
          device_of (shps_setup_irq pf i sd),
          call_mutex_init i
          :: events_of (shps_setup_irq pf i sd)
             ++ [dev_err (failed_to_set_up_irq i
                            (result_of (shps_setup_irq pf i sd)))]).
Proof.
  cbn [probe_setup_loop]. unfold bind at 1 2. unfold call at 1.
  unfold result_of, device_of, events_of.
  destruct (shps_setup_irq pf i sd) as [[a d] l]. cbn [fst snd].
  destruct (a =? 0); cbn [negb].
  - destruct (probe_setup_loop pf (i + 1) n d) as [[b d'] l']. reflexivity.
  - unfold bind, call, ret. reflexivity.
Qed.

(** The first loop of probe, from index [i] on: either every set-up
    succeeds, or the loop stops at the first one that fails. *)
Lemma setup_loop_facts pf :
  platform_ok pf ->
  forall n i sd, 0 <= i ->
  let r := probe_setup_loop pf i n sd in
  filter is_notify_call (events_of r) = [] /\
  (forall k, k < i \/ i + Z.of_nat n <= k ->
   gpio (device_of r) k = gpio sd k /\ irq (device_of r) k = irq sd k) /\
  ((result_of r = 0 /\
    forall j, i <= j < i + Z.of_nat n ->
      irq_setup_ok pf j = true /\ slot_set_up pf (device_of r) j) \/
   (exists f,
      i <= f < i + Z.of_nat n /\
      irq_setup_ok pf f = false /\
      (forall j, i <= j < f -> irq_setup_ok pf j = true) /\
      result_of r <> 0 /\
      result_of r = result_of (shps_setup_irq pf f zeroed) /\
      forall e j, In e (events_of r) -> f < j -> touches_index j e = false)).
Proof.
  intro Hok. induction n as [|n IH]; intros i sd Hi; cbv zeta.
  - cbn. split; [reflexivity|]. split; [intros; split; reflexivity|].
    left. split; [reflexivity|]. intros j Hj. lia.
  - rewrite setup_loop_step.
    destruct (setup_paths pf i sd Hok) as (Oth & Quiet & Touch & Cases).
    cbv zeta in Cases, Oth, Quiet, Touch.
    assert (Touch' : forall e j, In e (events_of (shps_setup_irq pf i sd)) ->
                     i < j -> touches_index j e = false).
    { intros e j He Hj. destruct (touches_index j e) eqn:T; [|reflexivity].
      exfalso. destruct (Touch e j He T) as [B|B]; [|lia].
      apply BIT_inj in B; unfold SHPS_DSM_FN_IRQ_BASE_PRESENCE in *; lia. }
    destruct (Z.eqb_spec (result_of (shps_setup_irq pf i sd)) 0) as [R0|R0].
    + cbn [result_of device_of events_of fst snd].
      specialize (IH (i + 1) (device_of (shps_setup_irq pf i sd)) ltac:(lia)).
      cbv zeta in IH. destruct IH as (Q' & Oth' & Rest).
      assert (Slot : irq_setup_ok pf i = true /\
                     slot_set_up pf (device_of (shps_setup_irq pf i sd)) i).
      { destruct Cases as [(_ & R & _)|[(Ok & P & _ & G & I)|(Ok & P & _ & X)]].
        - contradiction.
        - split; [exact Ok|]. left. repeat split; assumption.
        - split; [exact Ok|]. right. split; assumption. }
      split.
      { cbn [filter is_notify_call]. rewrite filter_app, Quiet, Q'.
        reflexivity. }
      split.
      { intros k Hk. destruct (Oth' k ltac:(lia)) as [G I].
        destruct (Oth k ltac:(lia)) as [G0 I0]. split; congruence. }
      destruct Rest as [(R & All)|(f & Hf & Bad & Good & R & Rs & Far)].
      * left. split; [exact R|]. intros j Hj.
        destruct (Z.eq_dec j i) as [->|Ne].
        -- split; [apply Slot|]. destruct Slot as [_ Slot].
           destruct (Oth' i ltac:(lia)) as [G I].
           unfold slot_set_up in *. rewrite G, I. exact Slot.
        -- apply All. lia.
      * right. exists f. split; [lia|]. split; [exact Bad|].
        split.
        { intros j Hj. destruct (Z.eq_dec j i) as [->|Ne];
            [apply Slot | apply Good; lia]. }
        split; [exact R|]. split; [exact Rs|].
        intros e j [<-|He] Hj.
        -- cbn. apply Z.eqb_neq. lia.
        -- apply in_app_or in He. destruct He as [He|He].
           ++ apply Touch'; [exact He | lia].
           ++ apply Far; assumption.
    + cbn [result_of device_of events_of fst snd].
      split.
      { cbn [filter is_notify_call]. rewrite filter_app, Quiet. reflexivity. }
      split.
      { intros k Hk. apply Oth. lia. }
      right. exists i. split; [lia|].
      split.
      { destruct Cases as [(Bad & _)|[(_ & _ & R & _)|(_ & _ & R & _)]];
          [exact Bad | contradiction | contradiction]. }
      split; [intros j Hj; lia|]. split; [exact R0|].
      split; [apply setup_result_indep|].
      intros e j [<-|He] Hj.
      * cbn. apply Z.eqb_neq. lia.
      * apply in_app_or in He. destruct He as [He|[<-|[]]].
        -- apply Touch'; assumption.
        -- reflexivity.
Qed.

Lemma notify_loop_step pf i n sd :
  probe_notify_loop pf i (S n) sd
  = (tt, device_of (probe_notify_loop pf (i + 1) n sd),
     (if irq sd i =? SHPS_IRQ_NOT_PRESENT then []
      else events_of (shps_dsm_notify_irq pf i sd))
     ++ events_of (probe_notify_loop pf (i + 1) n sd)).
Proof.
  cbn [probe_notify_loop]. unfold bind, drvdata.
  pose proof (proj1 (notify_paths pf i sd)) as D.
  unfold device_of, events_of in *.
  destruct (irq sd i =? SHPS_IRQ_NOT_PRESENT); cbn [negb].
  - unfold ret at 1. cbn [app].
    destruct (probe_notify_loop pf (i + 1) n sd) as [[[] d] l]. reflexivity.
  - destruct (shps_dsm_notify_irq pf i sd) as [[[] d0] l0]. cbn in D. subst d0.
    destruct (probe_notify_loop pf (i + 1) n sd) as [[[] d] l]. reflexivity.
Qed.

(** The second loop of probe: the device data stay, the lock discipline
    holds, and only slots that are present are notified. *)
Lemma notify_loop_facts pf : forall n i sd,
  let r := probe_notify_loop pf i n sd in
  device_of r = sd /\
  well_locked None (events_of r) = true /\
  (forall e, In e (events_of r) -> is_dsm_eval e = true ->
   exists j, i <= j < i + Z.of_nat n /\
     irq sd j <> SHPS_IRQ_NOT_PRESENT /\
     e = call_acpi_evaluate_dsm SHPS_DSM_REVISION
           (SHPS_DSM_FN_IRQ_BASE_PRESENCE + j) (ACPI_TYPE_INTEGER pf)
           (gpiod_get_value_cansleep pf (gpio sd j))).
Proof.
  induction n as [|n IH]; intros i sd; cbv zeta.
  - cbn. split; [reflexivity|]. split; [reflexivity|]. intros e [].
  - rewrite notify_loop_step. cbn [device_of events_of fst snd].
    destruct (IH (i + 1) sd) as (D & W & Only). cbv zeta in D, W, Only.
    split; [exact D|]. split.
    + apply well_locked_app; [|exact W].
      destruct (irq sd i =? SHPS_IRQ_NOT_PRESENT);
        [reflexivity | apply notify_well_locked].
    + intros e He Hd. apply in_app_or in He. destruct He as [He|He].
      * destruct (Z.eqb_spec (irq sd i) SHPS_IRQ_NOT_PRESENT) as [|Ne];
          [destruct He|].
        exists i. split; [lia|]. split; [exact Ne|].
        assert (F : In e (filter is_dsm_eval
                            (events_of (shps_dsm_notify_irq pf i sd))))
          by (apply filter_In; split; assumption).
        destruct (notify_evaluates_and_frees_aux pf i sd) as [Ev _].
        rewrite Ev in F.
        destruct (gpiod_get_value_cansleep pf (gpio sd i) <? 0);
          [destruct F | destruct F as [<-|[]]; reflexivity].
      * destruct (Only e He Hd) as (j & Hj & P & E).
        exists j. split; [lia|]. split; assumption.
Qed.

Lemma probe_unfold pf sd :
  surface_hotplug_probe pf sd
  = if gpiod_count pf <? 0 then
      (- ENODEV pf, sd, [call_gpiod_count; dev_err gpiod_count_negative])
    else if negb (devm_acpi_dev_add_driver_gpios pf =? 0) then
      (devm_acpi_dev_add_driver_gpios pf, sd,
       [call_gpiod_count; call_devm_acpi_dev_add_driver_gpios;
        dev_err (failed_to_add_gpios (devm_acpi_dev_add_driver_gpios pf))])
    else if negb (devm_kzalloc pf) then
      (- ENOMEM pf, sd,
       [call_gpiod_count; call_devm_acpi_dev_add_driver_gpios;
        call_devm_kzalloc])
    else
      let l := probe_setup_loop pf 0 (Z.to_nat SHPS_NUM_IRQS) zeroed in
      if negb (result_of l =? 0) then
        (result_of l, device_of l, probe_prologue ++ events_of l)
      else
        (0, device_of l,
         probe_prologue ++ events_of l
         ++ events_of (probe_notify_loop pf 0 (Z.to_nat SHPS_NUM_IRQS)
                         (device_of l))).
Proof.
  unfold surface_hotplug_probe, probe_prologue.
  unfold bind at 1. unfold call at 1.
  destruct (gpiod_count pf <? 0); [reflexivity|].
  unfold bind at 1. unfold call at 1.
  destruct (devm_acpi_dev_add_driver_gpios pf =? 0); cbn [negb]; [|reflexivity].
  unfold bind at 1. unfold call at 1.
  destruct (devm_kzalloc pf); cbn [negb]; [|reflexivity].
  unfold bind at 1 2. cbv zeta.
  pose proof (proj1 (notify_loop_facts pf (Z.to_nat SHPS_NUM_IRQS) 0
                       (device_of (probe_setup_loop pf 0
                                     (Z.to_nat SHPS_NUM_IRQS) zeroed)))) as D.
  cbv zeta in D. unfold result_of, device_of, events_of in *.
  destruct (probe_setup_loop pf 0 (Z.to_nat SHPS_NUM_IRQS) zeroed)
    as [[st d] l]. cbn [fst snd] in *.
  destruct (st =? 0); cbn [negb].
  - unfold bind, ret.
    destruct (probe_notify_loop pf 0 (Z.to_nat SHPS_NUM_IRQS) d)
      as [[[] d'] l']. cbn [fst snd] in D. subst d'.
    cbn [app]. rewrite app_nil_r. reflexivity.
  - unfold ret. cbn [app]. rewrite app_nil_r. reflexivity.
Qed.

Lemma slot_set_up_ok pf sd t :
  slot_set_up pf sd t ->
  (irq sd t = SHPS_IRQ_NOT_PRESENT /\ gpio sd t = None) \/
  (0 <= irq sd t < 2 ^ 31 /\ gpio sd t <> None).
Proof.
  intros [(_ & G & I)|(_ & g & _ & G & I & R)].
  - left. split; assumption.
  - right. rewrite G, I. split; [exact R | discriminate].
Qed.

Lemma probe_outcome_aux pf sd :
  platform_ok pf ->
  result_of (surface_hotplug_probe pf sd) = 0 ->
  slots_ok (device_of (surface_hotplug_probe pf sd)) /\
  forall t, 0 <= t < SHPS_NUM_IRQS ->
    slot_set_up pf (device_of (surface_hotplug_probe pf sd)) t.
Proof.
  intros Hok. pose proof Hok as (Hdev & Hmem & _).
  rewrite probe_unfold.
  destruct (Z.ltb_spec (gpiod_count pf) 0) as [C|C]; [cbn; lia|].
  destruct (Z.eqb_spec (devm_acpi_dev_add_driver_gpios pf) 0) as [A|A];
    cbn [negb]; [|cbn; contradiction].
  destruct (devm_kzalloc pf) eqn:K; cbn [negb]; [|cbn; lia].
  cbv zeta.
  destruct (setup_loop_facts pf Hok (Z.to_nat SHPS_NUM_IRQS) 0 zeroed
              ltac:(lia)) as (_ & _ & Cases).
  cbv zeta in Cases.
  change (Z.of_nat (Z.to_nat SHPS_NUM_IRQS)) with SHPS_NUM_IRQS in Cases.
  destruct Cases as [(R & All)|(f & Hf & Bad & Good & R & _)].
  - rewrite R. cbn [Z.eqb negb result_of device_of events_of fst snd].
    intros _. split.
    + intros i Hi. apply (slot_set_up_ok pf). apply All. lia.
    + intros t Ht. apply All. lia.
  - destruct (Z.eqb_spec
                (result_of (probe_setup_loop pf 0 (Z.to_nat SHPS_NUM_IRQS)
                              zeroed)) 0) as [|Ne]; [contradiction|].
    cbn [negb result_of device_of events_of fst snd]. contradiction.
Qed.

(** X15.  What probe returns, on a platform whose answers are
    well-formed: 0 exactly when gpiod_count is not negative, adding the
    GPIO mapping and the allocation succeed and each of the three
    interrupts can be set up; whenever it returns an error it has made
    no notification call at all (no lock, no GPIO read, no DSM
    evaluation); and after a success every slot is as its set-up left
    it, either marked not present or holding a descriptor with a
    non-negative interrupt number. *)
Theorem probe_outcome pf sd :
  platform_ok pf ->
  let r := surface_hotplug_probe pf sd in
  (result_of r = 0 <->
   0 <= gpiod_count pf /\ devm_acpi_dev_add_driver_gpios pf = 0 /\
   devm_kzalloc pf = true /\
   forall t, 0 <= t < SHPS_NUM_IRQS -> irq_setup_ok pf t = true) /\
  (result_of r <> 0 -> filter is_notify_call (events_of r) = []) /\
  (result_of r = 0 ->
   slots_ok (device_of r) /\
   forall t, 0 <= t < SHPS_NUM_IRQS -> slot_set_up pf (device_of r) t).
Proof.
  intros Hok. pose proof Hok as (Hdev & Hmem & _). cbv zeta.
  rewrite probe_unfold.
  destruct (Z.ltb_spec (gpiod_count pf) 0) as [C|C].
  { cbn. split; [split; [lia | intros [? _]; lia]|].
    split; [reflexivity | lia]. }
  destruct (Z.eqb_spec (devm_acpi_dev_add_driver_gpios pf) 0) as [A|A];
    cbn [negb].
  2:{ cbn. split; [split; [contradiction | intros (_ & ? & _); contradiction]|].
      split; [reflexivity | contradiction]. }
  destruct (devm_kzalloc pf) eqn:K; cbn [negb].
  2:{ cbn. split; [split; [lia | intros (_ & _ & ? & _); discriminate]|].
      split; [reflexivity | lia]. }
  cbv zeta.
  destruct (setup_loop_facts pf Hok (Z.to_nat SHPS_NUM_IRQS) 0 zeroed
              ltac:(lia)) as (Quiet & _ & Cases).
  cbv zeta in Quiet, Cases.
  change (Z.of_nat (Z.to_nat SHPS_NUM_IRQS)) with SHPS_NUM_IRQS in Cases.
  destruct Cases as [(R & All)|(f & Hf & Bad & Good & R & _)].
  - rewrite R. cbn [Z.eqb negb result_of device_of events_of fst snd].
    split.
    { split; [|reflexivity]. intros _. split; [lia|]. split; [exact A|].
      split; [reflexivity|]. intros t Ht. apply All. lia. }
    split; [intro; contradiction|]. intros _. split.
    + intros i Hi. apply (slot_set_up_ok pf). apply All. lia.
    + intros t Ht. apply All. lia.
  - destruct (Z.eqb_spec
                (result_of (probe_setup_loop pf 0 (Z.to_nat SHPS_NUM_IRQS)
                              zeroed)) 0) as [|Ne]; [contradiction|].
    cbn [negb result_of device_of events_of fst snd].
    split.
    { split; [contradiction|]. intros (_ & _ & _ & All).
      rewrite All in Bad by lia. discriminate. }
    split; [|contradiction]. intros _.
    rewrite filter_app, Quiet. reflexivity.
Qed.

(** X16.  Probe stops at the first interrupt that cannot be set up: when
    the steps before the loop succeed and [f] is the first index whose
    set-up fails, probe returns the status of that set-up, which is not
    0, and makes no call for any later index: no mutex_init, no
    acpi_check_dsm for its function, no name for it. *)
Theorem probe_stops_at_first_failure pf sd f :
  platform_ok pf ->
  0 <= gpiod_count pf ->
  devm_acpi_dev_add_driver_gpios pf = 0 ->
  devm_kzalloc pf = true ->
  0 <= f < SHPS_NUM_IRQS ->
  irq_setup_ok pf f = false ->
  (forall j, 0 <= j < f -> irq_setup_ok pf j = true) ->
  let r := surface_hotplug_probe pf sd in
  result_of r = result_of (shps_setup_irq pf f zeroed) /\
  result_of r <> 0 /\
  (forall e j, In e (events_of r) -> f < j -> touches_index j e = false).
Proof.
  intros Hok C A K Hf Bad Good. cbv zeta. rewrite probe_unfold.
  destruct (Z.ltb_spec (gpiod_count pf) 0); [lia|].
  rewrite A, K. cbn [Z.eqb negb]. cbv zeta.
  destruct (setup_loop_facts pf Hok (Z.to_nat SHPS_NUM_IRQS) 0 zeroed
              ltac:(lia)) as (_ & _ & Cases).
  cbv zeta in Cases.
  change (Z.of_nat (Z.to_nat SHPS_NUM_IRQS)) with SHPS_NUM_IRQS in Cases.
  destruct Cases as [(_ & All)|(f' & Hf' & Bad' & Good' & R & Rs & Far)].
  { destruct (All f ltac:(lia)) as [Ok _]. congruence. }
  assert (f' = f) as ->.
  { destruct (Z.lt_trichotomy f' f) as [L|[E|L]]; [|exact E|].
    - rewrite (Good f') in Bad' by lia. discriminate.
    - rewrite (Good' f) in Bad by lia. discriminate. }
  destruct (Z.eqb_spec
              (result_of (probe_setup_loop pf 0 (Z.to_nat SHPS_NUM_IRQS)
                            zeroed)) 0) as [|Ne]; [contradiction|].
  cbn [negb result_of device_of events_of fst snd].
  split; [exact Rs|]. split; [exact R|].
  intros e j He Hj. apply in_app_or in He. destruct He as [He|He].
  - unfold probe_prologue in He.
    destruct He as [<-|[<-|[<-|[<-|[]]]]]; reflexivity.
  - apply Far; assumption.
Qed.

Lemma setup_quiet pf type sd :
  filter is_notify_call (events_of (shps_setup_irq pf type sd)) = [].
Proof.
  unfold shps_setup_irq, bind, call, ret, set_gpio, set_irq, events_of.
  destruct (acpi_check_dsm pf SHPS_DSM_REVISION
              (BIT (SHPS_DSM_FN_IRQ_BASE_PRESENCE + type))); cbn;
    [|reflexivity].
  destruct (devm_gpiod_get pf (shps_gpio_names type)) as [gpiod|err]; cbn;
    [|reflexivity].
  destruct (gpiod_to_irq pf gpiod <? 0); cbn; [reflexivity|].
  destruct (devm_kasprintf pf type); cbn; [|reflexivity].
  destruct (devm_request_threaded_irq pf (gpiod_to_irq pf gpiod) =? 0); cbn;
    reflexivity.
Qed.

Lemma setup_loop_quiet pf : forall n i sd,
  filter is_notify_call (events_of (probe_setup_loop pf i n sd)) = [].
Proof.
  induction n as [|n IH]; intros i sd; [reflexivity|].
  rewrite setup_loop_step.
  destruct (result_of (shps_setup_irq pf i sd) =? 0);
    cbn [events_of snd filter is_notify_call];
    rewrite filter_app, setup_quiet; [apply IH | reflexivity].
Qed.

Lemma remove_unfold sd :
  surface_hotplug_remove sd
  = (0, sd,
     map call_disable_irq
       (filter (fun n => negb (n =? SHPS_IRQ_NOT_PRESENT))
          [irq sd 0; irq sd 1; irq sd 2])).
Proof.
  unfold surface_hotplug_remove.
  change (Z.to_nat SHPS_NUM_IRQS) with 3%nat.
  cbn [remove_loop].
  change (0 + 1 + 1) with 2. change (0 + 1) with 1.
  cbn [filter]. unfold bind, drvdata, call, ret.
  destruct (irq sd 0 =? SHPS_IRQ_NOT_PRESENT);
    cbv beta iota zeta delta [negb];
    destruct (irq sd 1 =? SHPS_IRQ_NOT_PRESENT);
    cbv beta iota zeta delta [negb];
    destruct (irq sd 2 =? SHPS_IRQ_NOT_PRESENT);
    cbv beta iota zeta delta [negb]; reflexivity.
Qed.

(** X10.  Lock discipline.  In every run of a notification, of the
    interrupt handler, of probe and of remove, whatever the platform
    answers, a mutex is locked only while none is held and released by
    an unlock of the same index on every path, the error exits
    included; the GPIO is read and the DSM evaluated only while the
    mutex is held; and no mutex is held when the function returns. *)
Theorem lock_discipline pf sd :
  (forall type,
   well_locked None (events_of (shps_dsm_notify_irq pf type sd)) = true) /\
  (forall n, well_locked None (events_of (shps_handle_irq pf n sd)) = true) /\
  well_locked None (events_of (surface_hotplug_probe pf sd)) = true /\
  well_locked None (events_of (surface_hotplug_remove sd)) = true.
Proof.
  split; [intro type; apply notify_well_locked|].
  split; [|split].
  - intro n. unfold shps_handle_irq. rewrite events_bind.
    cbn [drvdata events_of result_of device_of fst snd app].
    destruct (shps_irq_lookup sd n 0 (Z.to_nat SHPS_NUM_IRQS) >=? SHPS_NUM_IRQS).
    + reflexivity.
    + rewrite events_bind. cbn [ret events_of snd]. rewrite app_nil_r.
      apply notify_well_locked.
  - rewrite probe_unfold.
    destruct (gpiod_count pf <? 0); [reflexivity|].
    destruct (negb (devm_acpi_dev_add_driver_gpios pf =? 0)); [reflexivity|].
    destruct (negb (devm_kzalloc pf)); [reflexivity|].
    cbv zeta.
    destruct (negb (result_of (probe_setup_loop pf 0 (Z.to_nat SHPS_NUM_IRQS)
                                 zeroed) =? 0));
      cbn [events_of snd].
    + apply quiet_well_locked. rewrite filter_app, setup_loop_quiet.
      reflexivity.
    + apply well_locked_app; [reflexivity|].
      apply well_locked_app;
        [apply quiet_well_locked, setup_loop_quiet
        |apply (notify_loop_facts pf)].
  - rewrite remove_unfold. cbn [events_of snd].
    apply quiet_well_locked.
    induction (filter (fun n => negb (n =? SHPS_IRQ_NOT_PRESENT))
                 [irq sd 0; irq sd 1; irq sd 2]) as [|a l IH];
      [reflexivity | exact IH].
Qed.

(** X17.  Remove returns 0, leaves the device data alone and calls
    disable_irq once for each slot that is not marked
    SHPS_IRQ_NOT_PRESENT, in index order, and makes no other call; in
    particular it never disables the sentinel. *)
Theorem remove_disables_present sd :
  result_of (surface_hotplug_remove sd) = 0 /\
  device_of (surface_hotplug_remove sd) = sd /\
  events_of (surface_hotplug_remove sd)
  = map call_disable_irq
      (filter (fun n => negb (n =? SHPS_IRQ_NOT_PRESENT))
         [irq sd 0; irq sd 1; irq sd 2]) /\
  ~ In (call_disable_irq SHPS_IRQ_NOT_PRESENT)
       (events_of (surface_hotplug_remove sd)).
Proof.
  rewrite remove_unfold. cbn [result_of device_of events_of fst snd].
  repeat split. intro H. apply in_map_iff in H.
  destruct H as (n & E & F). injection E as ->.
  apply filter_In in F. destruct F as [_ F].
  rewrite Z.eqb_refl in F. discriminate.
Qed.

(** X18.  After a probe that succeeded, an interrupt that was set up is
    served: for a type whose DSM function is present, the handler
    called with the interrupt number of its descriptor takes the
    notification path, for the first slot holding that number, and that
    slot has a descriptor (the GPIO read is never made on NULL). *)
Theorem probe_then_handle pf sd t g :
  platform_ok pf ->
  result_of (surface_hotplug_probe pf sd) = 0 ->
  0 <= t < SHPS_NUM_IRQS ->
  acpi_check_dsm pf SHPS_DSM_REVISION
    (BIT (SHPS_DSM_FN_IRQ_BASE_PRESENCE + t)) = true ->
  devm_gpiod_get pf (shps_gpio_names t) = inl g ->
  let d := device_of (surface_hotplug_probe pf sd) in
  let n := gpiod_to_irq pf g in
  exists t',
    0 <= t' <= t /\ irq d t' = n /\ gpio d t' <> None /\
    events_of (shps_handle_irq pf n d)
    = events_of (shps_dsm_notify_irq pf t' d).
Proof.
  intros Hok R Ht P G. cbv zeta.
  destruct (probe_outcome_aux pf sd Hok R) as [_ Slots].
  pose proof (Slots t Ht) as [(Abs & _)|(_ & g' & G' & Gd & Id & Rg)];
    [congruence|].
  rewrite G in G'. injection G' as <-.
  destruct (handle_irq_paths pf (device_of (surface_hotplug_probe pf sd))
              (gpiod_to_irq pf g) Rg) as (_ & _ & Found & _).
  cbv zeta in Found.
  destruct (Found (ex_intro _ t (conj Ht Id))) as (Rt & It & Np & First & Ev).
  exists (shps_irq_lookup (device_of (surface_hotplug_probe pf sd))
            (gpiod_to_irq pf g) 0 (Z.to_nat SHPS_NUM_IRQS)).
  split.
  { split; [lia|].
    destruct (Z_le_gt_dec
                (shps_irq_lookup (device_of (surface_hotplug_probe pf sd))
                   (gpiod_to_irq pf g) 0 (Z.to_nat SHPS_NUM_IRQS)) t)
      as [L|L]; [exact L|].
    exfalso. apply (First t); [lia | exact Id]. }
  split; [exact It|]. split; [|exact Ev].
  destruct (slot_set_up_ok pf _ _ (Slots _ Rt)) as [(I & _)|(_ & Gn)];
    [contradiction | exact Gn].
Qed.

End ShpsFacts.

(** ** The further theorems at concrete inputs *)

Lemma msgb_push_frame_profile_witness :
  (6 <= room (msgb_init boot 100 6) /\
   pushed 0 (msgb_init boot 100 6)
     (msgb_push_frame (msgb_init boot 100 6) 0x03 10 1)
     (frame_bytes 0x03 10 1 ++ le16 (ssh_crc (frame_bytes 0x03 10 1)))) /\
  (4 <= room (msgb_init boot 100 5) < 6 /\
   pushed 1 (msgb_init boot 100 5)
     (msgb_push_frame (msgb_init boot 100 5) 0x03 10 1)
     (frame_bytes 0x03 10 1)) /\
  (room (msgb_init boot 100 3) < 4 /\
   pushed 1 (msgb_init boot 100 3)
     (msgb_push_frame (msgb_init boot 100 3) 0x03 10 1) []).
Proof.
  assert (H6 : 6 <= room (msgb_init boot 100 6)) by (vm_compute; discriminate).
  assert (H5 : 4 <= room (msgb_init boot 100 5) < 6)
    by (split; vm_compute; [discriminate | reflexivity]).
  assert (H3 : room (msgb_init boot 100 3) < 4) by (vm_compute; reflexivity).
  split; [|split].
  - split; [exact H6|].
    exact (proj1 (msgb_push_frame_profile (hub := test_hub)
                    (msgb_init boot 100 6) 0x03 10 1) H6).
  - split; [exact H5|].
    exact (proj1 (proj2 (msgb_push_frame_profile (hub := test_hub)
                           (msgb_init boot 100 5) 0x03 10 1)) H5).
  - split; [exact H3|].
    exact (proj2 (proj2 (msgb_push_frame_profile (hub := test_hub)
                           (msgb_init boot 100 3) 0x03 10 1)) H3).
Defined.

Lemma ack_nak_profile_witness :
  (10 <= room (msgb_init boot 100 10) /\
   pushed 0 (msgb_init boot 100 10) (msgb_push_ack (msgb_init boot 100 10) 5)
     (message_bytes SSH_FRAME_TYPE_ACK 0 5 [])) /\
  (8 <= room (msgb_init boot 100 9) < 10 /\
   pushed 1 (msgb_init boot 100 9) (msgb_push_ack (msgb_init boot 100 9) 5)
     (preamble_bytes SSH_FRAME_TYPE_ACK 0 5)) /\
  (6 <= room (msgb_init boot 100 7) < 8 /\
   pushed 2 (msgb_init boot 100 7) (msgb_push_ack (msgb_init boot 100 7) 5)
     (le16 SSH_MSG_SYN ++ frame_bytes SSH_FRAME_TYPE_ACK 0 5)) /\
  (4 <= room (msgb_init boot 100 5) < 6 /\
   pushed 1 (msgb_init boot 100 5) (msgb_push_ack (msgb_init boot 100 5) 5)
     (le16 SSH_MSG_SYN ++ le16 (ssh_crc []))) /\
  (2 <= room (msgb_init boot 100 3) < 4 /\
   pushed 2 (msgb_init boot 100 3) (msgb_push_ack (msgb_init boot 100 3) 5)
     (le16 SSH_MSG_SYN)) /\
  (room (msgb_init boot 100 1) < 2 /\
   pushed 3 (msgb_init boot 100 1) (msgb_push_nak (msgb_init boot 100 1)) []).
Proof.
  assert (H10 : 10 <= room (msgb_init boot 100 10))
    by (vm_compute; discriminate).
  assert (H9 : 8 <= room (msgb_init boot 100 9) < 10)
    by (split; vm_compute; [discriminate | reflexivity]).
  assert (H7 : 6 <= room (msgb_init boot 100 7) < 8)
    by (split; vm_compute; [discriminate | reflexivity]).
  assert (H5 : 4 <= room (msgb_init boot 100 5) < 6)
    by (split; vm_compute; [discriminate | reflexivity]).
  assert (H3 : 2 <= room (msgb_init boot 100 3) < 4)
    by (split; vm_compute; [discriminate | reflexivity]).
  assert (H1 : room (msgb_init boot 100 1) < 2) by (vm_compute; reflexivity).
  destruct (ack_nak_profile (hub := test_hub) (msgb_init boot 100 10) 5)
    as [(P10 & _) _].
  destruct (ack_nak_profile (hub := test_hub) (msgb_init boot 100 9) 5)
    as [(_ & P9 & _) _].
  destruct (ack_nak_profile (hub := test_hub) (msgb_init boot 100 7) 5)
    as [(_ & _ & P7 & _) _].
  destruct (ack_nak_profile (hub := test_hub) (msgb_init boot 100 5) 5)
    as [(_ & _ & _ & P5 & _) _].
  destruct (ack_nak_profile (hub := test_hub) (msgb_init boot 100 3) 5)
    as [(_ & _ & _ & _ & P3 & _) _].
  destruct (ack_nak_profile (hub := test_hub) (msgb_init boot 100 1) 5)
    as [_ (_ & _ & _ & _ & _ & P1)].
  split; [split; [exact H10 | exact (P10 H10)]|].
  split; [split; [exact H9 | exact (P9 H9)]|].
  split; [split; [exact H7 | exact (P7 H7)]|].
  split; [split; [exact H5 | exact (P5 H5)]|].
  split; [split; [exact H3 | exact (P3 H3)]|].
  split; [exact H1 | exact (P1 H1)].
Defined.

Lemma msgb_push_cmd_profile_witness :
  0 <= length example_rqst /\
  message_length (sizeof_ssh_command + length example_rqst)
    <= room (msgb_init example_state 100 32) /\
  16 <= room (msgb_init example_state 100 17)
     < message_length (sizeof_ssh_command + length example_rqst) /\
  8 <= room (msgb_init example_state 100 12) < 16 /\
  (exists pl,
     pushed 0 (msgb_init example_state 100 32)
       (msgb_push_cmd (msgb_init example_state 100 32) 1 7 example_rqst)
       (message_bytes SSH_FRAME_TYPE_DATA_SEQ
          (sizeof_ssh_command + length example_rqst) 1
          (command_bytes SSH_PLD_TYPE_CMD 7 example_rqst ++ pl))) /\
  (exists pl,
     List.length pl = 2%nat /\
     pushed 1 (msgb_init example_state 100 17)
       (msgb_push_cmd (msgb_init example_state 100 17) 1 7 example_rqst)
       (preamble_bytes SSH_FRAME_TYPE_DATA_SEQ
          (sizeof_ssh_command + length example_rqst) 1
        ++ command_bytes SSH_PLD_TYPE_CMD 7 example_rqst ++ pl)) /\
  pushed 1 (msgb_init example_state 100 12)
    (msgb_push_cmd (msgb_init example_state 100 12) 1 7 example_rqst)
    (preamble_bytes SSH_FRAME_TYPE_DATA_SEQ
       (sizeof_ssh_command + length example_rqst) 1).
Proof.
  assert (Hl : 0 <= length example_rqst) by (vm_compute; discriminate).
  assert (H32 : message_length (sizeof_ssh_command + length example_rqst)
                <= room (msgb_init example_state 100 32))
    by (vm_compute; discriminate).
  assert (H17 : 16 <= room (msgb_init example_state 100 17)
                < message_length (sizeof_ssh_command + length example_rqst))
    by (split; vm_compute; [discriminate | reflexivity]).
  assert (H12 : 8 <= room (msgb_init example_state 100 12) < 16)
    by (split; vm_compute; [discriminate | reflexivity]).
  destruct (msgb_push_cmd_profile (hub := test_hub)
              (msgb_init example_state 100 32) 1 7 example_rqst Hl)
    as (pl32 & _ & _ & P32 & _).
  destruct (msgb_push_cmd_profile (hub := test_hub)
              (msgb_init example_state 100 17) 1 7 example_rqst Hl)
    as (pl17 & L17 & _ & _ & P17 & _).
  destruct (msgb_push_cmd_profile (hub := test_hub)
              (msgb_init example_state 100 12) 1 7 example_rqst Hl)
    as (pl12 & _ & _ & _ & _ & P12 & _).
  split; [exact Hl|]. split; [exact H32|]. split; [exact H17|].
  split; [exact H12|].
  split; [exists pl32; exact (P32 H32)|].
  split; [exists pl17; split; [exact L17 | exact (P17 H17)]|].
  exact (P12 H12).
Defined.

Lemma msgb_push_cmd_complete_iff_witness :
  0 <= length example_rqst /\
  warnings (msgb_push_cmd (msgb_init example_state 100 32) 1 7 example_rqst)
  = warnings (msgb_init example_state 100 32) /\
  warnings (msgb_push_cmd (msgb_init example_state 100 17) 1 7 example_rqst)
  <> warnings (msgb_init example_state 100 17).
Proof.
  assert (Hl : 0 <= length example_rqst) by (vm_compute; discriminate).
  destruct (msgb_push_cmd_complete_iff (hub := test_hub)
              (msgb_init example_state 100 32) 1 7 example_rqst Hl)
    as [W32 _].
  destruct (msgb_push_cmd_complete_iff (hub := test_hub)
              (msgb_init example_state 100 17) 1 7 example_rqst Hl)
    as [W17 _].
  split; [exact Hl|]. split.
  - apply W32. vm_compute. discriminate.
  - intro E. apply W17 in E. vm_compute in E. apply E. reflexivity.
Defined.

Lemma msgb_push_cmd_overrun_iff_witness :
  msgb_inv (msgb (msgb_init example_state 100 17)) /\
  0 <= length example_rqst /\
  end_ (msgb (msgb_push_cmd (msgb_init example_state 100 17) 1 7 example_rqst))
  < ptr (msgb (msgb_push_cmd (msgb_init example_state 100 17) 1 7 example_rqst))
  /\
  in_bounds_step (msgb_init example_state 100 18)
    (msgb_push_cmd (msgb_init example_state 100 18) 1 7 example_rqst).
Proof.
  assert (I17 : msgb_inv (msgb (msgb_init example_state 100 17)))
    by (split; vm_compute; discriminate).
  assert (I18 : msgb_inv (msgb (msgb_init example_state 100 18)))
    by (split; vm_compute; discriminate).
  assert (Hl : 0 <= length example_rqst) by (vm_compute; discriminate).
  destruct (msgb_push_cmd_overrun_iff (hub := test_hub)
              (msgb_init example_state 100 17) 1 7 example_rqst I17 Hl)
    as [Over _].
  destruct (msgb_push_cmd_overrun_iff (hub := test_hub)
              (msgb_init example_state 100 18) 1 7 example_rqst I18 Hl)
    as [_ In_].
  split; [exact I17|]. split; [exact Hl|]. split.
  - apply Over. split; vm_compute; [discriminate | reflexivity].
  - apply In_. right. vm_compute. discriminate.
Defined.

Lemma pushes_reach_witness :
  0 <= 2 /\ 0 <= length example_rqst /\
  reach 2 (msgb_init example_state 100 1)
    (msgb_push_buf (msgb_init example_state 100 1) 500 2) /\
  reach (message_length (sizeof_ssh_command + length example_rqst))
    (msgb_init example_state 100 17)
    (msgb_push_cmd (msgb_init example_state 100 17) 1 7 example_rqst).
Proof.
  assert (H2 : 0 <= 2) by lia.
  assert (Hl : 0 <= length example_rqst) by (vm_compute; discriminate).
  destruct (pushes_reach (hub := test_hub) (msgb_init example_state 100 1))
    as (_ & _ & _ & _ & _ & B & _).
  destruct (pushes_reach (hub := test_hub) (msgb_init example_state 100 17))
    as (_ & _ & _ & _ & _ & _ & C).
  split; [exact H2|]. split; [exact Hl|].
  split; [exact (B 500 2 H2) | exact (C 1 7 example_rqst Hl)].
Defined.

Lemma checked_pushes_in_bounds_witness :
  msgb_inv (msgb (msgb_init example_state 100 5)) /\
  in_bounds_step (msgb_init example_state 100 5)
    (msgb_push_ack (msgb_init example_state 100 5) 5) /\
  msgb_bytes_used (msgb_push_ack (msgb_init example_state 100 5) 5) <= 5.
Proof.
  assert (I : msgb_inv (msgb (msgb_init example_state 100 5)))
    by (split; vm_compute; discriminate).
  destruct (checked_pushes_in_bounds (hub := test_hub)
              (msgb_init example_state 100 5) I)
    as (_ & _ & _ & _ & A & _).
  split; [exact I|]. exact (A 5).
Defined.

Lemma messages_back_to_back_witness :
  0 <= length example_rqst /\
  message_length 0 + message_length (sizeof_ssh_command + length example_rqst)
    <= room (msgb_init example_state 100 30) /\
  apart (payload example_rqst) (length example_rqst)
    (ptr (msgb (msgb_init example_state 100 30))) (message_length 0 + 16) /\
  pushed 0 (msgb_init example_state 100 30)
    (msgb_push_cmd (msgb_push_ack (msgb_init example_state 100 30) 5)
       1 7 example_rqst)
    (message_bytes SSH_FRAME_TYPE_ACK 0 5 []
     ++ message_bytes SSH_FRAME_TYPE_DATA_SEQ
          (sizeof_ssh_command + length example_rqst) 1
          (command_bytes SSH_PLD_TYPE_CMD 7 example_rqst
           ++ payload_bytes (heap (msgb_init example_state 100 30))
                example_rqst)).
Proof.
  assert (Hl : 0 <= length example_rqst) by (vm_compute; discriminate).
  assert (R : message_length 0
              + message_length (sizeof_ssh_command + length example_rqst)
              <= room (msgb_init example_state 100 30))
    by (vm_compute; discriminate).
  assert (A : apart (payload example_rqst) (length example_rqst)
                (ptr (msgb (msgb_init example_state 100 30)))
                (message_length 0 + 16))
    by (right; vm_compute; discriminate).
  split; [exact Hl|]. split; [exact R|]. split; [exact A|].
  exact (messages_back_to_back (hub := test_hub)
           (msgb_init example_state 100 30) 5 1 7 example_rqst Hl R A).
Defined.

Lemma example_platform_ok : Shps.platform_ok Shps.example_platform.
Proof.
  unfold Shps.platform_ok. cbn.
  split; [lia|]. split; [lia|]. split.
  - intros name err H.
    repeat match type of H with
           | context [if ?c then _ else _] => destruct c
           end; discriminate.
  - intro d. lia.
Qed.

Lemma failing_platform_ok : Shps.platform_ok Shps.failing_platform.
Proof.
  unfold Shps.platform_ok. cbn.
  split; [lia|]. split; [lia|]. split.
  - intros name err H.
    repeat match type of H with
           | context [if ?c then _ else _] => destruct c
           end; discriminate.
  - intro d. lia.
Qed.

Lemma example_setup_all t :
  0 <= t < Shps.SHPS_NUM_IRQS ->
  Shps.irq_setup_ok Shps.example_platform t = true.
Proof.
  intro H. destruct (ShpsFacts.three_indices t H) as [->|[->| ->]];
    reflexivity.
Qed.

Lemma handle_irq_dispatch_witness :
  0 <= 42 < 2 ^ 31 /\
  Shps.result_of
    (Shps.shps_handle_irq Shps.example_platform 42
       (Shps.device_of
          (Shps.surface_hotplug_probe Shps.example_platform Shps.zeroed)))
  = 1.
Proof.
  assert (H : 0 <= 42 < 2 ^ 31) by lia.
  split; [exact H|].
  exact (proj1 (ShpsFacts.handle_irq_dispatch Shps.example_platform
                  (Shps.device_of
                     (Shps.surface_hotplug_probe Shps.example_platform
                        Shps.zeroed)) 42 H)).
Defined.

Lemma setup_irq_outcome_witness :
  Shps.platform_ok Shps.example_platform /\
  Shps.result_of (Shps.shps_setup_irq Shps.example_platform 0 Shps.zeroed) = 0 /\
  Shps.irq_setup_ok Shps.failing_platform 1 = false /\
  Shps.result_of (Shps.shps_setup_irq Shps.failing_platform 1 Shps.zeroed) <> 0.
Proof.
  split; [exact example_platform_ok|]. split.
  - apply (proj1 (ShpsFacts.setup_irq_outcome Shps.example_platform 0
                    Shps.zeroed example_platform_ok)).
    reflexivity.
  - split; [reflexivity|]. intro E.
    apply (proj1 (ShpsFacts.setup_irq_outcome Shps.failing_platform 1
                    Shps.zeroed failing_platform_ok)) in E.
    discriminate E.
Defined.

Lemma probe_outcome_witness :
  Shps.platform_ok Shps.example_platform /\
  Shps.result_of (Shps.surface_hotplug_probe Shps.example_platform Shps.zeroed)
  = 0 /\
  Shps.slots_ok
    (Shps.device_of
       (Shps.surface_hotplug_probe Shps.example_platform Shps.zeroed)).
Proof.
  destruct (ShpsFacts.probe_outcome Shps.example_platform Shps.zeroed
              example_platform_ok) as (Iff & _ & Good).
  assert (R : Shps.result_of
                (Shps.surface_hotplug_probe Shps.example_platform Shps.zeroed)
              = 0).
  { apply Iff. split; [vm_compute; discriminate|].
    split; [reflexivity|]. split; [reflexivity|]. exact example_setup_all. }
  split; [exact example_platform_ok|]. split; [exact R|].
  exact (proj1 (Good R)).
Defined.

Lemma probe_stops_at_first_failure_witness :
  Shps.platform_ok Shps.failing_platform /\
  0 <= Shps.gpiod_count Shps.failing_platform /\
  Shps.devm_acpi_dev_add_driver_gpios Shps.failing_platform = 0 /\
  Shps.devm_kzalloc Shps.failing_platform = true /\
  0 <= 1 < Shps.SHPS_NUM_IRQS /\
  Shps.irq_setup_ok Shps.failing_platform 1 = false /\
  (forall j, 0 <= j < 1 -> Shps.irq_setup_ok Shps.failing_platform j = true) /\
  Shps.result_of (Shps.surface_hotplug_probe Shps.failing_platform Shps.zeroed)
  = Shps.result_of (Shps.shps_setup_irq Shps.failing_platform 1 Shps.zeroed) /\
  Shps.result_of (Shps.shps_setup_irq Shps.failing_platform 1 Shps.zeroed)
  = -16.
Proof.
  assert (C : 0 <= Shps.gpiod_count Shps.failing_platform)
    by (vm_compute; discriminate).
  assert (F : 0 <= 1 < Shps.SHPS_NUM_IRQS)
    by (split; vm_compute; [discriminate | reflexivity]).
  assert (G : forall j, 0 <= j < 1 ->
              Shps.irq_setup_ok Shps.failing_platform j = true).
  { intros j Hj. assert (j = 0) as -> by lia. reflexivity. }
  split; [exact failing_platform_ok|]. split; [exact C|].
  split; [reflexivity|]. split; [reflexivity|]. split; [exact F|].
  split; [reflexivity|]. split; [exact G|].
  split; [|reflexivity].
  exact (proj1 (ShpsFacts.probe_stops_at_first_failure Shps.failing_platform
                  Shps.zeroed 1 failing_platform_ok C eq_refl eq_refl F
                  eq_refl G)).
Defined.

Lemma probe_then_handle_witness :
  Shps.platform_ok Shps.example_platform /\
  Shps.result_of (Shps.surface_hotplug_probe Shps.example_platform Shps.zeroed)
  = 0 /\
  0 <= 2 < Shps.SHPS_NUM_IRQS /\
  Shps.devm_gpiod_get Shps.example_platform (Shps.shps_gpio_names 2) = inl 102 /\
  exists t',
    0 <= t' <= 2 /\
    Shps.events_of
      (Shps.shps_handle_irq Shps.example_platform
         (Shps.gpiod_to_irq Shps.example_platform 102)
         (Shps.device_of
            (Shps.surface_hotplug_probe Shps.example_platform Shps.zeroed)))
    = Shps.events_of
        (Shps.shps_dsm_notify_irq Shps.example_platform t'
           (Shps.device_of
              (Shps.surface_hotplug_probe Shps.example_platform Shps.zeroed))).
Proof.
  assert (R : Shps.result_of
                (Shps.surface_hotplug_probe Shps.example_platform Shps.zeroed)
              = 0) by reflexivity.
  assert (T : 0 <= 2 < Shps.SHPS_NUM_IRQS)
    by (split; vm_compute; [discriminate | reflexivity]).
  split; [exact example_platform_ok|]. split; [exact R|]. split; [exact T|].
  split; [reflexivity|].
  destruct (ShpsFacts.probe_then_handle Shps.example_platform Shps.zeroed 2 102
              example_platform_ok R T eq_refl eq_refl)
    as (t' & Ht & _ & _ & E).
  exists t'. split; [exact Ht | exact E].
Defined.
